(** * Gate controller firmware for the ATmega8535

    A shallow embedding of [src/gate_controller_atmega8535.c].

    The firmware is a single C translation unit: five [volatile] globals,
    a handful of memory-mapped registers, two EEPROM cells, one interrupt
    handler and a cooperative main loop.  It is modelled by explicit state
    passing over a record [Ctl].  Everything the firmware does to the
    outside world that is not a register (UART text, watchdog service,
    busy-wait delays, EEPROM programming) is recorded in a [trace] of
    events carried by the state, newest event first.

    Integers are [Z]; every store into a [uint8_t], [uint16_t] or
    [uint32_t] object is written with its wrap-around. *)

From Stdlib Require Import ZArith List String Ascii Bool Lia.
Import ListNotations.
Open Scope Z_scope.

(** ** Machine integers *)

Definition u8 (x : Z) : Z := x mod 256.
Definition u16 (x : Z) : Z := x mod 65536.
Definition u32 (x : Z) : Z := x mod 4294967296.

(** [1 << n] *)
Definition bit (n : Z) : Z := Z.shiftl 1 n.

(** C truth value of an integer used as a condition. *)
Definition truthy (x : Z) : bool := negb (x =? 0).

(** ** Constants of the source file *)

Definition F_CPU : Z := 8000000.
Definition BAUD : Z := 9600.
Definition UBRR_VALUE : Z := F_CPU / (16 * BAUD) - 1.

Definition REGULAR_RESET_HOURS : Z := 6.
Definition MS_PER_HOUR : Z := 3600000.

Definition GATE_OPERATION_TIME : Z := 30000.
Definition RELAY_SWITCHING_DELAY : Z := 100.
Definition BUTTON_DEBOUNCE_DELAY : Z := 250.
Definition SHORT_DELAY : Z := 10.
Definition RESET_DELAY : Z := 5000.

Definition EEPROM_ADDR : Z := 0.
Definition EEPROM_RESET_FLAG : Z := 1.

Definition GATE_CLOSED : Z := 0.
Definition GATE_CLOSING : Z := 1.
Definition GATE_OPENING : Z := 2.
Definition GATE_OPEN : Z := 3.

(** ** Constants of the device header

    Bit positions and watchdog prescaler codes come from avr-libc
    ([avr/io.h] for the ATmega8535, [avr/wdt.h]); they are not part of the
    repository and are fixed here to the values of that header. *)

Definition PB0 : Z := 0.
Definition PB1 : Z := 1.
Definition PB2 : Z := 2.
Definition PB3 : Z := 3.
Definition PD2 : Z := 2.
Definition PD4 : Z := 4.
Definition PD5 : Z := 5.
Definition INT0 : Z := 6.
Definition ISC00 : Z := 0.
Definition ISC01 : Z := 1.
Definition PORF : Z := 0.
Definition EXTRF : Z := 1.
Definition BORF : Z := 2.
Definition WDRF : Z := 3.
Definition TXEN : Z := 3.
Definition URSEL : Z := 7.
Definition UCSZ0 : Z := 1.
Definition UCSZ1 : Z := 2.
Definition WDTO_15MS : Z := 0.
Definition WDTO_1S : Z := 6.

Definition WDT_TIMEOUT : Z := WDTO_1S.

Definition RELAY_K1 : Z := PB0.
Definition RELAY_K2 : Z := PB1.
Definition RELAY_K3 : Z := PB2.
Definition RELAY_K4 : Z := PB3.
Definition BUTTON_PIN : Z := PD2.
Definition LED_OPENING : Z := PD4.
Definition LED_CLOSING : Z := PD5.

(** ** State *)

(** The I/O registers the firmware writes.  [PIND] is an input: its
    successive readings are supplied to the interrupt handler. *)
Inductive Reg : Type :=
| PORTB | PORTD | DDRB | DDRD | MCUCSR | GICR | MCUCR
| UBRRH | UBRRL | UCSRB | UCSRC.

Definition Reg_eq_dec (a b : Reg) : {a = b} + {a <> b}.
Proof. decide equality. Defined.

(** Effects on the outside world. *)
Inductive Event : Type :=
| EvUart (msg : string)            (* uart_tx_string_P(PSTR(msg)) *)
| EvWdr                            (* wdt_reset() *)
| EvWdtEnable (timeout : Z)        (* wdt_enable(timeout) *)
| EvDelay (ms : Z)                 (* _delay_ms(ms) *)
| EvEepromWrite (addr val : Z)     (* eeprom_write_byte(addr, val) *)
| EvSei.                           (* sei() *)

Record Ctl : Type := mkCtl {
  io : Reg -> Z;              (* memory-mapped registers *)
  gate_state : Z;             (* volatile uint8_t *)
  button_pressed : Z;         (* volatile uint8_t *)
  gate_moving : Z;            (* volatile uint8_t *)
  idle_timer_ms : Z;          (* volatile uint32_t *)
  reset_scheduled : Z;        (* volatile uint8_t *)
  eeprom : Z -> Z;            (* EEPROM cells by address *)
  trace : list Event          (* newest first *)
}.

Definition set_io (f : Reg -> Z) (s : Ctl) : Ctl :=
  mkCtl f (gate_state s) (button_pressed s) (gate_moving s)
        (idle_timer_ms s) (reset_scheduled s) (eeprom s) (trace s).
Definition set_gate_state (v : Z) (s : Ctl) : Ctl :=
  mkCtl (io s) v (button_pressed s) (gate_moving s)
        (idle_timer_ms s) (reset_scheduled s) (eeprom s) (trace s).
Definition set_button_pressed (v : Z) (s : Ctl) : Ctl :=
  mkCtl (io s) (gate_state s) v (gate_moving s)
        (idle_timer_ms s) (reset_scheduled s) (eeprom s) (trace s).
Definition set_gate_moving (v : Z) (s : Ctl) : Ctl :=
  mkCtl (io s) (gate_state s) (button_pressed s) v
        (idle_timer_ms s) (reset_scheduled s) (eeprom s) (trace s).
Definition set_idle_timer_ms (v : Z) (s : Ctl) : Ctl :=
  mkCtl (io s) (gate_state s) (button_pressed s) (gate_moving s)
        v (reset_scheduled s) (eeprom s) (trace s).
Definition set_reset_scheduled (v : Z) (s : Ctl) : Ctl :=
  mkCtl (io s) (gate_state s) (button_pressed s) (gate_moving s)
        (idle_timer_ms s) v (eeprom s) (trace s).
Definition set_eeprom (e : Z -> Z) (s : Ctl) : Ctl :=
  mkCtl (io s) (gate_state s) (button_pressed s) (gate_moving s)
        (idle_timer_ms s) (reset_scheduled s) e (trace s).
Definition set_trace (t : list Event) (s : Ctl) : Ctl :=
  mkCtl (io s) (gate_state s) (button_pressed s) (gate_moving s)
        (idle_timer_ms s) (reset_scheduled s) (eeprom s) t.

Definition emit (e : Event) (s : Ctl) : Ctl := set_trace (e :: trace s) s.

(** Register access.  [reg_or r m] is [r |= m], [reg_andnot r m] is
    [r &= ~m]; the result is stored into an 8-bit register. *)
Definition upd {A : Type} (r : Reg) (v : A) (f : Reg -> A) : Reg -> A :=
  fun r' => if Reg_eq_dec r r' then v else f r'.

Definition reg_write (r : Reg) (v : Z) (s : Ctl) : Ctl :=
  set_io (upd r (u8 v) (io s)) s.
Definition reg_or (r : Reg) (m : Z) (s : Ctl) : Ctl :=
  reg_write r (Z.lor (io s r) m) s.
Definition reg_andnot (r : Reg) (m : Z) (s : Ctl) : Ctl :=
  reg_write r (Z.land (io s r) (Z.lnot m)) s.

(** ** Library primitives *)

Definition crlf : string :=
  String (ascii_of_nat 13) (String (ascii_of_nat 10) EmptyString).

(** A message of the firmware; every one of them ends in CR LF. *)
Definition line (msg : string) : string := (msg ++ crlf)%string.

Definition uart_tx_string_P (msg : string) (s : Ctl) : Ctl :=
  emit (EvUart msg) s.

Definition eeprom_read_byte (addr : Z) (s : Ctl) : Z := eeprom s addr.

Definition eeprom_write_byte (addr val : Z) (s : Ctl) : Ctl :=
  emit (EvEepromWrite addr val)
       (set_eeprom (fun a => if a =? addr then val else eeprom s a) s).

(** [_delay_ms] executed with interrupts masked (inside the handler). *)
Definition delay_masked (ms : Z) (s : Ctl) : Ctl := emit (EvDelay ms) s.

(** ** Watchdog *)

Definition reset_watchdog (s : Ctl) : Ctl := emit EvWdr s.

Definition init_watchdog (s : Ctl) : Ctl :=
  uart_tx_string_P (line "Watchdog timer enabled.")
    (emit (EvWdtEnable WDT_TIMEOUT) (emit EvWdr s)).

Definition schedule_reset (s : Ctl) : Ctl :=
  if negb (truthy (gate_moving s)) && negb (truthy (reset_scheduled s)) then
    set_idle_timer_ms 0
      (set_reset_scheduled 1
        (uart_tx_string_P
           (line "Scheduled reset after 6 hours of inactivity") s))
  else s.

(** ** Persistent state store *)

Definition read_gate_state (s : Ctl) : Z :=
  let state := eeprom_read_byte EEPROM_ADDR s in
  let state := if state =? GATE_CLOSING then GATE_CLOSED else state in
  let state := if state =? GATE_OPENING then GATE_OPEN else state in
  state.

Definition write_gate_state (state : Z) (s : Ctl) : Ctl :=
  if negb (read_gate_state s =? state) then
    eeprom_write_byte EEPROM_ADDR state s
  else s.

Definition check_reset_flag (s : Ctl) : Z * Ctl :=
  let flag := eeprom_read_byte EEPROM_RESET_FLAG s in
  if negb (flag =? 0) then (flag, eeprom_write_byte EEPROM_RESET_FLAG 0 s)
  else (flag, s).

(** ** Indicators and relays *)

Definition indicate_opening (s : Ctl) : Ctl :=
  reg_andnot PORTD (bit LED_CLOSING) (reg_or PORTD (bit LED_OPENING) s).

Definition indicate_closing (s : Ctl) : Ctl :=
  reg_andnot PORTD (bit LED_OPENING) (reg_or PORTD (bit LED_CLOSING) s).

Definition indicate_stop (s : Ctl) : Ctl :=
  reg_andnot PORTD (Z.lor (bit LED_OPENING) (bit LED_CLOSING)) s.

(** The text [report_state] sends for a gate state; the [switch] has no
    [default], so any other value sends nothing. *)
Definition state_message (g : Z) : option string :=
  if g =? GATE_CLOSED then Some (line "State: Gate Closed")
  else if g =? GATE_CLOSING then Some (line "State: Gate Closing")
  else if g =? GATE_OPENING then Some (line "State: Gate Opening")
  else if g =? GATE_OPEN then Some (line "State: Gate Open")
  else None.

Definition report_state (s : Ctl) : Ctl :=
  match state_message (gate_state s) with
  | Some msg => uart_tx_string_P msg s
  | None => s
  end.

Definition ALL_RELAYS : Z :=
  Z.lor (Z.lor (Z.lor (bit RELAY_K1) (bit RELAY_K2)) (bit RELAY_K3))
        (bit RELAY_K4).

Definition stop_gate (s : Ctl) : Ctl :=
  set_gate_moving 0 (indicate_stop (reg_andnot PORTB ALL_RELAYS s)).

(** ** Emergency stop *)

Definition emergency_stop (s : Ctl) : Ctl :=
  let s := uart_tx_string_P
             (line "Emergency stop: gate halted immediately") s in
  let s := stop_gate s in
  let s := reset_watchdog s in
  let s := set_idle_timer_ms 0 s in
  let s := set_reset_scheduled 0 s in
  let s :=
    if gate_state s =? GATE_OPENING then
      uart_tx_string_P
        (line "Gate movement interrupted while opening. Considering gate open")
        (set_gate_state GATE_OPEN s)
    else if gate_state s =? GATE_CLOSING then
      uart_tx_string_P
        (line "Gate movement interrupted while closing. Considering gate closed")
        (set_gate_state GATE_CLOSED s)
    else s in
  let s := write_gate_state (gate_state s) s in
  report_state s.

(** ** Button interrupt

    [ISR(INT0_vect)] runs with interrupts masked.  It reads [PIND] once
    for the [if] and once per evaluation of the [while] condition; the
    readings are supplied in order as [pind].  [None] means that the
    handler is still busy-waiting when the supplied readings end. *)

Definition button_low (pind : Z) : bool :=
  Z.land pind (bit BUTTON_PIN) =? 0.

Fixpoint isr_hold (pind : list Z) (s : Ctl) : option Ctl :=
  match pind with
  | [] => None
  | p :: rest =>
      if button_low p then
        isr_hold rest (reset_watchdog (delay_masked SHORT_DELAY s))
      else Some s
  end.

Definition ISR_INT0 (pind : list Z) (s : Ctl) : option Ctl :=
  let s := reset_watchdog (delay_masked BUTTON_DEBOUNCE_DELAY s) in
  match pind with
  | [] => None
  | p :: rest =>
      if button_low p then
        match isr_hold rest s with
        | None => None
        | Some s =>
            let s := set_reset_scheduled 0 (set_idle_timer_ms 0 s) in
            if truthy (gate_moving s) then Some (emergency_stop s)
            else Some (set_button_pressed 1 s)
        end
      else Some s
  end.

(** ** Controlled reset

    [perform_controlled_reset] ends in [while(1);] and never returns: its
    result is the state in which the firmware spins until the watchdog
    restarts the chip. *)

Definition perform_controlled_reset (s : Ctl) : Ctl :=
  let s := uart_tx_string_P (line "Performing controlled system reset") s in
  let s := if truthy (gate_moving s) then stop_gate s else s in
  let s := eeprom_write_byte EEPROM_RESET_FLAG 1 s in
  emit (EvWdtEnable WDTO_15MS) s.

(** ** Code that runs with interrupts enabled

    The main context spends its time in [_delay_ms]; the interrupt
    context is taken there.  [irq] is the effect of whatever handler runs
    (and returns) during one delay: the identity when no edge arrives.  It
    sees the whole state, the trace included, so it may depend on the
    time elapsed. *)

Section MainContext.

Variable irq : Ctl -> Ctl.

Definition delay_ms (ms : Z) (s : Ctl) : Ctl := irq (emit (EvDelay ms) s).

(** One turn of the body of the motion loop, up to the test of
    [gate_moving]. *)
Definition poll (s : Ctl) : Ctl := reset_watchdog (delay_ms SHORT_DELAY s).

(** [for (uint16_t i = 0; i < GATE_OPERATION_TIME; i += SHORT_DELAY)]
    from counter value [i].  The flag of the result is [true] when the
    body executed [return], [false] when the loop condition failed. *)
Fixpoint motion_window (fuel : nat) (i : Z) (s : Ctl)
  : option (bool * Ctl) :=
  if i <? GATE_OPERATION_TIME then
    match fuel with
    | O => None
    | S fuel' =>
        let s := poll s in
        if negb (truthy (gate_moving s)) then Some (true, s)
        else motion_window fuel' (u16 (i + SHORT_DELAY)) s
    end
  else Some (false, s).

(** [open_gate] up to the loop. *)
Definition open_gate_begin (s : Ctl) : Ctl :=
  let s := stop_gate s in
  let s := reset_watchdog s in
  let s := delay_ms RELAY_SWITCHING_DELAY s in
  let s := reg_or PORTB (Z.lor (bit RELAY_K1) (bit RELAY_K4)) s in
  let s := indicate_opening s in
  let s := set_gate_state GATE_OPENING s in
  let s := report_state s in
  let s := set_gate_moving 1 s in
  let s := set_idle_timer_ms 0 s in
  set_reset_scheduled 0 s.

(** [open_gate] after the loop. *)
Definition open_gate_finish (s : Ctl) : Ctl :=
  let s := stop_gate s in
  let s := set_gate_state GATE_OPEN s in
  let s := write_gate_state (gate_state s) s in
  let s := report_state s in
  uart_tx_string_P
    (line "30 seconds have passed, setting gate to fully open") s.

Definition open_gate (fuel : nat) (s : Ctl) : option Ctl :=
  match motion_window fuel 0 (open_gate_begin s) with
  | None => None
  | Some (true, s) => Some s
  | Some (false, s) => Some (open_gate_finish s)
  end.

Definition close_gate_begin (s : Ctl) : Ctl :=
  let s := stop_gate s in
  let s := reset_watchdog s in
  let s := delay_ms RELAY_SWITCHING_DELAY s in
  let s := reg_or PORTB (Z.lor (bit RELAY_K2) (bit RELAY_K3)) s in
  let s := indicate_closing s in
  let s := set_gate_state GATE_CLOSING s in
  let s := report_state s in
  let s := set_gate_moving 1 s in
  let s := set_idle_timer_ms 0 s in
  set_reset_scheduled 0 s.

Definition close_gate_finish (s : Ctl) : Ctl :=
  let s := stop_gate s in
  let s := set_gate_state GATE_CLOSED s in
  let s := write_gate_state (gate_state s) s in
  let s := report_state s in
  uart_tx_string_P
    (line "30 seconds have passed, setting gate to fully closed") s.

Definition close_gate (fuel : nat) (s : Ctl) : option Ctl :=
  match motion_window fuel 0 (close_gate_begin s) with
  | None => None
  | Some (true, s) => Some s
  | Some (false, s) => Some (close_gate_finish s)
  end.

(** [toggle_gate] up to its [if]. *)
Definition toggle_prologue (s : Ctl) : Ctl :=
  set_reset_scheduled 0 (set_idle_timer_ms 0 (reset_watchdog s)).

Definition toggle_gate (fuel : nat) (s : Ctl) : option Ctl :=
  let s := toggle_prologue s in
  if (gate_state s =? GATE_CLOSED) || (gate_state s =? GATE_CLOSING) then
    let s :=
      if gate_state s =? GATE_CLOSING then
        uart_tx_string_P
          (line "Gate currently closing, changing direction to opening") s
      else
        uart_tx_string_P (line "Gate currently closed, opening") s in
    open_gate fuel s
  else
    let s :=
      if gate_state s =? GATE_OPENING then
        uart_tx_string_P
          (line "Gate currently opening, changing direction to closing") s
      else
        uart_tx_string_P (line "Gate currently open, closing") s in
    close_gate fuel s.

(** *** Main loop *)

(** The state of [main] inside its loop: the globals and the local
    [uint16_t ms_counter]. *)
Record Main : Type := mkMain { ctl : Ctl; ms_counter : Z }.

Inductive Outcome : Type :=
| Running (m : Main)     (* the iteration completed *)
| Spinning (s : Ctl).    (* stuck in [while(1);] of the controlled reset *)

(** The body of [if (ms_counter >= 1000)], after [ms_counter = 0]. *)
Definition supervisor (s : Ctl) : Outcome :=
  let s :=
    if (REGULAR_RESET_HOURS * MS_PER_HOUR <=? idle_timer_ms s)
       && negb (truthy (gate_moving s))
       && negb (truthy (reset_scheduled s))
    then schedule_reset s else s in
  if truthy (reset_scheduled s) && (RESET_DELAY <=? idle_timer_ms s)
  then Spinning (perform_controlled_reset s)
  else Running (mkMain s 0).

(** The loop body from [_delay_ms(1)] on. *)
Definition main_tick (ms : Z) (s : Ctl) : Outcome :=
  let s := delay_ms 1 s in
  let ms := u16 (ms + 1) in
  let s :=
    if negb (truthy (gate_moving s)) then
      set_idle_timer_ms (u32 (idle_timer_ms s + 1)) s
    else s in
  if 1000 <=? ms then supervisor s else Running (mkMain s ms).

(** One iteration of [while (1)] in [main]. *)
Definition main_iter (fuel : nat) (m : Main) : option Outcome :=
  let s := reset_watchdog (ctl m) in
  let r :=
    if truthy (button_pressed s) then
      toggle_gate fuel (set_button_pressed 0 s)
    else Some s in
  match r with
  | None => None
  | Some s => Some (main_tick (ms_counter m) s)
  end.

(** [n] iterations; nothing executes once the firmware spins. *)
Fixpoint main_loop (fuel : nat) (n : nat) (o : Outcome) : option Outcome :=
  match n with
  | O => Some o
  | S n' =>
      match o with
      | Spinning s => Some (Spinning s)
      | Running m =>
          match main_iter fuel m with
          | None => None
          | Some o' => main_loop fuel n' o'
          end
      end
  end.

End MainContext.

(** No interrupt arrives. *)
Definition no_irq (s : Ctl) : Ctl := s.

(** The state after [k] turns of the motion loop when none of them
    returns. *)
Fixpoint polls (irq : Ctl -> Ctl) (k : nat) (s : Ctl) : Ctl :=
  match k with
  | O => s
  | S k' => polls irq k' (poll irq s)
  end.

(** Turns of the motion loop in a full window. *)
Definition WINDOW_POLLS : nat := Z.to_nat (GATE_OPERATION_TIME / SHORT_DELAY).

(** ** Boot *)

Definition init_io (s : Ctl) : Ctl :=
  let s := reg_or DDRB ALL_RELAYS s in
  let s := reg_or DDRD (Z.lor (bit LED_OPENING) (bit LED_CLOSING)) s in
  let s := reg_andnot DDRD (bit BUTTON_PIN) s in
  reg_or PORTD (bit BUTTON_PIN) s.

Definition uart_init (s : Ctl) : Ctl :=
  let s := reg_write UBRRH (Z.shiftr UBRR_VALUE 8) s in
  let s := reg_write UBRRL UBRR_VALUE s in
  let s := reg_write UCSRB (bit TXEN) s in
  reg_write UCSRC (Z.lor (Z.lor (bit URSEL) (bit UCSZ1)) (bit UCSZ0)) s.

Definition init_interrupts (s : Ctl) : Ctl :=
  let s := reg_or GICR (bit INT0) s in
  let s := reg_or MCUCR (bit ISC01) s in
  let s := reg_andnot MCUCR (bit ISC00) s in
  emit EvSei s.

(** One of the four reset-cause reports of [main]. *)
Definition report_cause (mcucsr_value : Z) (flag : Z) (msg : string)
    (s : Ctl) : Ctl :=
  if negb (Z.land mcucsr_value (bit flag) =? 0) then
    reg_andnot MCUCSR (bit flag) (uart_tx_string_P msg s)
  else s.

(** [main] up to [while (1)]. *)
Definition main_init (s : Ctl) : Main :=
  let s := init_io s in
  let s := uart_init s in
  let s := uart_tx_string_P (line "ATMega8535 booting") s in
  let s := uart_tx_string_P (line "I/O initialized") s in
  let s := init_interrupts s in
  let s := uart_tx_string_P (line "Interrupts enabled") s in
  let mcucsr_value := io s MCUCSR in
  let s := report_cause mcucsr_value WDRF
             (line "System restarted via watchdog reset") s in
  let s := report_cause mcucsr_value PORF
             (line "System experienced a power-on reset") s in
  let s := report_cause mcucsr_value EXTRF
             (line "System experienced an external reset") s in
  let s := report_cause mcucsr_value BORF
             (line "System experienced a brown-out reset") s in
  let (flag, s) := check_reset_flag s in
  let s :=
    if truthy flag then
      uart_tx_string_P (line "System recovered from controlled reset") s
    else s in
  let s := set_gate_state (read_gate_state s) s in
  let s := uart_tx_string_P (line "EEPROM read complete") s in
  let s := init_watchdog s in
  let s := uart_tx_string_P (line "ATMega8535 ready") s in
  let s := report_state s in
  mkMain s 0.

(** The state in which [main] is entered: the registers and the EEPROM
    as the hardware holds them, the globals as the C runtime initialises
    them. *)
Definition startup (regs : Reg -> Z) (ee : Z -> Z) : Ctl :=
  mkCtl regs 0 0 0 0 0 ee [].

(** ** Vocabulary of the statements *)

(** All four relay outputs de-energised. *)
Definition relays_off (s : Ctl) : Prop :=
  Z.testbit (io s PORTB) RELAY_K1 = false /\
  Z.testbit (io s PORTB) RELAY_K2 = false /\
  Z.testbit (io s PORTB) RELAY_K3 = false /\
  Z.testbit (io s PORTB) RELAY_K4 = false.

(** Both direction indicators dark. *)
Definition leds_off (s : Ctl) : Prop :=
  Z.testbit (io s PORTD) LED_OPENING = false /\
  Z.testbit (io s PORTD) LED_CLOSING = false.

(** [n] copies of the event block [l], one after the other. *)
Fixpoint cycles (l : list Event) (n : nat) : list Event :=
  match n with
  | O => []
  | S n' => l ++ cycles l n'
  end.

(** A store whose gate-state cell holds the code of Closing, as a
    programmer or an earlier firmware may leave it. *)
Definition stale_closing : Ctl :=
  startup (fun _ => 0) (fun a => if a =? EEPROM_ADDR then GATE_CLOSING else 0).

(** A gate in the middle of an opening motion: relays K1 and K4 and the
    opening indicator on, blank store. *)
Definition mid_opening : Ctl :=
  mkCtl (fun r => match r with PORTB => 9 | PORTD => 20 | _ => 0 end)
        GATE_OPENING 0 1 0 0 (fun _ => 0) [].

(** A closed, idle gate fresh from the C runtime, blank store. *)
Definition idle_closed : Ctl := startup (fun _ => 0) (fun _ => 0).

(** What a motion routine does with its window.  [run] is the result of
    the routine started in [s], [w] its state on entering the loop,
    [finish] its code after the loop, [ra] and [rb] the relays of its
    direction, [transient] and [resting] the gate states it sets. *)
Definition motion_window_contract (irq : Ctl -> Ctl) (run : option Ctl)
    (w : Ctl) (finish : Ctl -> Ctl) (ra rb transient resting : Z)
    (s : Ctl) : Prop :=
  (* on entry: direction relays energised, transient state, flag set *)
  (Z.testbit (io w PORTB) ra = true /\ Z.testbit (io w PORTB) rb = true /\
   gate_state w = transient /\ gate_moving w = 1) /\
  (* one turn: a 10 ms delay, then a watchdog service *)
  (forall x, poll irq x = reset_watchdog (irq (emit (EvDelay SHORT_DELAY) x))) /\
  (* flag found clear at turn k+1: return in the state the interrupt
     context left, one watchdog service later; the routine itself
     finalises nothing *)
  (forall k,
     (k < WINDOW_POLLS)%nat ->
     (forall m, (1 <= m <= k)%nat -> gate_moving (polls irq m w) <> 0) ->
     gate_moving (polls irq (S k) w) = 0 ->
     run = Some (polls irq (S k) w) /\
     polls irq (S k) w =
       reset_watchdog (irq (emit (EvDelay SHORT_DELAY) (polls irq k w))) /\
     ((forall x, gate_state (irq x) = gate_state x) ->
        gate_state (polls irq (S k) w) = transient) /\
     ((forall x, eeprom (irq x) = eeprom x) ->
        eeprom (polls irq (S k) w) = eeprom s)) /\
  (* the button handler takes a qualifying press during turn k+1: the
     routine returns what the emergency stop left, the gate state
     resolved to the resting value and persisted *)
  (forall k p rest y',
     (k < WINDOW_POLLS)%nat ->
     (forall m, (1 <= m <= k)%nat -> gate_moving (polls irq m w) <> 0) ->
     gate_state (polls irq k w) = transient ->
     ISR_INT0 (p :: rest) (emit (EvDelay SHORT_DELAY) (polls irq k w)) =
       Some y' ->
     button_low p = true ->
     irq (emit (EvDelay SHORT_DELAY) (polls irq k w)) = y' ->
     run = Some (reset_watchdog y') /\
     gate_moving (reset_watchdog y') = 0 /\
     gate_state (reset_watchdog y') = resting /\
     read_gate_state (reset_watchdog y') = resting) /\
  (* flag set at every turn: finalise after the full window *)
  ((forall m, (1 <= m <= WINDOW_POLLS)%nat ->
      gate_moving (polls irq m w) <> 0) ->
   let f := finish (polls irq WINDOW_POLLS w) in
   run = Some f /\ relays_off f /\ leds_off f /\ gate_moving f = 0 /\
   gate_state f = resting /\ read_gate_state f = resting /\
   (eeprom (polls irq WINDOW_POLLS w) EEPROM_ADDR <> GATE_CLOSING ->
    eeprom (polls irq WINDOW_POLLS w) EEPROM_ADDR <> GATE_OPENING ->
    eeprom f EEPROM_ADDR = resting)).

(** An interrupt context that does nothing but clear the moving flag. *)
Definition clear_moving (s : Ctl) : Ctl := set_gate_moving 0 s.

(** The button handler taken, with a press held for two readings, in
    every delay that finds the gate moving. *)
Definition press_when_moving (s : Ctl) : Ctl :=
  if truthy (gate_moving s) then
    match ISR_INT0 [0; 0; 4] s with
    | Some s' => s'
    | None => s
    end
  else s.

(** The gate state a UART message reports, if it is one of the four
    texts of [report_state]. *)
Definition reported_state (e : Event) : option Z :=
  match e with
  | EvUart m =>
      if String.eqb m (line "State: Gate Closed") then Some GATE_CLOSED
      else if String.eqb m (line "State: Gate Closing") then Some GATE_CLOSING
      else if String.eqb m (line "State: Gate Opening") then Some GATE_OPENING
      else if String.eqb m (line "State: Gate Open") then Some GATE_OPEN
      else None
  | _ => None
  end.

(** The gate states reported in a trace, newest first like the trace. *)
Fixpoint state_reports (t : list Event) : list Z :=
  match t with
  | [] => []
  | e :: t' =>
      match reported_state e with
      | Some g => g :: state_reports t'
      | None => state_reports t'
      end
  end.

(** The gate states the firmware reported so far, oldest first. *)
Definition state_history (s : Ctl) : list Z := rev (state_reports (trace s)).

(** [n] toggles in a row, each with its motion window left alone. *)
Fixpoint toggles (fuel : nat) (n : nat) (s : Ctl) : option Ctl :=
  match n with
  | O => Some s
  | S n' =>
      match toggle_gate no_irq fuel s with
      | Some s' => toggles fuel n' s'
      | None => None
      end
  end.

Definition resting (closed : bool) : Z :=
  if closed then GATE_CLOSED else GATE_OPEN.

(** The states [n] toggles go through from a resting state. *)
Fixpoint gate_cycle (closed : bool) (n : nat) : list Z :=
  match n with
  | O => []
  | S n' =>
      (if closed then [GATE_OPENING; GATE_OPEN]
       else [GATE_CLOSING; GATE_CLOSED]) ++ gate_cycle (negb closed) n'
  end.

(** The main loop between two actions: no press pending, gate at rest,
    counters in range. *)
Definition quiet (m : Main) : Prop :=
  button_pressed (ctl m) = 0 /\ gate_moving (ctl m) = 0 /\
  0 <= ms_counter m < 1000 /\ 0 <= idle_timer_ms (ctl m).

(** Idle time the supervisor lets pass before it acts: the long-idle
    threshold while no reset is scheduled, the grace delay once one is. *)
Definition quiet_bound (s : Ctl) : Z :=
  if reset_scheduled s =? 0 then REGULAR_RESET_HOURS * MS_PER_HOUR
  else RESET_DELAY.

(** [m'] is [m] after [n] idle milliseconds in which nothing happened. *)
Definition advanced (n : Z) (m m' : Main) : Prop :=
  quiet m' /\
  reset_scheduled (ctl m') = reset_scheduled (ctl m) /\
  idle_timer_ms (ctl m') = idle_timer_ms (ctl m) + n /\
  ms_counter m' = (ms_counter m + n) mod 1000 /\
  gate_state (ctl m') = gate_state (ctl m) /\
  eeprom (ctl m') = eeprom (ctl m) /\
  io (ctl m') = io (ctl m).

(** A closed gate on which the supervisor has just scheduled the reset. *)
Definition just_scheduled : Main :=
  mkMain (set_reset_scheduled 1 idle_closed) 0.

(** ** Vocabulary of the further properties *)

(** An interrupt context made of the button handler alone: during a
    delay either no edge arrives, or the handler runs once on some
    readings of the line and returns. *)
Definition handler_env (irq : Ctl -> Ctl) : Prop :=
  forall s, irq s = s \/ exists pind, ISR_INT0 pind s = Some (irq s).

(** The gate at rest: flag clear, outputs off, a gate state that is not
    transient and that the store reads back. *)
Definition at_rest (s : Ctl) : Prop :=
  gate_moving s = 0 /\ relays_off s /\ leds_off s /\
  gate_state s <> GATE_CLOSING /\ gate_state s <> GATE_OPENING /\
  read_gate_state s = gate_state s.

(** The resting state a motion heads for. *)
Definition destination (transient : Z) : Z :=
  if transient =? GATE_OPENING then GATE_OPEN else GATE_CLOSED.

(** The relays of the other direction are off. *)
Definition opposing_off (transient : Z) (s : Ctl) : Prop :=
  if transient =? GATE_OPENING then
    Z.testbit (io s PORTB) RELAY_K2 = false /\
    Z.testbit (io s PORTB) RELAY_K3 = false
  else
    Z.testbit (io s PORTB) RELAY_K1 = false /\
    Z.testbit (io s PORTB) RELAY_K4 = false.

(** A write to the gate-state cell carries the code of a resting state. *)
Definition write_ok (e : Event) : Prop :=
  match e with
  | EvEepromWrite a v => a = EEPROM_ADDR -> v = GATE_CLOSED \/ v = GATE_OPEN
  | _ => True
  end.

Definition resting_writes (t : list Event) : Prop := Forall write_ok t.

(** Busy-wait time since the latest watchdog service of a trace. *)
Fixpoint since_wdr (t : list Event) : Z :=
  match t with
  | [] => 0
  | EvWdr :: _ => 0
  | EvDelay d :: t' => d + since_wdr t'
  | _ :: t' => since_wdr t'
  end.

(** At no moment of the trace had more than [b] ms of busy-wait passed
    since the latest watchdog service. *)
Fixpoint gaps_leb (b : Z) (t : list Event) : bool :=
  match t with
  | [] => true
  | _ :: t' => (since_wdr t <=? b) && gaps_leb b t'
  end.

(** Dead time, one window quantum and the debounce delay in a row. *)
Definition MAX_SERVICE_GAP : Z :=
  RELAY_SWITCHING_DELAY + SHORT_DELAY + BUTTON_DEBOUNCE_DELAY.

(** The watchdog was never left waiting longer than [MAX_SERVICE_GAP],
    and at most [a] ms have passed since its latest service. *)
Definition serviced (a : Z) (t : list Event) : Prop :=
  gaps_leb MAX_SERVICE_GAP t = true /\ 0 <= since_wdr t <= a.

(** An event that takes no busy-wait time and is no watchdog service. *)
Definition untimed (e : Event) : Prop :=
  match e with
  | EvWdr | EvDelay _ => False
  | _ => True
  end.

(** [t'] is [t] with untimed events added, none of them a write of a
    transient code to the gate-state cell. *)
Definition quiet_ext (t t' : list Event) : Prop :=
  exists ext, t' = ext ++ t /\ Forall untimed ext /\ Forall write_ok ext.

(** A motion under way in its window, as a turn of the loop finds it. *)
Definition in_window (transient : Z) (s : Ctl) : Prop :=
  gate_moving s <> 0 /\ gate_state s = transient /\
  idle_timer_ms s = 0 /\ opposing_off transient s /\
  resting_writes (trace s) /\ serviced RELAY_SWITCHING_DELAY (trace s).

(** A motion over, by the end of its window or by an emergency stop. *)
Definition arrived (transient : Z) (s : Ctl) : Prop :=
  at_rest s /\ gate_state s = destination transient /\
  idle_timer_ms s = 0 /\
  resting_writes (trace s) /\ serviced RELAY_SWITCHING_DELAY (trace s).

(** What holds between two iterations of the main loop. *)
Definition steady (m : Main) : Prop :=
  at_rest (ctl m) /\
  resting_writes (trace (ctl m)) /\
  serviced MAX_SERVICE_GAP (trace (ctl m)) /\
  0 <= ms_counter m < 1000 /\
  0 <= idle_timer_ms (ctl m) <
    REGULAR_RESET_HOURS * MS_PER_HOUR + ms_counter m.

(** What holds of an outcome of the main loop. *)
Definition steady_outcome (o : Outcome) : Prop :=
  match o with
  | Running m => steady m
  | Spinning r =>
      at_rest r /\ resting_writes (trace r) /\
      serviced MAX_SERVICE_GAP (trace r) /\
      eeprom r EEPROM_RESET_FLAG = 1
  end.

(** The state of an outcome. *)
Definition outcome_ctl (o : Outcome) : Ctl :=
  match o with
  | Running m => ctl m
  | Spinning r => r
  end.

(** A trace holds the UART message [msg]. *)
Definition said (msg : string) (t : list Event) : bool :=
  existsb (fun e => match e with
                    | EvUart m => String.eqb m msg
                    | _ => false
                    end) t.

(** [main] up to the check of the reset marker. *)
Definition boot_pre (s : Ctl) : Ctl :=
  let s := init_io s in
  let s := uart_init s in
  let s := uart_tx_string_P (line "ATMega8535 booting") s in
  let s := uart_tx_string_P (line "I/O initialized") s in
  let s := init_interrupts s in
  let s := uart_tx_string_P (line "Interrupts enabled") s in
  let mcucsr_value := io s MCUCSR in
  let s := report_cause mcucsr_value WDRF
             (line "System restarted via watchdog reset") s in
  let s := report_cause mcucsr_value PORF
             (line "System experienced a power-on reset") s in
  let s := report_cause mcucsr_value EXTRF
             (line "System experienced an external reset") s in
  report_cause mcucsr_value BORF
    (line "System experienced a brown-out reset") s.

(** [main] from the check of the reset marker to its loop, given what
    [check_reset_flag] returned. *)
Definition boot_post (flag : Z) (s : Ctl) : Main :=
  let s :=
    if truthy flag then
      uart_tx_string_P (line "System recovered from controlled reset") s
    else s in
  let s := set_gate_state (read_gate_state s) s in
  let s := uart_tx_string_P (line "EEPROM read complete") s in
  let s := init_watchdog s in
  let s := uart_tx_string_P (line "ATMega8535 ready") s in
  let s := report_state s in
  mkMain s 0.

(** What a boot sends and does, newest first, for the reset causes
    latched in [mcucsr], the marker [flag] and the gate state [g] read
    from the store. *)
Definition boot_transcript (mcucsr flag g : Z) : list Event :=
  (match state_message g with Some m => [EvUart m] | None => [] end)
  ++ [EvUart (line "ATMega8535 ready");
      EvUart (line "Watchdog timer enabled.");
      EvWdtEnable WDT_TIMEOUT; EvWdr;
      EvUart (line "EEPROM read complete")]
  ++ (if flag =? 0 then []
      else [EvUart (line "System recovered from controlled reset");
            EvEepromWrite EEPROM_RESET_FLAG 0])
  ++ (if Z.testbit mcucsr BORF
      then [EvUart (line "System experienced a brown-out reset")] else [])
  ++ (if Z.testbit mcucsr EXTRF
      then [EvUart (line "System experienced an external reset")] else [])
  ++ (if Z.testbit mcucsr PORF
      then [EvUart (line "System experienced a power-on reset")] else [])
  ++ (if Z.testbit mcucsr WDRF
      then [EvUart (line "System restarted via watchdog reset")] else [])
  ++ [EvUart (line "Interrupts enabled"); EvSei;
      EvUart (line "I/O initialized"); EvUart (line "ATMega8535 booting")].

(** The machine restarted: registers as the hardware resets them, the
    globals as the C runtime initialises them, the EEPROM as it was. *)
Definition reboot (regs : Reg -> Z) (s : Ctl) : Ctl := startup regs (eeprom s).

(** A motion under way, as a turn of the loop finds it: flag set,
    transient state, idle timer and scheduled-reset flag reset, the
    relays of the other direction off. *)
Definition under_way (transient : Z) (s : Ctl) : Prop :=
  gate_moving s <> 0 /\ gate_state s = transient /\
  idle_timer_ms s = 0 /\ reset_scheduled s = 0 /\ opposing_off transient s.

(** A motion over: the gate at rest in the state it was heading for. *)
Definition landed (transient : Z) (s : Ctl) : Prop :=
  at_rest s /\ gate_state s = destination transient /\
  idle_timer_ms s = 0 /\ reset_scheduled s = 0.

(** The button pressed and released again in every delay: the handler
    runs each time, on a reading that is low and one that is high. *)
Definition press_each_delay (s : Ctl) : Ctl :=
  match ISR_INT0 [0; 4] s with
  | Some s' => s'
  | None => s
  end.

(** * Properties *)

(** ** Bits of an 8-bit register *)

Lemma u8_testbit (x k : Z) :
  0 <= k < 8 -> Z.testbit (u8 x) k = Z.testbit x k.
Proof.
  intros Hk. unfold u8. change 256 with (2 ^ 8).
  apply Z.mod_pow2_bits_low. lia.
Qed.

Lemma andnot_testbit (p m k : Z) :
  0 <= k < 8 ->
  Z.testbit (u8 (Z.land p (Z.lnot m))) k = Z.testbit p k && negb (Z.testbit m k).
Proof.
  intros Hk. rewrite u8_testbit by exact Hk.
  rewrite Z.land_spec, Z.lnot_spec by lia. reflexivity.
Qed.

Lemma or_testbit (p m k : Z) :
  0 <= k < 8 ->
  Z.testbit (u8 (Z.lor p m)) k = Z.testbit p k || Z.testbit m k.
Proof.
  intros Hk. rewrite u8_testbit by exact Hk. apply Z.lor_spec.
Qed.

Lemma upd_same {A : Type} (r : Reg) (v : A) (f : Reg -> A) : upd r v f r = v.
Proof. unfold upd. destruct (Reg_eq_dec r r); congruence. Qed.

Lemma upd_other {A : Type} (r r' : Reg) (v : A) (f : Reg -> A) :
  r <> r' -> upd r v f r' = f r'.
Proof. unfold upd. destruct (Reg_eq_dec r r'); congruence. Qed.

Lemma truthy_false (x : Z) : truthy x = false <-> x = 0.
Proof.
  unfold truthy. destruct (Z.eqb_spec x 0); simpl; split; congruence.
Qed.

Lemma truthy_true (x : Z) : truthy x = true <-> x <> 0.
Proof.
  unfold truthy. destruct (Z.eqb_spec x 0); simpl; split; congruence.
Qed.

(** ** Persistent state store *)

(** What [read_gate_state] makes of a stored byte. *)
Lemma read_gate_state_cases (s : Ctl) :
  let b := eeprom s EEPROM_ADDR in
  read_gate_state s =
    if b =? GATE_CLOSING then GATE_CLOSED
    else if b =? GATE_OPENING then GATE_OPEN else b.
Proof.
  unfold read_gate_state, eeprom_read_byte. cbv zeta.
  destruct (Z.eqb_spec (eeprom s EEPROM_ADDR) GATE_CLOSING) as [E | E].
  - reflexivity.
  - reflexivity.
Qed.

Lemma read_gate_state_not_transient (s : Ctl) :
  read_gate_state s <> GATE_CLOSING /\ read_gate_state s <> GATE_OPENING.
Proof.
  rewrite read_gate_state_cases. cbv zeta.
  unfold GATE_CLOSING, GATE_OPENING, GATE_CLOSED, GATE_OPEN.
  destruct (Z.eqb_spec (eeprom s EEPROM_ADDR) 1);
    destruct (Z.eqb_spec (eeprom s EEPROM_ADDR) 2); lia.
Qed.

Lemma read_after_eeprom_write (v : Z) (s : Ctl) :
  read_gate_state (eeprom_write_byte EEPROM_ADDR v s) =
    if v =? GATE_CLOSING then GATE_CLOSED
    else if v =? GATE_OPENING then GATE_OPEN else v.
Proof.
  rewrite read_gate_state_cases. cbv zeta.
  unfold eeprom_write_byte. simpl. reflexivity.
Qed.

Lemma read_after_write_gate_state (v : Z) (s : Ctl) :
  read_gate_state (write_gate_state v s) =
    if v =? GATE_CLOSING then GATE_CLOSED
    else if v =? GATE_OPENING then GATE_OPEN else v.
Proof.
  unfold write_gate_state.
  destruct (Z.eqb_spec (read_gate_state s) v) as [E | E]; simpl.
  - destruct (read_gate_state_not_transient s) as [H1 H2].
    rewrite E in H1, H2.
    destruct (Z.eqb_spec v GATE_CLOSING); [contradiction |].
    destruct (Z.eqb_spec v GATE_OPENING); [contradiction |].
    exact E.
  - apply read_after_eeprom_write.
Qed.

(** When the cell does not hold a transient code, it holds the state
    written afterwards. *)
Lemma write_gate_state_cell (g : Z) (s : Ctl) :
  eeprom s EEPROM_ADDR <> GATE_CLOSING ->
  eeprom s EEPROM_ADDR <> GATE_OPENING ->
  eeprom (write_gate_state g s) EEPROM_ADDR = g.
Proof.
  intros H1 H2. unfold write_gate_state.
  destruct (Z.eqb_spec (read_gate_state s) g) as [E | E]; simpl.
  - rewrite read_gate_state_cases in E. cbv zeta in E.
    destruct (Z.eqb_spec (eeprom s EEPROM_ADDR) GATE_CLOSING);
      [contradiction |].
    destruct (Z.eqb_spec (eeprom s EEPROM_ADDR) GATE_OPENING);
      [contradiction |].
    exact E.
  - reflexivity.
Qed.

(** C5: writing a resting state and reading it back yields that state;
    writing a transient code and reading it back yields the resting state
    the motion was heading toward.  It holds whatever the store held
    before, through [write_gate_state] and through a raw
    [eeprom_write_byte] at the gate-state address alike. *)
Theorem store_round_trip (s : Ctl) :
  (read_gate_state (write_gate_state GATE_CLOSED s) = GATE_CLOSED /\
   read_gate_state (write_gate_state GATE_OPEN s) = GATE_OPEN /\
   read_gate_state (write_gate_state GATE_CLOSING s) = GATE_CLOSED /\
   read_gate_state (write_gate_state GATE_OPENING s) = GATE_OPEN) /\
  (read_gate_state (eeprom_write_byte EEPROM_ADDR GATE_CLOSED s) = GATE_CLOSED /\
   read_gate_state (eeprom_write_byte EEPROM_ADDR GATE_OPEN s) = GATE_OPEN /\
   read_gate_state (eeprom_write_byte EEPROM_ADDR GATE_CLOSING s) = GATE_CLOSED /\
   read_gate_state (eeprom_write_byte EEPROM_ADDR GATE_OPENING s) = GATE_OPEN) /\
  GATE_CLOSED = 0 /\ GATE_CLOSING = 1 /\ GATE_OPENING = 2 /\ GATE_OPEN = 3.
Proof.
  repeat split;
    first [ rewrite read_after_write_gate_state; reflexivity
          | rewrite read_after_eeprom_write; reflexivity
          | reflexivity ].
Qed.

(** C6, as stated, fails: the stored byte (1) differs from the state to
    write (0), and nothing is written. *)
Lemma write_gate_state_skips_on_stale_transient :
  ~ (eeprom_read_byte EEPROM_ADDR stale_closing <> GATE_CLOSED <->
     trace (write_gate_state GATE_CLOSED stale_closing) =
       EvEepromWrite EEPROM_ADDR GATE_CLOSED :: trace stale_closing).
Proof.
  intros [H _].
  assert (Hn : eeprom_read_byte EEPROM_ADDR stale_closing <> GATE_CLOSED)
    by (vm_compute; discriminate).
  specialize (H Hn). vm_compute in H. discriminate H.
Qed.

(** C6, amended: [write_gate_state state] programs the cell exactly when
    the value [read_gate_state] returns for it, that is the stored byte
    with the transient codes normalised, differs from [state]; otherwise
    the state, its store and its trace are left as they were.  For a
    stored byte other than the two transient codes this is the comparison
    with the stored byte itself. *)
Theorem write_gate_state_when_read_differs (state : Z) (s : Ctl) :
  (read_gate_state s <> state ->
     write_gate_state state s = eeprom_write_byte EEPROM_ADDR state s /\
     trace (write_gate_state state s) =
       EvEepromWrite EEPROM_ADDR state :: trace s /\
     eeprom (write_gate_state state s) EEPROM_ADDR = state) /\
  (read_gate_state s = state -> write_gate_state state s = s) /\
  (eeprom s EEPROM_ADDR <> GATE_CLOSING ->
   eeprom s EEPROM_ADDR <> GATE_OPENING ->
     read_gate_state s = eeprom s EEPROM_ADDR).
Proof.
  unfold write_gate_state. repeat split.
  - destruct (Z.eqb_spec (read_gate_state s) state); [contradiction | reflexivity].
  - destruct (Z.eqb_spec (read_gate_state s) state); [contradiction | reflexivity].
  - destruct (Z.eqb_spec (read_gate_state s) state); [contradiction |].
    reflexivity.
  - intros E. destruct (Z.eqb_spec (read_gate_state s) state);
      [reflexivity | contradiction].
  - intros H1 H2. rewrite read_gate_state_cases. cbv zeta.
    destruct (Z.eqb_spec (eeprom s EEPROM_ADDR) GATE_CLOSING); [contradiction |].
    destruct (Z.eqb_spec (eeprom s EEPROM_ADDR) GATE_OPENING); [contradiction |].
    reflexivity.
Qed.

Lemma write_gate_state_when_read_differs_witness :
  read_gate_state stale_closing <> GATE_OPEN /\
  trace (write_gate_state GATE_OPEN stale_closing) =
    EvEepromWrite EEPROM_ADDR GATE_OPEN :: trace stale_closing.
Proof.
  assert (H : read_gate_state stale_closing <> GATE_OPEN)
    by (vm_compute; discriminate).
  split; [exact H |].
  exact (proj1 (proj2
    (proj1 (write_gate_state_when_read_differs GATE_OPEN stale_closing) H))).
Defined.

(** ** Frame conditions: what the trace-only operations leave alone *)

Arguments line : simpl never.
Arguments bit : simpl never.
Arguments u8 : simpl never.
Arguments u16 : simpl never.
Arguments u32 : simpl never.

Ltac split_ands := repeat match goal with |- _ /\ _ => split end.

Ltac case_if :=
  match goal with
  | |- context [if ?c then _ else _] => destruct c eqn:?
  end.

Lemma report_state_frame (s : Ctl) :
  report_state s = set_trace (trace (report_state s)) s.
Proof.
  unfold report_state. destruct (state_message (gate_state s)); destruct s;
    reflexivity.
Qed.

Lemma write_gate_state_frame (g : Z) (s : Ctl) :
  io (write_gate_state g s) = io s /\
  gate_state (write_gate_state g s) = gate_state s /\
  button_pressed (write_gate_state g s) = button_pressed s /\
  gate_moving (write_gate_state g s) = gate_moving s /\
  idle_timer_ms (write_gate_state g s) = idle_timer_ms s /\
  reset_scheduled (write_gate_state g s) = reset_scheduled s.
Proof.
  unfold write_gate_state.
  destruct (negb (read_gate_state s =? g)); split_ands; reflexivity.
Qed.

Lemma io_report_state s : io (report_state s) = io s.
Proof. rewrite report_state_frame. reflexivity. Qed.
Lemma gate_state_report_state s : gate_state (report_state s) = gate_state s.
Proof. rewrite report_state_frame. reflexivity. Qed.
Lemma button_pressed_report_state s :
  button_pressed (report_state s) = button_pressed s.
Proof. rewrite report_state_frame. reflexivity. Qed.
Lemma gate_moving_report_state s : gate_moving (report_state s) = gate_moving s.
Proof. rewrite report_state_frame. reflexivity. Qed.
Lemma idle_timer_ms_report_state s :
  idle_timer_ms (report_state s) = idle_timer_ms s.
Proof. rewrite report_state_frame. reflexivity. Qed.
Lemma reset_scheduled_report_state s :
  reset_scheduled (report_state s) = reset_scheduled s.
Proof. rewrite report_state_frame. reflexivity. Qed.
Lemma eeprom_report_state s : eeprom (report_state s) = eeprom s.
Proof. rewrite report_state_frame. reflexivity. Qed.
Lemma read_gate_state_report_state s :
  read_gate_state (report_state s) = read_gate_state s.
Proof. rewrite report_state_frame. reflexivity. Qed.

Lemma io_write_gate_state g s : io (write_gate_state g s) = io s.
Proof. apply write_gate_state_frame. Qed.
Lemma gate_state_write_gate_state g s :
  gate_state (write_gate_state g s) = gate_state s.
Proof. apply write_gate_state_frame. Qed.
Lemma button_pressed_write_gate_state g s :
  button_pressed (write_gate_state g s) = button_pressed s.
Proof. apply write_gate_state_frame. Qed.
Lemma gate_moving_write_gate_state g s :
  gate_moving (write_gate_state g s) = gate_moving s.
Proof. apply write_gate_state_frame. Qed.
Lemma idle_timer_ms_write_gate_state g s :
  idle_timer_ms (write_gate_state g s) = idle_timer_ms s.
Proof. apply write_gate_state_frame. Qed.
Lemma reset_scheduled_write_gate_state g s :
  reset_scheduled (write_gate_state g s) = reset_scheduled s.
Proof. apply write_gate_state_frame. Qed.

Lemma io_report_state_at s r : io (report_state s) r = io s r.
Proof. rewrite io_report_state. reflexivity. Qed.
Lemma io_write_gate_state_at g s r : io (write_gate_state g s) r = io s r.
Proof. rewrite io_write_gate_state. reflexivity. Qed.
Lemma eeprom_report_state_at s a : eeprom (report_state s) a = eeprom s a.
Proof. rewrite eeprom_report_state. reflexivity. Qed.

Create Rewrite HintDb frame.
#[export] Hint Rewrite
  io_report_state_at io_write_gate_state_at eeprom_report_state_at
  io_report_state gate_state_report_state button_pressed_report_state
  gate_moving_report_state idle_timer_ms_report_state
  reset_scheduled_report_state eeprom_report_state
  read_gate_state_report_state
  io_write_gate_state gate_state_write_gate_state
  button_pressed_write_gate_state gate_moving_write_gate_state
  idle_timer_ms_write_gate_state reset_scheduled_write_gate_state : frame.

(** Projections of the state after the primitive updates, leaving
    arithmetic and register contents as they are written. *)
Ltac fields :=
  cbn [io gate_state button_pressed gate_moving idle_timer_ms
       reset_scheduled eeprom trace
       set_io set_gate_state set_button_pressed set_gate_moving
       set_idle_timer_ms set_reset_scheduled set_eeprom set_trace
       emit reset_watchdog uart_tx_string_P delay_masked
       reg_write reg_or reg_andnot
       indicate_opening indicate_closing indicate_stop stop_gate].

Ltac frame := repeat (progress (fields; autorewrite with frame)).

Ltac bit_range := vm_compute; split; congruence.

(** ** Relays and indicators *)

Lemma stop_gate_PORTB (s : Ctl) :
  io (stop_gate s) PORTB = u8 (Z.land (io s PORTB) (Z.lnot ALL_RELAYS)).
Proof. reflexivity. Qed.

Lemma stop_gate_PORTD (s : Ctl) :
  io (stop_gate s) PORTD =
    u8 (Z.land (io s PORTD) (Z.lnot (Z.lor (bit LED_OPENING) (bit LED_CLOSING)))).
Proof. reflexivity. Qed.

Lemma stop_gate_off (s : Ctl) :
  relays_off (stop_gate s) /\ leds_off (stop_gate s) /\
  gate_moving (stop_gate s) = 0.
Proof.
  unfold relays_off, leds_off.
  rewrite stop_gate_PORTB, stop_gate_PORTD.
  split_ands;
    try (rewrite andnot_testbit by bit_range;
         apply andb_false_r).
  reflexivity.
Qed.

(** ** Emergency stop *)

Lemma emergency_stop_io (s : Ctl) : io (emergency_stop s) = io (stop_gate s).
Proof.
  unfold emergency_stop. cbv zeta. frame.
  repeat case_if; reflexivity.
Qed.

Lemma emergency_stop_flags (s : Ctl) :
  gate_moving (emergency_stop s) = 0 /\
  idle_timer_ms (emergency_stop s) = 0 /\
  reset_scheduled (emergency_stop s) = 0 /\
  button_pressed (emergency_stop s) = button_pressed s.
Proof.
  unfold emergency_stop. cbv zeta. frame.
  repeat case_if; split_ands; reflexivity.
Qed.

Lemma emergency_stop_gate_state (s : Ctl) :
  gate_state (emergency_stop s) =
    (if gate_state s =? GATE_OPENING then GATE_OPEN
     else if gate_state s =? GATE_CLOSING then GATE_CLOSED
     else gate_state s) /\
  read_gate_state (emergency_stop s) = gate_state (emergency_stop s).
Proof.
  unfold emergency_stop. cbv zeta.
  autorewrite with frame. rewrite read_after_write_gate_state. simpl.
  destruct (Z.eqb_spec (gate_state s) GATE_OPENING) as [E1 | E1];
    [split; reflexivity |].
  destruct (Z.eqb_spec (gate_state s) GATE_CLOSING) as [E2 | E2];
    [split; reflexivity |].
  simpl. split; [reflexivity |].
  destruct (Z.eqb_spec (gate_state s) GATE_CLOSING); [contradiction |].
  destruct (Z.eqb_spec (gate_state s) GATE_OPENING); [contradiction |].
  reflexivity.
Qed.

Lemma emergency_stop_cell (s : Ctl) :
  eeprom s EEPROM_ADDR <> GATE_CLOSING ->
  eeprom s EEPROM_ADDR <> GATE_OPENING ->
  eeprom (emergency_stop s) EEPROM_ADDR = gate_state (emergency_stop s).
Proof.
  intros H1 H2. unfold emergency_stop. cbv zeta.
  autorewrite with frame.
  apply write_gate_state_cell; repeat case_if; assumption.
Qed.

(** C3: an emergency stop taken while the gate moves de-energises the
    relays and the indicators, clears the moving flag, resets the idle
    timer and the scheduled-reset flag, resolves Opening to Open and
    Closing to Closed, and leaves the store reading back the resolved
    state; the cell holds the code of the resolved state itself unless
    it held a transient code before. *)
Theorem emergency_stop_resolves (s : Ctl) :
  gate_moving s <> 0 ->
  let s' := emergency_stop s in
  relays_off s' /\ leds_off s' /\
  gate_moving s' = 0 /\ idle_timer_ms s' = 0 /\ reset_scheduled s' = 0 /\
  (gate_state s = GATE_OPENING ->
     gate_state s' = GATE_OPEN /\ read_gate_state s' = GATE_OPEN) /\
  (gate_state s = GATE_CLOSING ->
     gate_state s' = GATE_CLOSED /\ read_gate_state s' = GATE_CLOSED) /\
  (eeprom s EEPROM_ADDR <> GATE_CLOSING ->
   eeprom s EEPROM_ADDR <> GATE_OPENING ->
     eeprom s' EEPROM_ADDR = gate_state s').
Proof.
  intros _ s'. subst s'.
  destruct (stop_gate_off s) as (Hr & Hl & _).
  destruct (emergency_stop_flags s) as (Hm & Hi & Hs & _).
  destruct (emergency_stop_gate_state s) as (Hg & Hp).
  unfold relays_off, leds_off in *. rewrite emergency_stop_io.
  split_ands; try tauto.
  - intros H. rewrite Hp, Hg, H. split; reflexivity.
  - intros H. rewrite Hp, Hg, H. split; reflexivity.
  - apply emergency_stop_cell.
Qed.

Lemma emergency_stop_resolves_witness :
  gate_moving mid_opening <> 0 /\
  gate_state (emergency_stop mid_opening) = GATE_OPEN /\
  read_gate_state (emergency_stop mid_opening) = GATE_OPEN /\
  gate_moving (emergency_stop mid_opening) = 0 /\
  eeprom (emergency_stop mid_opening) EEPROM_ADDR = GATE_OPEN.
Proof.
  assert (H : gate_moving mid_opening <> 0) by (vm_compute; discriminate).
  pose proof (emergency_stop_resolves mid_opening H) as T.
  cbv zeta in T.
  destruct T as (_ & _ & Hm & _ & _ & Ho & _ & Hc).
  destruct (Ho eq_refl) as [H1 H2].
  split_ands; [exact H | exact H1 | exact H2 | exact Hm |].
  rewrite <- H1. apply Hc; discriminate.
Defined.

(** ** Button interrupt *)

Lemma cycles_snoc (l : list Event) (n : nat) :
  cycles l n ++ l = l ++ cycles l n.
Proof.
  induction n as [| n IH]; simpl.
  - rewrite app_nil_r. reflexivity.
  - rewrite <- app_assoc, IH. reflexivity.
Qed.

(** While the line stays low the handler only waits and services the
    watchdog; it leaves the loop at the first high reading. *)
Lemma isr_hold_released (lows : list Z) (q : Z) (rest : list Z) :
  Forall (fun p => button_low p = true) lows ->
  button_low q = false ->
  forall s,
    isr_hold (lows ++ q :: rest) s =
      Some (set_trace
              (cycles [EvWdr; EvDelay SHORT_DELAY] (List.length lows) ++ trace s) s).
Proof.
  intros Hl Hq. induction Hl as [| p lows Hp Hl IH]; intros s.
  - simpl. rewrite Hq. destruct s; reflexivity.
  - simpl app. simpl isr_hold. rewrite Hp. rewrite IH.
    f_equal. simpl List.length.
    change (trace (reset_watchdog (delay_masked SHORT_DELAY s)))
      with ([EvWdr; EvDelay SHORT_DELAY] ++ trace s).
    rewrite app_assoc, cycles_snoc.
    destruct s; reflexivity.
Qed.

(** C7: a falling edge whose line reads high again after the debounce
    delay changes nothing but the trace (one delay, one watchdog
    service).  A press still low after the delay is waited out; once the
    line is released the handler zeroes the idle timer and the
    scheduled-reset flag, and then either performs the emergency stop
    without touching the pending-press flag (gate moving), or sets the
    pending-press flag and nothing else (gate idle). *)
Theorem isr_debounce_and_dispatch (s : Ctl) :
  (forall p rest,
     button_low p = false ->
     ISR_INT0 (p :: rest) s =
       Some (set_trace (EvWdr :: EvDelay BUTTON_DEBOUNCE_DELAY :: trace s) s)) /\
  (forall p lows q rest,
     button_low p = true ->
     Forall (fun x => button_low x = true) lows ->
     button_low q = false ->
     let held :=
       set_trace (cycles [EvWdr; EvDelay SHORT_DELAY] (List.length lows)
                    ++ EvWdr :: EvDelay BUTTON_DEBOUNCE_DELAY :: trace s) s in
     let armed := set_reset_scheduled 0 (set_idle_timer_ms 0 held) in
     exists s',
       ISR_INT0 (p :: lows ++ q :: rest) s = Some s' /\
       idle_timer_ms s' = 0 /\ reset_scheduled s' = 0 /\
       (gate_moving s <> 0 ->
          s' = emergency_stop armed /\
          gate_moving s' = 0 /\
          button_pressed s' = button_pressed s) /\
       (gate_moving s = 0 -> s' = set_button_pressed 1 armed)).
Proof.
  split.
  - intros p rest Hp. unfold ISR_INT0. rewrite Hp. destruct s; reflexivity.
  - intros p lows q rest Hp Hl Hq held armed.
    unfold ISR_INT0. rewrite Hp.
    rewrite (isr_hold_released lows q rest Hl Hq).
    cbv zeta.
    replace (set_trace _ (reset_watchdog (delay_masked BUTTON_DEBOUNCE_DELAY s)))
      with held by (destruct s; reflexivity).
    fold armed.
    assert (Hm : gate_moving armed = gate_moving s) by reflexivity.
    destruct (truthy (gate_moving armed)) eqn:Ht.
    + apply truthy_true in Ht. rewrite Hm in Ht.
      exists (emergency_stop armed).
      destruct (emergency_stop_flags armed) as (Em & Ei & Es & Eb).
      split_ands; try assumption; try reflexivity.
      * intros _. split_ands; [reflexivity | assumption | exact Eb].
      * intros H0. contradiction.
    + apply truthy_false in Ht. rewrite Hm in Ht.
      exists (set_button_pressed 1 armed).
      split_ands; try reflexivity.
      * intros Hn. contradiction.
Qed.

Lemma isr_debounce_and_dispatch_witness :
  ISR_INT0 [4; 0] mid_opening =
    Some (set_trace (EvWdr :: EvDelay BUTTON_DEBOUNCE_DELAY :: trace mid_opening)
            mid_opening) /\
  (exists s', ISR_INT0 [0; 0; 0; 4] mid_opening = Some s' /\
              gate_moving s' = 0 /\ gate_state s' = GATE_OPEN /\
              button_pressed s' = 0) /\
  (exists s', ISR_INT0 [0; 0; 0; 4] idle_closed = Some s' /\
              button_pressed s' = 1 /\ gate_state s' = GATE_CLOSED).
Proof.
  split_ands.
  - apply (proj1 (isr_debounce_and_dispatch mid_opening) 4 [0]). reflexivity.
  - destruct (proj2 (isr_debounce_and_dispatch mid_opening) 0 [0; 0] 4 []
                eq_refl
                (Forall_cons 0 eq_refl (Forall_cons 0 eq_refl (Forall_nil _)))
                eq_refl)
      as (s' & Hs & _ & _ & Hmov & _).
    exists s'. split; [exact Hs |].
    destruct (Hmov ltac:(vm_compute; discriminate)) as (E & Hm & Hb).
    split_ands; [exact Hm | rewrite E; reflexivity | exact Hb].
  - destruct (proj2 (isr_debounce_and_dispatch idle_closed) 0 [0; 0] 4 []
                eq_refl
                (Forall_cons 0 eq_refl (Forall_cons 0 eq_refl (Forall_nil _)))
                eq_refl)
      as (s' & Hs & _ & _ & _ & Hidle).
    exists s'. split; [exact Hs |].
    rewrite (Hidle eq_refl). split; reflexivity.
Defined.

(** ** The motion window *)

Section Window.

Variable irq : Ctl -> Ctl.

Lemma motion_window_eq (fuel : nat) (i : Z) (s : Ctl) :
  motion_window irq fuel i s =
    if i <? GATE_OPERATION_TIME then
      match fuel with
      | O => None
      | S fuel' =>
          if negb (truthy (gate_moving (poll irq s))) then
            Some (true, poll irq s)
          else motion_window irq fuel' (u16 (i + SHORT_DELAY)) (poll irq s)
      end
    else Some (false, s).
Proof. destruct fuel; reflexivity. Qed.

Lemma window_counter_next (j : nat) :
  (j < WINDOW_POLLS)%nat ->
  SHORT_DELAY * Z.of_nat j < GATE_OPERATION_TIME /\
  u16 (SHORT_DELAY * Z.of_nat j + SHORT_DELAY) = SHORT_DELAY * Z.of_nat (S j).
Proof.
  unfold WINDOW_POLLS, SHORT_DELAY, GATE_OPERATION_TIME, u16.
  change (Z.to_nat (30000 / 10)) with 3000%nat. intros Hj. split; [lia |].
  rewrite Z.mod_small by lia. lia.
Qed.

(** The loop returns at the first turn that finds the flag clear, in
    the state of that turn. *)
Lemma motion_window_early (k : nat) :
  forall (fuel j : nat) (s : Ctl),
    (j + k < WINDOW_POLLS)%nat -> (k < fuel)%nat ->
    (forall m, (1 <= m <= k)%nat -> gate_moving (polls irq m s) <> 0) ->
    gate_moving (polls irq (S k) s) = 0 ->
    motion_window irq fuel (SHORT_DELAY * Z.of_nat j) s =
      Some (true, polls irq (S k) s).
Proof.
  induction k as [| k IH]; intros fuel j s Hj Hf Hmov Hclr.
  - destruct (window_counter_next j) as [Hlt _]; [lia |].
    rewrite motion_window_eq.
    apply Z.ltb_lt in Hlt. rewrite Hlt.
    destruct fuel as [| fuel]; [lia |].
    change (polls irq 1 s) with (poll irq s) in Hclr.
    rewrite Hclr. reflexivity.
  - destruct (window_counter_next j) as [Hlt Hnext]; [lia |].
    rewrite motion_window_eq.
    apply Z.ltb_lt in Hlt. rewrite Hlt.
    destruct fuel as [| fuel]; [lia |].
    assert (H1 : gate_moving (poll irq s) <> 0)
      by (apply (Hmov 1%nat); lia).
    apply truthy_true in H1. rewrite H1. simpl negb. cbv iota.
    rewrite Hnext.
    rewrite (IH fuel (S j) (poll irq s)); try lia.
    + reflexivity.
    + intros m Hm. apply (Hmov (S m)). lia.
    + exact Hclr.
Qed.

(** With the flag set at every turn the loop runs to the end of the
    window. *)
Lemma motion_window_full (n : nat) :
  forall (fuel j : nat) (s : Ctl),
    (j + n = WINDOW_POLLS)%nat -> (n <= fuel)%nat ->
    (forall m, (1 <= m <= n)%nat -> gate_moving (polls irq m s) <> 0) ->
    motion_window irq fuel (SHORT_DELAY * Z.of_nat j) s =
      Some (false, polls irq n s).
Proof.
  induction n as [| n IH]; intros fuel j s Hj Hf Hmov.
  - rewrite motion_window_eq.
    assert (E : (SHORT_DELAY * Z.of_nat j <? GATE_OPERATION_TIME) = false).
    { apply Z.ltb_ge. revert Hj.
      unfold WINDOW_POLLS, SHORT_DELAY, GATE_OPERATION_TIME.
      change (Z.to_nat (30000 / 10)) with 3000%nat. lia. }
    rewrite E. reflexivity.
  - destruct (window_counter_next j) as [Hlt Hnext]; [lia |].
    rewrite motion_window_eq.
    apply Z.ltb_lt in Hlt. rewrite Hlt.
    destruct fuel as [| fuel]; [lia |].
    assert (H1 : gate_moving (poll irq s) <> 0)
      by (apply (Hmov 1%nat); lia).
    apply truthy_true in H1. rewrite H1. simpl negb. cbv iota.
    rewrite Hnext.
    rewrite (IH fuel (S j) (poll irq s)); try lia.
    + reflexivity.
    + intros m Hm. apply (Hmov (S m)). lia.
Qed.

(** A turn of the loop leaves alone what the interrupt context leaves
    alone. *)
Lemma polls_gate_state (k : nat) (s : Ctl) :
  (forall x, gate_state (irq x) = gate_state x) ->
  gate_state (polls irq k s) = gate_state s.
Proof.
  intros H. revert s. induction k as [| k IH]; intros s; simpl.
  - reflexivity.
  - rewrite IH. unfold poll, delay_ms. simpl. rewrite H. reflexivity.
Qed.

Lemma polls_eeprom (k : nat) (s : Ctl) :
  (forall x, eeprom (irq x) = eeprom x) ->
  eeprom (polls irq k s) = eeprom s.
Proof.
  intros H. revert s. induction k as [| k IH]; intros s; simpl.
  - reflexivity.
  - rewrite IH. unfold poll, delay_ms. simpl. rewrite H. reflexivity.
Qed.

Lemma polls_gate_moving (k : nat) (s : Ctl) :
  (forall x, gate_moving (irq x) = gate_moving x) ->
  gate_moving (polls irq k s) = gate_moving s.
Proof.
  intros H. revert s. induction k as [| k IH]; intros s; simpl.
  - reflexivity.
  - rewrite IH. unfold poll, delay_ms. simpl. rewrite H. reflexivity.
Qed.

Lemma open_gate_begin_fields (s : Ctl) :
  let w := open_gate_begin irq s in
  Z.testbit (io w PORTB) RELAY_K1 = true /\
  Z.testbit (io w PORTB) RELAY_K4 = true /\
  Z.testbit (io w PORTD) LED_OPENING = true /\
  Z.testbit (io w PORTD) LED_CLOSING = false /\
  gate_state w = GATE_OPENING /\ gate_moving w = 1 /\
  idle_timer_ms w = 0 /\ reset_scheduled w = 0.
Proof.
  unfold open_gate_begin. cbv zeta. frame.
  split_ands; try reflexivity.
  - rewrite upd_other by discriminate. rewrite upd_other by discriminate.
    rewrite upd_same. rewrite or_testbit by bit_range.
    apply orb_true_r.
  - rewrite upd_other by discriminate. rewrite upd_other by discriminate.
    rewrite upd_same. rewrite or_testbit by bit_range.
    apply orb_true_r.
  - rewrite upd_same.
    rewrite andnot_testbit by bit_range.
    rewrite upd_same. rewrite or_testbit by bit_range.
    rewrite orb_true_r. reflexivity.
  - rewrite upd_same.
    rewrite andnot_testbit by bit_range.
    apply andb_false_r.
Qed.

Lemma close_gate_begin_fields (s : Ctl) :
  let w := close_gate_begin irq s in
  Z.testbit (io w PORTB) RELAY_K2 = true /\
  Z.testbit (io w PORTB) RELAY_K3 = true /\
  Z.testbit (io w PORTD) LED_CLOSING = true /\
  Z.testbit (io w PORTD) LED_OPENING = false /\
  gate_state w = GATE_CLOSING /\ gate_moving w = 1 /\
  idle_timer_ms w = 0 /\ reset_scheduled w = 0.
Proof.
  unfold close_gate_begin. cbv zeta. frame.
  split_ands; try reflexivity.
  - rewrite upd_other by discriminate. rewrite upd_other by discriminate.
    rewrite upd_same. rewrite or_testbit by bit_range.
    apply orb_true_r.
  - rewrite upd_other by discriminate. rewrite upd_other by discriminate.
    rewrite upd_same. rewrite or_testbit by bit_range.
    apply orb_true_r.
  - rewrite upd_same.
    rewrite andnot_testbit by bit_range.
    rewrite upd_same. rewrite or_testbit by bit_range.
    rewrite orb_true_r. reflexivity.
  - rewrite upd_same.
    rewrite andnot_testbit by bit_range.
    apply andb_false_r.
Qed.

End Window.

Lemma read_gate_state_emit e s : read_gate_state (emit e s) = read_gate_state s.
Proof. reflexivity. Qed.
Lemma read_gate_state_uart m s :
  read_gate_state (uart_tx_string_P m s) = read_gate_state s.
Proof. reflexivity. Qed.

Lemma window_polls_value :
  WINDOW_POLLS = 3000%nat /\
  Z.of_nat WINDOW_POLLS * SHORT_DELAY = GATE_OPERATION_TIME.
Proof. split; reflexivity. Qed.

Section Routines.

Variable irq : Ctl -> Ctl.
Variable fuel : nat.
Hypothesis enough_fuel : (WINDOW_POLLS <= fuel)%nat.

Lemma open_gate_early (k : nat) (s : Ctl) :
  let w := open_gate_begin irq s in
  (k < WINDOW_POLLS)%nat ->
  (forall m, (1 <= m <= k)%nat -> gate_moving (polls irq m w) <> 0) ->
  gate_moving (polls irq (S k) w) = 0 ->
  open_gate irq fuel s = Some (polls irq (S k) w).
Proof.
  intros w Hk Hmov Hclr. unfold open_gate. fold w.
  change 0 with (SHORT_DELAY * Z.of_nat 0).
  rewrite (motion_window_early irq k fuel 0 w); try assumption;
    try reflexivity; lia.
Qed.

Lemma open_gate_full (s : Ctl) :
  let w := open_gate_begin irq s in
  (forall m, (1 <= m <= WINDOW_POLLS)%nat ->
     gate_moving (polls irq m w) <> 0) ->
  open_gate irq fuel s = Some (open_gate_finish (polls irq WINDOW_POLLS w)).
Proof.
  intros w Hmov. unfold open_gate. fold w.
  change 0 with (SHORT_DELAY * Z.of_nat 0).
  rewrite (motion_window_full irq WINDOW_POLLS fuel 0 w); try assumption;
    reflexivity.
Qed.

Lemma close_gate_early (k : nat) (s : Ctl) :
  let w := close_gate_begin irq s in
  (k < WINDOW_POLLS)%nat ->
  (forall m, (1 <= m <= k)%nat -> gate_moving (polls irq m w) <> 0) ->
  gate_moving (polls irq (S k) w) = 0 ->
  close_gate irq fuel s = Some (polls irq (S k) w).
Proof.
  intros w Hk Hmov Hclr. unfold close_gate. fold w.
  change 0 with (SHORT_DELAY * Z.of_nat 0).
  rewrite (motion_window_early irq k fuel 0 w); try assumption;
    try reflexivity; lia.
Qed.

Lemma close_gate_full (s : Ctl) :
  let w := close_gate_begin irq s in
  (forall m, (1 <= m <= WINDOW_POLLS)%nat ->
     gate_moving (polls irq m w) <> 0) ->
  close_gate irq fuel s = Some (close_gate_finish (polls irq WINDOW_POLLS w)).
Proof.
  intros w Hmov. unfold close_gate. fold w.
  change 0 with (SHORT_DELAY * Z.of_nat 0).
  rewrite (motion_window_full irq WINDOW_POLLS fuel 0 w); try assumption;
    reflexivity.
Qed.

End Routines.

Lemma open_gate_finish_fields (s : Ctl) :
  let f := open_gate_finish s in
  relays_off f /\ leds_off f /\ gate_moving f = 0 /\
  gate_state f = GATE_OPEN /\ read_gate_state f = GATE_OPEN /\
  (eeprom s EEPROM_ADDR <> GATE_CLOSING ->
   eeprom s EEPROM_ADDR <> GATE_OPENING ->
   eeprom f EEPROM_ADDR = GATE_OPEN).
Proof.
  unfold open_gate_finish. cbv zeta.
  destruct (stop_gate_off s) as (Hr & Hl & Hm).
  unfold relays_off, leds_off in *.
  assert (He : eeprom (stop_gate s) = eeprom s) by reflexivity.
  set (t := stop_gate s) in *. clearbody t.
  rewrite read_gate_state_uart. frame.
  rewrite read_after_write_gate_state.
  split_ands; try tauto; try reflexivity.
  intros H1 H2. apply write_gate_state_cell; fields; rewrite He; assumption.
Qed.

Lemma close_gate_finish_fields (s : Ctl) :
  let f := close_gate_finish s in
  relays_off f /\ leds_off f /\ gate_moving f = 0 /\
  gate_state f = GATE_CLOSED /\ read_gate_state f = GATE_CLOSED /\
  (eeprom s EEPROM_ADDR <> GATE_CLOSING ->
   eeprom s EEPROM_ADDR <> GATE_OPENING ->
   eeprom f EEPROM_ADDR = GATE_CLOSED).
Proof.
  unfold close_gate_finish. cbv zeta.
  destruct (stop_gate_off s) as (Hr & Hl & Hm).
  unfold relays_off, leds_off in *.
  assert (He : eeprom (stop_gate s) = eeprom s) by reflexivity.
  set (t := stop_gate s) in *. clearbody t.
  rewrite read_gate_state_uart. frame.
  rewrite read_after_write_gate_state.
  split_ands; try tauto; try reflexivity.
  intros H1 H2. apply write_gate_state_cell; fields; rewrite He; assumption.
Qed.

Lemma open_gate_begin_eeprom (irq : Ctl -> Ctl) (s : Ctl) :
  (forall x, eeprom (irq x) = eeprom x) ->
  eeprom (open_gate_begin irq s) = eeprom s.
Proof.
  intros H. unfold open_gate_begin, delay_ms. cbv zeta. frame.
  rewrite H. reflexivity.
Qed.

Lemma close_gate_begin_eeprom (irq : Ctl -> Ctl) (s : Ctl) :
  (forall x, eeprom (irq x) = eeprom x) ->
  eeprom (close_gate_begin irq s) = eeprom s.
Proof.
  intros H. unfold close_gate_begin, delay_ms. cbv zeta. frame.
  rewrite H. reflexivity.
Qed.

Lemma polls_last (irq : Ctl -> Ctl) (k : nat) :
  forall s, polls irq (S k) s = poll irq (polls irq k s).
Proof.
  induction k as [| k IH]; intros s.
  - reflexivity.
  - change (polls irq (S (S k)) s) with (polls irq (S k) (poll irq s)).
    rewrite IH. reflexivity.
Qed.

(** The hold loop of the handler changes the trace only. *)
Lemma isr_hold_frame (l : list Z) :
  forall s h, isr_hold l s = Some h -> h = set_trace (trace h) s.
Proof.
  induction l as [| p l IH]; intros s h H; simpl in H.
  - discriminate.
  - destruct (button_low p).
    + apply IH in H. rewrite H. destruct s; reflexivity.
    + injection H as <-. destruct s; reflexivity.
Qed.

(** A qualifying press taken while the gate moves ends in the emergency
    stop: flag cleared, transient state resolved, store reading it back. *)
Lemma isr_stops_moving_gate (p : Z) (rest : list Z) (y y' : Ctl) :
  ISR_INT0 (p :: rest) y = Some y' ->
  button_low p = true -> gate_moving y <> 0 ->
  gate_moving y' = 0 /\
  gate_state y' =
    (if gate_state y =? GATE_OPENING then GATE_OPEN
     else if gate_state y =? GATE_CLOSING then GATE_CLOSED
     else gate_state y) /\
  read_gate_state y' = gate_state y'.
Proof.
  unfold ISR_INT0. intros H Hp Hm. rewrite Hp in H.
  destruct (isr_hold rest _) as [h |] eqn:Eh; [| discriminate].
  apply isr_hold_frame in Eh. cbv zeta in H.
  set (armed := set_reset_scheduled 0 (set_idle_timer_ms 0 h)) in *.
  assert (Ea : gate_moving armed = gate_moving y /\ gate_state armed = gate_state y)
    by (subst armed; rewrite Eh; split; reflexivity).
  destruct Ea as (Eam & Eag).
  apply truthy_true in Hm. rewrite <- Eam in Hm. rewrite Hm in H.
  injection H as <-.
  destruct (emergency_stop_flags armed) as (Fm & _).
  destruct (emergency_stop_gate_state armed) as (Fg & Fp).
  rewrite Eag in Fg. split_ands; assumption.
Qed.

Section HandlerInWindow.

Variable irq : Ctl -> Ctl.
Variables (w : Ctl) (k : nat) (p : Z) (rest : list Z) (y' : Ctl).
Hypothesis entered : gate_moving w = 1.
Hypothesis moving :
  forall m, (1 <= m <= k)%nat -> gate_moving (polls irq m w) <> 0.
Hypothesis handled :
  ISR_INT0 (p :: rest) (emit (EvDelay SHORT_DELAY) (polls irq k w)) = Some y'.
Hypothesis pressed : button_low p = true.
Hypothesis taken : irq (emit (EvDelay SHORT_DELAY) (polls irq k w)) = y'.

Lemma handler_stop_in_window :
  polls irq (S k) w = reset_watchdog y' /\
  gate_moving (reset_watchdog y') = 0 /\
  gate_state (reset_watchdog y') =
    (if gate_state (polls irq k w) =? GATE_OPENING then GATE_OPEN
     else if gate_state (polls irq k w) =? GATE_CLOSING then GATE_CLOSED
     else gate_state (polls irq k w)) /\
  read_gate_state (reset_watchdog y') = gate_state (reset_watchdog y').
Proof.
  assert (Hm : gate_moving (emit (EvDelay SHORT_DELAY) (polls irq k w)) <> 0).
  { change (gate_moving (polls irq k w) <> 0).
    destruct k as [| k'].
    - simpl. rewrite entered. discriminate.
    - apply moving. lia. }
  destruct (isr_stops_moving_gate p rest _ y' handled pressed Hm)
    as (Sm & Sg & Sp).
  split_ands.
  - rewrite polls_last. unfold poll, delay_ms. rewrite taken. reflexivity.
  - exact Sm.
  - exact Sg.
  - exact Sp.
Qed.

End HandlerInWindow.

(** With no interrupt, [k] turns of the window are [k] times a 10 ms
    delay and a watchdog service, and nothing else. *)
Lemma polls_no_irq_trace (k : nat) :
  forall s,
    trace (polls no_irq k s) =
      cycles [EvWdr; EvDelay SHORT_DELAY] k ++ trace s.
Proof.
  induction k as [| k IH]; intros s.
  - reflexivity.
  - change (polls no_irq (S k) s) with (polls no_irq k (poll no_irq s)).
    rewrite IH.
    change (trace (poll no_irq s))
      with ([EvWdr; EvDelay SHORT_DELAY] ++ trace s).
    rewrite app_assoc, cycles_snoc. reflexivity.
Qed.

(** C2, as stated, fails where it says that the gate state stays
    transient.  The button is pressed during the first turn of an opening
    window: the handler's emergency stop clears the moving flag, and the
    routine returns early with the gate state Open, already written to
    the store by that stop. *)
Lemma open_gate_early_return_not_transient :
  gate_moving (open_gate_begin press_when_moving idle_closed) = 1 /\
  gate_moving
    (polls press_when_moving 1 (open_gate_begin press_when_moving idle_closed))
    = 0 /\
  ~ (forall s',
       open_gate press_when_moving 3000 idle_closed = Some s' ->
       gate_state s' = GATE_OPENING) /\
  (exists s',
     open_gate press_when_moving 3000 idle_closed = Some s' /\
     gate_state s' = GATE_OPEN /\ eeprom s' EEPROM_ADDR = GATE_OPEN).
Proof.
  split; [reflexivity |]. split; [vm_compute; reflexivity |].
  assert (R : exists s',
            open_gate press_when_moving 3000 idle_closed = Some s' /\
            gate_state s' = GATE_OPEN /\ eeprom s' EEPROM_ADDR = GATE_OPEN).
  { eexists. split; [vm_compute; reflexivity |]. split; reflexivity. }
  split; [| exact R].
  intros H. destruct R as (s' & Hs & Hg & _).
  specialize (H s' Hs). rewrite Hg in H. discriminate H.
Qed.

(** C2, amended: [open_gate], and symmetrically [close_gate], enter the
    window with their direction relays energised, the transient state and
    the moving flag set; each turn of the window is a 10 ms delay followed
    by a watchdog service; when a turn finds the moving flag cleared by
    the interrupt context the routine returns early in the state that
    context left, one watchdog service later, finalising nothing itself
    (gate state and store are as the interrupt context left them: after
    the button handler's emergency stop the gate state is already the
    resting value and the store reads it back); when the flag is set at
    each of the 3000 turns (30 s) the routine de-energises relays and
    indicators, sets the resting state and leaves the store reading it
    back. *)
Theorem motion_window_outcomes (irq : Ctl -> Ctl) (fuel : nat) (s : Ctl) :
  (WINDOW_POLLS <= fuel)%nat ->
  motion_window_contract irq (open_gate irq fuel s) (open_gate_begin irq s)
    open_gate_finish RELAY_K1 RELAY_K4 GATE_OPENING GATE_OPEN s /\
  motion_window_contract irq (close_gate irq fuel s) (close_gate_begin irq s)
    close_gate_finish RELAY_K2 RELAY_K3 GATE_CLOSING GATE_CLOSED s /\
  (forall k x,
     trace (polls no_irq k x) =
       cycles [EvWdr; EvDelay SHORT_DELAY] k ++ trace x) /\
  Z.of_nat WINDOW_POLLS * SHORT_DELAY = 30000.
Proof.
  intros Hf. unfold motion_window_contract.
  pose proof (open_gate_begin_fields irq s) as Bo.
  pose proof (close_gate_begin_fields irq s) as Bc.
  cbv zeta in Bo, Bc.
  split; [| split; [| split; [intros k x; apply polls_no_irq_trace
                            | reflexivity]]].
  - split; [tauto |]. split; [reflexivity |]. split; [| split].
    + intros k Hk Hmov Hclr. split_ands.
      * apply open_gate_early; assumption.
      * apply polls_last.
      * intros Hg. rewrite polls_gate_state by exact Hg. tauto.
      * intros He. rewrite polls_eeprom by exact He.
        apply open_gate_begin_eeprom. exact He.
    + intros k p rest y' Hk Hmov Hg Hisr Hp Hirq.
      destruct (handler_stop_in_window irq (open_gate_begin irq s) k p rest y'
                  ltac:(tauto) Hmov Hisr Hp Hirq) as (E & Sm & Sg & Sp).
      rewrite Hg in Sg. change (GATE_OPENING =? GATE_OPENING) with true in Sg.
      cbv iota in Sg. rewrite Sg in Sp.
      split_ands; try assumption.
      rewrite <- E. apply open_gate_early; try assumption.
      rewrite E. exact Sm.
    + intros Hmov. cbv zeta. split.
      * apply open_gate_full; assumption.
      * apply open_gate_finish_fields.
  - split; [tauto |]. split; [reflexivity |]. split; [| split].
    + intros k Hk Hmov Hclr. split_ands.
      * apply close_gate_early; assumption.
      * apply polls_last.
      * intros Hg. rewrite polls_gate_state by exact Hg. tauto.
      * intros He. rewrite polls_eeprom by exact He.
        apply close_gate_begin_eeprom. exact He.
    + intros k p rest y' Hk Hmov Hg Hisr Hp Hirq.
      destruct (handler_stop_in_window irq (close_gate_begin irq s) k p rest y'
                  ltac:(tauto) Hmov Hisr Hp Hirq) as (E & Sm & Sg & Sp).
      rewrite Hg in Sg. change (GATE_CLOSING =? GATE_OPENING) with false in Sg.
      change (GATE_CLOSING =? GATE_CLOSING) with true in Sg.
      cbv iota in Sg. rewrite Sg in Sp.
      split_ands; try assumption.
      rewrite <- E. apply close_gate_early; try assumption.
      rewrite E. exact Sm.
    + intros Hmov. cbv zeta. split.
      * apply close_gate_full; assumption.
      * apply close_gate_finish_fields.
Qed.

Lemma motion_window_outcomes_witness :
  (WINDOW_POLLS <= 3000)%nat /\
  open_gate clear_moving 3000 idle_closed =
    Some (polls clear_moving 1 (open_gate_begin clear_moving idle_closed)) /\
  gate_state (polls clear_moving 1 (open_gate_begin clear_moving idle_closed)) =
    GATE_OPENING /\
  (exists y',
     open_gate press_when_moving 3000 idle_closed = Some (reset_watchdog y') /\
     gate_state (reset_watchdog y') = GATE_OPEN /\
     read_gate_state (reset_watchdog y') = GATE_OPEN) /\
  (exists f, close_gate no_irq 3000 idle_closed = Some f /\
             gate_state f = GATE_CLOSED /\ read_gate_state f = GATE_CLOSED).
Proof.
  assert (Hf : (WINDOW_POLLS <= 3000)%nat) by (apply Nat.le_refl).
  destruct (motion_window_outcomes clear_moving 3000 idle_closed Hf)
    as ((_ & _ & Hearly & _) & _).
  destruct (motion_window_outcomes press_when_moving 3000 idle_closed Hf)
    as ((_ & _ & _ & Hstop & _) & _).
  destruct (motion_window_outcomes no_irq 3000 idle_closed Hf)
    as (_ & (_ & _ & _ & _ & Hfull) & _).
  assert (H0 : (0 < WINDOW_POLLS)%nat)
    by (change WINDOW_POLLS with 3000%nat; lia).
  destruct (Hearly 0%nat H0 ltac:(intros m Hm; lia) eq_refl)
    as (Hrun & _ & Hg & _).
  split; [exact Hf |]. split; [exact Hrun |].
  split; [exact (Hg (fun x => eq_refl)) |].
  split.
  - pose (y' := press_when_moving
                  (emit (EvDelay SHORT_DELAY)
                     (open_gate_begin press_when_moving idle_closed))).
    assert (Hisr : ISR_INT0 [0; 0; 4]
                     (emit (EvDelay SHORT_DELAY)
                        (polls press_when_moving 0
                           (open_gate_begin press_when_moving idle_closed)))
                   = Some y') by (vm_compute; reflexivity).
    destruct (Hstop 0%nat 0 [0; 4] y' H0 ltac:(intros m Hm; lia) eq_refl
                Hisr eq_refl eq_refl) as (Hr & _ & Hs & Hp).
    exists y'. split; [exact Hr |]. split; [exact Hs | exact Hp].
  - assert (Hmov : forall m, (1 <= m <= WINDOW_POLLS)%nat ->
              gate_moving (polls no_irq m (close_gate_begin no_irq idle_closed))
              <> 0).
    { intros m _. rewrite polls_gate_moving by reflexivity.
      vm_compute. discriminate. }
    destruct (Hfull Hmov) as (Hr & _ & _ & _ & Hs & Hp & _).
    eexists. split; [exact Hr |]. split; [exact Hs | exact Hp].
Defined.

(** ** Alternation *)

Lemma state_reports_write_gate_state (g : Z) (s : Ctl) :
  state_reports (trace (write_gate_state g s)) = state_reports (trace s).
Proof.
  unfold write_gate_state. destruct (negb (read_gate_state s =? g));
    reflexivity.
Qed.

Lemma state_reports_polls (k : nat) (s : Ctl) :
  state_reports (trace (polls no_irq k s)) = state_reports (trace s).
Proof.
  revert s. induction k as [| k IH]; intros s; simpl polls.
  - reflexivity.
  - rewrite IH. reflexivity.
Qed.

Lemma state_reports_open_gate_begin (s : Ctl) :
  state_reports (trace (open_gate_begin no_irq s)) =
    GATE_OPENING :: state_reports (trace s).
Proof. reflexivity. Qed.

Lemma state_reports_close_gate_begin (s : Ctl) :
  state_reports (trace (close_gate_begin no_irq s)) =
    GATE_CLOSING :: state_reports (trace s).
Proof. reflexivity. Qed.

Lemma state_reports_open_gate_finish (s : Ctl) :
  state_reports (trace (open_gate_finish s)) =
    GATE_OPEN :: state_reports (trace s).
Proof.
  unfold open_gate_finish. cbv zeta. unfold report_state.
  rewrite gate_state_write_gate_state.
  change (state_message (gate_state (set_gate_state GATE_OPEN (stop_gate s))))
    with (Some (line "State: Gate Open")).
  cbv iota.
  match goal with
  | |- state_reports (trace (uart_tx_string_P ?m (uart_tx_string_P ?m' ?x))) = _ =>
      change (state_reports (trace (uart_tx_string_P m (uart_tx_string_P m' x))))
        with (GATE_OPEN :: state_reports (trace x))
  end.
  rewrite state_reports_write_gate_state. reflexivity.
Qed.

Lemma state_reports_close_gate_finish (s : Ctl) :
  state_reports (trace (close_gate_finish s)) =
    GATE_CLOSED :: state_reports (trace s).
Proof.
  unfold close_gate_finish. cbv zeta. unfold report_state.
  rewrite gate_state_write_gate_state.
  change (state_message (gate_state (set_gate_state GATE_CLOSED (stop_gate s))))
    with (Some (line "State: Gate Closed")).
  cbv iota.
  match goal with
  | |- state_reports (trace (uart_tx_string_P ?m (uart_tx_string_P ?m' ?x))) = _ =>
      change (state_reports (trace (uart_tx_string_P m (uart_tx_string_P m' x))))
        with (GATE_CLOSED :: state_reports (trace x))
  end.
  rewrite state_reports_write_gate_state. reflexivity.
Qed.

Section Uninterrupted.

Variable fuel : nat.
Hypothesis enough_fuel : (WINDOW_POLLS <= fuel)%nat.

Lemma no_irq_keeps_moving (w : Ctl) :
  gate_moving w = 1 ->
  forall m, (1 <= m <= WINDOW_POLLS)%nat ->
    gate_moving (polls no_irq m w) <> 0.
Proof.
  intros Hw m _. rewrite polls_gate_moving by reflexivity.
  rewrite Hw. discriminate.
Qed.

(** A toggle from Closed, its window left alone, ends in Open. *)
Lemma toggle_from_closed (s : Ctl) :
  gate_state s = GATE_CLOSED ->
  exists s',
    toggle_gate no_irq fuel s = Some s' /\
    gate_state s' = GATE_OPEN /\ gate_moving s' = 0 /\
    read_gate_state s' = GATE_OPEN /\
    state_history s' = state_history s ++ [GATE_OPENING; GATE_OPEN].
Proof.
  intros E.
  set (x := uart_tx_string_P (line "Gate currently closed, opening")
              (toggle_prologue s)).
  assert (Ht : toggle_gate no_irq fuel s = open_gate no_irq fuel x).
  { unfold toggle_gate. cbv zeta.
    change (gate_state (toggle_prologue s)) with (gate_state s).
    rewrite E. reflexivity. }
  pose proof (open_gate_begin_fields no_irq x) as B. cbv zeta in B.
  destruct B as (_ & _ & _ & _ & _ & Bm & _).
  pose proof (open_gate_full no_irq fuel enough_fuel x
                (no_irq_keeps_moving _ Bm)) as Hrun.
  pose proof (open_gate_finish_fields
                (polls no_irq WINDOW_POLLS (open_gate_begin no_irq x))) as F.
  cbv zeta in F. destruct F as (_ & _ & Fm & Fg & Fp & _).
  eexists. split; [rewrite Ht; exact Hrun |].
  split_ands; try assumption.
  unfold state_history.
  rewrite state_reports_open_gate_finish, state_reports_polls,
    state_reports_open_gate_begin.
  change (state_reports (trace x)) with (state_reports (trace s)).
  simpl rev. rewrite <- app_assoc. reflexivity.
Qed.

(** A toggle from Open, its window left alone, ends in Closed. *)
Lemma toggle_from_open (s : Ctl) :
  gate_state s = GATE_OPEN ->
  exists s',
    toggle_gate no_irq fuel s = Some s' /\
    gate_state s' = GATE_CLOSED /\ gate_moving s' = 0 /\
    read_gate_state s' = GATE_CLOSED /\
    state_history s' = state_history s ++ [GATE_CLOSING; GATE_CLOSED].
Proof.
  intros E.
  set (x := uart_tx_string_P (line "Gate currently open, closing")
              (toggle_prologue s)).
  assert (Ht : toggle_gate no_irq fuel s = close_gate no_irq fuel x).
  { unfold toggle_gate. cbv zeta.
    change (gate_state (toggle_prologue s)) with (gate_state s).
    rewrite E. reflexivity. }
  pose proof (close_gate_begin_fields no_irq x) as B. cbv zeta in B.
  destruct B as (_ & _ & _ & _ & _ & Bm & _).
  pose proof (close_gate_full no_irq fuel enough_fuel x
                (no_irq_keeps_moving _ Bm)) as Hrun.
  pose proof (close_gate_finish_fields
                (polls no_irq WINDOW_POLLS (close_gate_begin no_irq x))) as F.
  cbv zeta in F. destruct F as (_ & _ & Fm & Fg & Fp & _).
  eexists. split; [rewrite Ht; exact Hrun |].
  split_ands; try assumption.
  unfold state_history.
  rewrite state_reports_close_gate_finish, state_reports_polls,
    state_reports_close_gate_begin.
  change (state_reports (trace x)) with (state_reports (trace s)).
  simpl rev. rewrite <- app_assoc. reflexivity.
Qed.

Lemma toggles_cycle (n : nat) :
  forall (closed : bool) (s : Ctl),
    gate_state s = resting closed ->
    exists s',
      toggles fuel n s = Some s' /\
      gate_state s' = resting (if Nat.even n then closed else negb closed) /\
      state_history s' = state_history s ++ gate_cycle closed n.
Proof.
  induction n as [| n IH]; intros closed s E.
  - exists s. split_ands; [reflexivity | exact E |].
    simpl. rewrite app_nil_r. reflexivity.
  - assert (H1 : exists s',
              toggle_gate no_irq fuel s = Some s' /\
              gate_state s' = resting (negb closed) /\
              state_history s' =
                state_history s ++
                (if closed then [GATE_OPENING; GATE_OPEN]
                 else [GATE_CLOSING; GATE_CLOSED])).
    { destruct closed; simpl in E.
      - destruct (toggle_from_closed s E) as (s' & R & G & _ & _ & Hh).
        exists s'. split_ands; assumption.
      - destruct (toggle_from_open s E) as (s' & R & G & _ & _ & Hh).
        exists s'. split_ands; assumption. }
    destruct H1 as (s1 & R1 & G1 & H1).
    destruct (IH (negb closed) s1 G1) as (s2 & R2 & G2 & H2).
    exists s2. split_ands.
    + simpl toggles. rewrite R1. exact R2.
    + rewrite G2. rewrite Nat.even_succ, <- Nat.negb_even.
      destruct (Nat.even n), closed; reflexivity.
    + rewrite H2, H1. rewrite <- app_assoc. reflexivity.
Qed.

End Uninterrupted.

(** C4: toggles serviced one after the other from a resting state, each
    with its full motion window left alone, go through Opening, Open,
    Closing, Closed, ... in strict alternation (as the firmware reports
    them); after [n] toggles the gate rests on the starting side when [n]
    is even and on the other side when it is odd, and two toggles bring it
    back to the resting state it started from. *)
Theorem toggle_sequence_alternates (fuel n : nat) (closed : bool) (s : Ctl) :
  (WINDOW_POLLS <= fuel)%nat ->
  gate_state s = resting closed ->
  (exists s',
     toggles fuel n s = Some s' /\
     gate_state s' = resting (if Nat.even n then closed else negb closed) /\
     state_history s' = state_history s ++ gate_cycle closed n) /\
  (exists s2, toggles fuel 2 s = Some s2 /\ gate_state s2 = gate_state s) /\
  gate_cycle true 2 = [GATE_OPENING; GATE_OPEN; GATE_CLOSING; GATE_CLOSED] /\
  gate_cycle false 2 = [GATE_CLOSING; GATE_CLOSED; GATE_OPENING; GATE_OPEN].
Proof.
  intros Hf E. split_ands; try reflexivity.
  - apply toggles_cycle; assumption.
  - destruct (toggles_cycle fuel Hf 2 closed s E) as (s2 & R & G & _).
    exists s2. split; [exact R |]. rewrite G, E. reflexivity.
Qed.

Lemma toggle_sequence_alternates_witness :
  (WINDOW_POLLS <= 3000)%nat /\
  gate_state idle_closed = resting true /\
  exists s',
    toggles 3000 3 idle_closed = Some s' /\
    gate_state s' = GATE_OPEN /\
    state_history s' =
      [GATE_OPENING; GATE_OPEN; GATE_CLOSING; GATE_CLOSED;
       GATE_OPENING; GATE_OPEN].
Proof.
  assert (Hf : (WINDOW_POLLS <= 3000)%nat) by apply Nat.le_refl.
  assert (E : gate_state idle_closed = resting true) by reflexivity.
  split; [exact Hf |]. split; [exact E |].
  destruct (toggle_sequence_alternates 3000 3 true idle_closed Hf E)
    as ((s' & R & G & H) & _).
  exists s'. split; [exact R |]. split; [exact G | exact H].
Defined.

(** The same run evaluated: three presses on a closed gate with a blank
    store. *)
Example three_toggles_evaluated :
  option_map (fun s => (gate_state s, read_gate_state s, state_history s))
             (toggles 3000 3 idle_closed) =
    Some (GATE_OPEN, GATE_OPEN,
          [GATE_OPENING; GATE_OPEN; GATE_CLOSING; GATE_CLOSED;
           GATE_OPENING; GATE_OPEN]).
Proof. vm_compute. reflexivity. Qed.

(** ** Boot *)

Lemma eeprom_report_cause v f m s : eeprom (report_cause v f m s) = eeprom s.
Proof. unfold report_cause. case_if; reflexivity. Qed.

(** [check_reset_flag] leaves the gate-state cell alone. *)
Lemma check_reset_flag_read (s : Ctl) :
  read_gate_state (snd (check_reset_flag s)) = read_gate_state s.
Proof. unfold check_reset_flag. case_if; reflexivity. Qed.

(** The gate state [main] starts its loop with is the one
    [read_gate_state] makes of the store found at boot. *)
Lemma main_init_gate_state (s : Ctl) :
  gate_state (ctl (main_init s)) = read_gate_state s.
Proof.
  unfold main_init. cbv zeta.
  match goal with
  | |- context [check_reset_flag ?x] =>
      pose proof (check_reset_flag_read x) as Hc;
      destruct (check_reset_flag x) as [flag c]
  end.
  simpl snd in Hc. cbn [ctl]. unfold init_watchdog. frame.
  assert (Hr : forall b : bool, forall m,
            read_gate_state (if b then uart_tx_string_P m c else c) =
            read_gate_state c) by (intros [|] m; reflexivity).
  rewrite Hr, Hc.
  unfold read_gate_state, eeprom_read_byte.
  rewrite !eeprom_report_cause. reflexivity.
Qed.

(** The run evaluated: after a press the gate of the erased chip ends
    Closed. *)
Example erased_chip_first_press :
  option_map (fun s => (gate_state s, read_gate_state s, state_history s))
    (toggle_gate no_irq 3000
       (ctl (main_init (startup (fun _ => 0) (fun _ => 255))))) =
    Some (GATE_CLOSED, GATE_CLOSED, [GATE_CLOSING; GATE_CLOSED]).
Proof. vm_compute. reflexivity. Qed.

(** A blank store, a boot, one qualifying press, one full window: the
    boot reports Closed and no recovery from a controlled reset, the
    handler leaves the press pending, and the iteration of the main loop
    that consumes it ends with the gate Open and the store holding 3. *)
Example first_press_after_boot :
  let booted := main_init (startup (fun _ => 0) (fun _ => 0)) in
  existsb (fun e => match e with
                    | EvUart m =>
                        String.eqb m
                          (line "System recovered from controlled reset")
                    | _ => false
                    end) (trace (ctl booted)) = false /\
  match ISR_INT0 [0; 4] (ctl booted) with
  | Some pending =>
      button_pressed pending = 1 /\
      match main_iter no_irq 3000 (mkMain pending (ms_counter booted)) with
      | Some (Running m) =>
          gate_state (ctl m) = GATE_OPEN /\
          eeprom (ctl m) EEPROM_ADDR = 3 /\
          button_pressed (ctl m) = 0 /\
          state_history (ctl m) = [GATE_CLOSED; GATE_OPENING; GATE_OPEN]
      | _ => False
      end
  | None => False
  end.
Proof. vm_compute. repeat split. Qed.

(** ** Reset supervisor *)

Lemma long_idle_threshold :
  REGULAR_RESET_HOURS * MS_PER_HOUR = 21600000 /\
  REGULAR_RESET_HOURS * MS_PER_HOUR = 6 * 60 * 60 * 1000 /\
  RESET_DELAY = 5 * 1000.
Proof. split_ands; reflexivity. Qed.

Lemma supervisor_schedules (s : Ctl) :
  REGULAR_RESET_HOURS * MS_PER_HOUR <= idle_timer_ms s ->
  gate_moving s = 0 -> reset_scheduled s = 0 ->
  supervisor s =
    Running
      (mkMain
         (set_idle_timer_ms 0
            (set_reset_scheduled 1
               (uart_tx_string_P
                  (line "Scheduled reset after 6 hours of inactivity") s)))
         0).
Proof.
  intros Hi Hm Hs. unfold supervisor, schedule_reset. cbv zeta.
  apply Z.leb_le in Hi. rewrite Hi, Hm, Hs. reflexivity.
Qed.

Lemma supervisor_below_threshold (s : Ctl) :
  idle_timer_ms s < REGULAR_RESET_HOURS * MS_PER_HOUR ->
  reset_scheduled s = 0 ->
  supervisor s = Running (mkMain s 0).
Proof.
  intros Hi Hs. unfold supervisor. cbv zeta.
  apply Z.leb_gt in Hi. rewrite Hi. cbn [andb]. rewrite Hs. reflexivity.
Qed.

Lemma supervisor_grace_running (s : Ctl) :
  reset_scheduled s <> 0 -> idle_timer_ms s < RESET_DELAY ->
  supervisor s = Running (mkMain s 0).
Proof.
  intros Hs Hi. unfold supervisor. cbv zeta.
  apply truthy_true in Hs. rewrite Hs.
  cbn [negb]. rewrite andb_false_r. rewrite Hs.
  apply Z.leb_gt in Hi. rewrite Hi. reflexivity.
Qed.

Lemma supervisor_grace_elapsed (s : Ctl) :
  reset_scheduled s <> 0 -> RESET_DELAY <= idle_timer_ms s ->
  supervisor s = Spinning (perform_controlled_reset s).
Proof.
  intros Hs Hi. unfold supervisor. cbv zeta.
  apply truthy_true in Hs. rewrite Hs.
  cbn [negb]. rewrite andb_false_r. rewrite Hs.
  apply Z.leb_le in Hi. rewrite Hi. reflexivity.
Qed.

(** The state the supervisor looks at in an iteration with no press
    pending and no interrupt: watchdog serviced, 1 ms waited, the idle
    timer advanced. *)
Lemma main_iter_idle (fuel : nat) (m : Main) :
  button_pressed (ctl m) = 0 -> gate_moving (ctl m) = 0 ->
  0 <= ms_counter m < 1000 ->
  0 <= idle_timer_ms (ctl m) < 4294967295 ->
  let s := set_idle_timer_ms (idle_timer_ms (ctl m) + 1)
             (emit (EvDelay 1) (emit EvWdr (ctl m))) in
  main_iter no_irq fuel m =
    Some (if ms_counter m =? 999 then supervisor s
          else Running (mkMain s (ms_counter m + 1))).
Proof.
  intros Hb Hm Hms Hi s. subst s.
  unfold main_iter, main_tick, delay_ms, no_irq. cbv zeta.
  change (button_pressed (reset_watchdog (ctl m))) with (button_pressed (ctl m)).
  rewrite Hb. change (truthy 0) with false. cbv iota. fields.
  rewrite Hm. change (truthy 0) with false. cbn [negb].
  assert (E16 : u16 (ms_counter m + 1) = ms_counter m + 1)
    by (unfold u16; apply Z.mod_small; lia).
  assert (E32 : u32 (idle_timer_ms (ctl m) + 1) = idle_timer_ms (ctl m) + 1)
    by (unfold u32; apply Z.mod_small; lia).
  rewrite E16, E32.
  destruct (Z.eqb_spec (ms_counter m) 999) as [E | E].
  - rewrite E. reflexivity.
  - assert (L : (1000 <=? ms_counter m + 1) = false) by (apply Z.leb_gt; lia).
    rewrite L. reflexivity.
Qed.

Lemma main_loop_spinning (irq : Ctl -> Ctl) (fuel n : nat) (r : Ctl) :
  main_loop irq fuel n (Spinning r) = Some (Spinning r).
Proof. destruct n; reflexivity. Qed.

Lemma main_loop_app (irq : Ctl -> Ctl) (fuel n k : nat) :
  forall o,
    main_loop irq fuel (n + k) o =
      match main_loop irq fuel n o with
      | Some o' => main_loop irq fuel k o'
      | None => None
      end.
Proof.
  induction n as [| n IH]; intros o.
  - reflexivity.
  - simpl. destruct o as [m | r].
    + destruct (main_iter irq fuel m) as [o' |]; [apply IH | reflexivity].
    + rewrite main_loop_spinning. reflexivity.
Qed.

Lemma quiet_bound_range (s : Ctl) : quiet_bound s <= 21600000.
Proof.
  unfold quiet_bound. destruct (reset_scheduled s =? 0).
  - apply Z.le_refl.
  - discriminate.
Qed.

(** One idle millisecond short of the supervisor's bound. *)
Lemma main_iter_quiet (fuel : nat) (m : Main) :
  quiet m ->
  idle_timer_ms (ctl m) + 1 < quiet_bound (ctl m) ->
  exists m',
    main_iter no_irq fuel m = Some (Running m') /\ advanced 1 m m'.
Proof.
  intros (Hb & Hm & Hms & Hi) Hq.
  pose proof (quiet_bound_range (ctl m)) as Hr.
  rewrite main_iter_idle by (try assumption; lia). cbv zeta.
  set (s := set_idle_timer_ms (idle_timer_ms (ctl m) + 1)
              (emit (EvDelay 1) (emit EvWdr (ctl m)))).
  assert (Hadv : forall c, c = (ms_counter m + 1) mod 1000 ->
                   advanced 1 m (mkMain s c)).
  { intros c ->. unfold advanced, quiet. cbn [ctl ms_counter]. subst s.
    fields. split_ands; try assumption; try reflexivity; try lia.
    - apply Z.mod_pos_bound. lia.
    - apply Z.mod_pos_bound. lia. }
  destruct (Z.eqb_spec (ms_counter m) 999) as [E | E].
  - assert (Hs : supervisor s = Running (mkMain s 0)).
    { unfold quiet_bound in Hq.
      destruct (Z.eqb_spec (reset_scheduled (ctl m)) 0) as [Z0 | Z0].
      - apply supervisor_below_threshold; [exact Hq | exact Z0].
      - apply supervisor_grace_running; [exact Z0 | exact Hq]. }
    rewrite Hs. eexists. split; [reflexivity |].
    apply Hadv. rewrite E. reflexivity.
  - eexists. split; [reflexivity |].
    apply Hadv. rewrite Z.mod_small by lia. reflexivity.
Qed.

(** [n] idle milliseconds short of the supervisor's bound. *)
Lemma idle_run (fuel : nat) (n : nat) :
  forall m,
    quiet m ->
    idle_timer_ms (ctl m) + Z.of_nat n < quiet_bound (ctl m) ->
    exists m',
      main_loop no_irq fuel n (Running m) = Some (Running m') /\
      advanced (Z.of_nat n) m m'.
Proof.
  induction n as [| n IH]; intros m Hq Hb.
  - exists m. split; [reflexivity |].
    destruct Hq as (Hq1 & Hq2 & Hq3 & Hq4).
    unfold advanced, quiet. change (Z.of_nat 0) with 0. rewrite !Z.add_0_r.
    rewrite Z.mod_small by lia.
    split_ands; try assumption; try reflexivity; lia.
  - destruct (main_iter_quiet fuel m Hq) as (m1 & R1 & A1); [lia |].
    destruct A1 as (Q1 & S1 & I1 & K1 & G1 & E1 & O1).
    destruct (IH m1 Q1) as (m2 & R2 & A2).
    { unfold quiet_bound in *. rewrite S1, I1. lia. }
    destruct A2 as (Q2 & S2 & I2 & K2 & G2 & E2 & O2).
    exists m2. split.
    + cbn [main_loop]. rewrite R1. exact R2.
    + unfold advanced. split_ands; try congruence.
      * rewrite I2, I1. lia.
      * rewrite K2, K1. rewrite Zplus_mod_idemp_l. f_equal. lia.
Qed.

(** A qualifying press leaves the idle timer and the scheduled-reset
    flag zeroed. *)
Lemma isr_qualified_resets (p : Z) (rest : list Z) (s s' : Ctl) :
  ISR_INT0 (p :: rest) s = Some s' -> button_low p = true ->
  idle_timer_ms s' = 0 /\ reset_scheduled s' = 0.
Proof.
  unfold ISR_INT0. intros H Hp. rewrite Hp in H.
  destruct (isr_hold rest _) as [h |]; [| discriminate].
  cbv zeta in H. destruct (truthy _) in H; injection H as <-.
  - destruct (emergency_stop_flags
                (set_reset_scheduled 0 (set_idle_timer_ms 0 h)))
      as (_ & Hi & Hs & _).
    split; assumption.
  - split; reflexivity.
Qed.

Lemma perform_controlled_reset_fields (s : Ctl) :
  let r := perform_controlled_reset s in
  eeprom r EEPROM_RESET_FLAG = 1 /\
  gate_moving r = 0 /\
  (gate_moving s <> 0 -> relays_off r /\ leds_off r) /\
  (gate_moving s = 0 -> io r = io s) /\
  trace r =
    EvWdtEnable WDTO_15MS :: EvEepromWrite EEPROM_RESET_FLAG 1
      :: EvUart (line "Performing controlled system reset") :: trace s /\
  read_gate_state r = read_gate_state s.
Proof.
  unfold perform_controlled_reset. cbv zeta.
  change (gate_moving (uart_tx_string_P
            (line "Performing controlled system reset") s))
    with (gate_moving s).
  destruct (truthy (gate_moving s)) eqn:Hm.
  - apply truthy_true in Hm.
    destruct (stop_gate_off
                (uart_tx_string_P
                   (line "Performing controlled system reset") s))
      as (Hr & Hl & _).
    split_ands; try reflexivity.
    + intros _. split; assumption.
    + intros H0. contradiction.
  - apply truthy_false in Hm.
    split_ands; try reflexivity.
    + exact Hm.
    + intros Hn. contradiction.
Qed.

(** From a zeroed idle timer with the check aligned, the 21 600 000th
    idle iteration is the one that schedules the reset. *)
Lemma reach_threshold (fuel n : nat) (m : Main) :
  quiet m -> idle_timer_ms (ctl m) = 0 -> reset_scheduled (ctl m) = 0 ->
  ms_counter m = 0 ->
  Z.of_nat n = REGULAR_RESET_HOURS * MS_PER_HOUR ->
  exists m',
    main_loop no_irq fuel n (Running m) = Some (Running m') /\
    reset_scheduled (ctl m') = 1 /\ idle_timer_ms (ctl m') = 0.
Proof.
  intros Hq Hi Hs Hc Hn.
  destruct long_idle_threshold as (HT & _).
  destruct n as [| k]; [rewrite HT in Hn; discriminate |].
  assert (Hk : Z.of_nat k = 21599999) by lia.
  destruct (idle_run fuel k m Hq) as (m1 & R1 & A1).
  { unfold quiet_bound. rewrite Hs, Hi, Hk. reflexivity. }
  destruct A1 as ((Qb & Qm & Qc & Qi) & S1 & I1 & K1 & _).
  rewrite Hi, Hk in I1. rewrite Hc, Hk in K1. rewrite Hs in S1.
  change ((0 + 21599999) mod 1000) with 999 in K1.
  replace (S k) with (k + 1)%nat by lia.
  rewrite main_loop_app, R1. cbn [main_loop].
  rewrite main_iter_idle by (try assumption; lia). cbv zeta.
  rewrite K1. change (999 =? 999) with true. cbv iota.
  rewrite supervisor_schedules.
  - eexists. split; [reflexivity |]. split; reflexivity.
  - cbn [idle_timer_ms set_idle_timer_ms]. rewrite I1, HT. discriminate.
  - exact Qm.
  - exact S1.
Qed.

(** From the scheduling of the reset with the check aligned, the 5000th
    idle iteration is the one that performs it. *)
Lemma grace_elapses (fuel n : nat) (m : Main) :
  quiet m -> idle_timer_ms (ctl m) = 0 -> reset_scheduled (ctl m) <> 0 ->
  ms_counter m = 0 ->
  Z.of_nat n = RESET_DELAY ->
  exists s,
    main_loop no_irq fuel n (Running m) =
      Some (Spinning (perform_controlled_reset s)) /\
    gate_moving s = 0 /\ io s = io (ctl m) /\
    read_gate_state s = read_gate_state (ctl m).
Proof.
  intros Hq Hi Hs Hc Hn.
  destruct n as [| k]; [discriminate |].
  assert (Hk : Z.of_nat k = 4999) by (unfold RESET_DELAY in Hn; lia).
  destruct (idle_run fuel k m Hq) as (m1 & R1 & A1).
  { unfold quiet_bound. destruct (Z.eqb_spec (reset_scheduled (ctl m)) 0);
      [contradiction |]. rewrite Hi, Hk. reflexivity. }
  destruct A1 as ((Qb & Qm & Qc & Qi) & S1 & I1 & K1 & _ & E1 & O1).
  rewrite Hi, Hk in I1. rewrite Hc, Hk in K1.
  change ((0 + 4999) mod 1000) with 999 in K1.
  replace (S k) with (k + 1)%nat by lia.
  rewrite main_loop_app, R1. cbn [main_loop].
  rewrite main_iter_idle by (try assumption; lia). cbv zeta.
  rewrite K1. change (999 =? 999) with true. cbv iota.
  rewrite supervisor_grace_elapsed.
  - eexists. split; [reflexivity |]. fields.
    split; [exact Qm |]. split; [exact O1 |].
    unfold read_gate_state, eeprom_read_byte. fields. rewrite E1.
    reflexivity.
  - cbn [reset_scheduled set_idle_timer_ms emit set_trace]. congruence.
  - cbn [idle_timer_ms set_idle_timer_ms]. rewrite I1. discriminate.
Qed.

(** C8: the supervisor check is made in the iteration that brings
    [ms_counter] to 1000, that is every 1000th iteration.  At a check
    with the idle time at or above 6 hours, the gate at rest and no reset
    scheduled, the scheduled-reset flag becomes 1 and the idle timer 0.
    At a check with the idle time below 6 hours the flag stays 0: so it
    does after a qualifying press or the start of a motion, which zero
    the timer, and throughout the 21 599 999 idle iterations that follow a
    zeroed timer; the 21 600 000th sets it. *)
Theorem long_idle_schedules_reset (fuel : nat) :
  (forall s,
     REGULAR_RESET_HOURS * MS_PER_HOUR <= idle_timer_ms s ->
     gate_moving s = 0 -> reset_scheduled s = 0 ->
     exists s',
       supervisor s = Running (mkMain s' 0) /\
       reset_scheduled s' = 1 /\ idle_timer_ms s' = 0) /\
  (forall s,
     idle_timer_ms s < REGULAR_RESET_HOURS * MS_PER_HOUR ->
     reset_scheduled s = 0 ->
     supervisor s = Running (mkMain s 0)) /\
  (forall p rest s s',
     ISR_INT0 (p :: rest) s = Some s' -> button_low p = true ->
     supervisor s' = Running (mkMain s' 0) /\ reset_scheduled s' = 0) /\
  (forall irq x,
     supervisor (open_gate_begin irq x) =
       Running (mkMain (open_gate_begin irq x) 0) /\
     supervisor (close_gate_begin irq x) =
       Running (mkMain (close_gate_begin irq x) 0)) /\
  (forall m,
     quiet m -> idle_timer_ms (ctl m) < 4294967295 ->
     let s := set_idle_timer_ms (idle_timer_ms (ctl m) + 1)
                (emit (EvDelay 1) (emit EvWdr (ctl m))) in
     main_iter no_irq fuel m =
       Some (if ms_counter m =? 999 then supervisor s
             else Running (mkMain s (ms_counter m + 1)))) /\
  (forall n m,
     quiet m -> idle_timer_ms (ctl m) = 0 -> reset_scheduled (ctl m) = 0 ->
     Z.of_nat n < REGULAR_RESET_HOURS * MS_PER_HOUR ->
     exists m',
       main_loop no_irq fuel n (Running m) = Some (Running m') /\
       reset_scheduled (ctl m') = 0 /\
       idle_timer_ms (ctl m') = Z.of_nat n) /\
  (forall n m,
     quiet m -> idle_timer_ms (ctl m) = 0 -> reset_scheduled (ctl m) = 0 ->
     ms_counter m = 0 ->
     Z.of_nat n = REGULAR_RESET_HOURS * MS_PER_HOUR ->
     exists m',
       main_loop no_irq fuel n (Running m) = Some (Running m') /\
       reset_scheduled (ctl m') = 1 /\ idle_timer_ms (ctl m') = 0) /\
  REGULAR_RESET_HOURS * MS_PER_HOUR = 6 * 60 * 60 * 1000.
Proof.
  split_ands.
  - intros s Hi Hm Hs. rewrite supervisor_schedules by assumption.
    eexists. split; [reflexivity |]. split; reflexivity.
  - intros s Hi Hs. apply supervisor_below_threshold; assumption.
  - intros p rest s s' Hrun Hp.
    destruct (isr_qualified_resets p rest s s' Hrun Hp) as (Hi & Hs).
    split; [| exact Hs].
    apply supervisor_below_threshold; [rewrite Hi; reflexivity | exact Hs].
  - intros irq x.
    pose proof (open_gate_begin_fields irq x) as Bo.
    pose proof (close_gate_begin_fields irq x) as Bc.
    cbv zeta in Bo, Bc.
    destruct Bo as (_ & _ & _ & _ & _ & _ & Io & So).
    destruct Bc as (_ & _ & _ & _ & _ & _ & Ic & Sc).
    split; apply supervisor_below_threshold;
      solve [assumption | rewrite Io; reflexivity | rewrite Ic; reflexivity].
  - intros m (Hb & Hm & Hc & Hi) Hlt.
    apply main_iter_idle; try assumption. lia.
  - intros n m Hq Hi Hs Hn.
    destruct (idle_run fuel n m Hq) as (m' & R & A).
    { unfold quiet_bound. rewrite Hs, Hi. exact Hn. }
    destruct A as (_ & S1 & I1 & _).
    exists m'. split; [exact R |]. split; [congruence |].
    rewrite I1, Hi. reflexivity.
  - intros n m Hq Hi Hs Hc Hn. apply reach_threshold; assumption.
  - reflexivity.
Qed.

Lemma long_idle_schedules_reset_witness :
  let s := set_idle_timer_ms 21600000 idle_closed in
  REGULAR_RESET_HOURS * MS_PER_HOUR <= idle_timer_ms s /\
  gate_moving s = 0 /\ reset_scheduled s = 0 /\
  (exists s', supervisor s = Running (mkMain s' 0) /\
              reset_scheduled s' = 1 /\ idle_timer_ms s' = 0) /\
  supervisor idle_closed = Running (mkMain idle_closed 0).
Proof.
  intros s.
  assert (Hi : REGULAR_RESET_HOURS * MS_PER_HOUR <= idle_timer_ms s)
    by (vm_compute; discriminate).
  split; [exact Hi |]. split; [reflexivity |]. split; [reflexivity |].
  destruct (long_idle_schedules_reset 0) as (Ha & Hb & _).
  split.
  - exact (Ha s Hi eq_refl eq_refl).
  - exact (Hb idle_closed eq_refl eq_refl).
Defined.

(** The handler waits out the debounce delay before anything else: its
    first watchdog service comes 250 ms after it is entered. *)
Lemma isr_hold_trace (l : list Z) :
  forall s h, isr_hold l s = Some h -> exists t, trace h = t ++ trace s.
Proof.
  induction l as [| p l IH]; intros s h H; simpl in H.
  - discriminate.
  - destruct (button_low p).
    + destruct (IH _ _ H) as (t & Ht).
      exists (t ++ [EvWdr; EvDelay SHORT_DELAY]).
      rewrite Ht, <- app_assoc. reflexivity.
    + injection H as <-. exists []. reflexivity.
Qed.

Lemma report_state_trace (s : Ctl) :
  exists t, trace (report_state s) = t ++ trace s.
Proof.
  unfold report_state. destruct (state_message (gate_state s)) as [m |].
  - exists [EvUart m]. reflexivity.
  - exists []. reflexivity.
Qed.

Lemma write_gate_state_trace (g : Z) (s : Ctl) :
  exists t, trace (write_gate_state g s) = t ++ trace s.
Proof.
  unfold write_gate_state. destruct (negb (read_gate_state s =? g)).
  - exists [EvEepromWrite EEPROM_ADDR g]. reflexivity.
  - exists []. reflexivity.
Qed.

Lemma emergency_stop_trace (s : Ctl) :
  exists t, trace (emergency_stop s) = t ++ trace s.
Proof.
  unfold emergency_stop. cbv zeta.
  match goal with
  | |- exists t, trace (report_state (write_gate_state ?g ?x)) = _ =>
      destruct (report_state_trace (write_gate_state g x)) as (t1 & H1);
      destruct (write_gate_state_trace g x) as (t2 & H2);
      assert (H3 : exists t3, trace x = t3 ++ trace s)
  end.
  { repeat case_if; eexists; fields;
      match goal with
      | |- ?a :: ?b :: ?c :: trace s = _ =>
          change (a :: b :: c :: trace s) with ([a; b; c] ++ trace s)
      | |- ?a :: ?b :: trace s = _ =>
          change (a :: b :: trace s) with ([a; b] ++ trace s)
      end; reflexivity. }
  destruct H3 as (t3 & H3).
  exists (t1 ++ t2 ++ t3). rewrite H1, H2, H3, <- !app_assoc. reflexivity.
Qed.

Lemma isr_waits_before_service (pind : list Z) (s s' : Ctl) :
  ISR_INT0 pind s = Some s' ->
  exists t,
    trace s' = t ++ EvWdr :: EvDelay BUTTON_DEBOUNCE_DELAY :: trace s.
Proof.
  unfold ISR_INT0. intros H. destruct pind as [| p rest]; [discriminate |].
  destruct (button_low p).
  - destruct (isr_hold rest _) as [h |] eqn:Eh; [| discriminate].
    destruct (isr_hold_trace _ _ _ Eh) as (t & Ht).
    cbv zeta in H. destruct (truthy _) in H; injection H as <-.
    + destruct (emergency_stop_trace
                  (set_reset_scheduled 0 (set_idle_timer_ms 0 h)))
        as (t' & Ht').
      exists (t' ++ t). rewrite Ht'. fields. rewrite Ht, <- app_assoc.
      reflexivity.
    + exists t. exact Ht.
  - injection H as <-. exists []. reflexivity.
Qed.

(** C9: at a check that finds a reset scheduled and at least 5 s of idle
    time the supervisor enters the controlled reset, which stops the gate
    if it moves, programs the reset marker with 1, then arms the watchdog
    with its shortest timeout and spins: the marker write comes before
    the arming, no watchdog service follows it, and no further iteration
    of the main loop executes; the button handler, the only other code
    that can still run, starts with its 250 ms debounce delay before it
    services the watchdog.  From the scheduling of the reset this happens
    at the 5000th idle iteration and not before. *)
Theorem controlled_reset_after_grace (fuel : nat) :
  (forall s,
     reset_scheduled s <> 0 -> RESET_DELAY <= idle_timer_ms s ->
     supervisor s = Spinning (perform_controlled_reset s)) /\
  (forall s,
     let r := perform_controlled_reset s in
     eeprom r EEPROM_RESET_FLAG = 1 /\
     gate_moving r = 0 /\
     (gate_moving s <> 0 -> relays_off r /\ leds_off r) /\
     trace r =
       EvWdtEnable WDTO_15MS :: EvEepromWrite EEPROM_RESET_FLAG 1
         :: EvUart (line "Performing controlled system reset") :: trace s) /\
  (forall irq n r, main_loop irq fuel n (Spinning r) = Some (Spinning r)) /\
  (forall pind r r',
     ISR_INT0 pind r = Some r' ->
     exists t,
       trace r' = t ++ EvWdr :: EvDelay BUTTON_DEBOUNCE_DELAY :: trace r) /\
  (forall n m,
     quiet m -> idle_timer_ms (ctl m) = 0 -> reset_scheduled (ctl m) <> 0 ->
     ms_counter m = 0 ->
     (Z.of_nat n < RESET_DELAY ->
        exists m', main_loop no_irq fuel n (Running m) = Some (Running m')) /\
     (RESET_DELAY <= Z.of_nat n ->
        exists s,
          main_loop no_irq fuel n (Running m) =
            Some (Spinning (perform_controlled_reset s)) /\
          read_gate_state s = read_gate_state (ctl m))) /\
  RESET_DELAY = 5000 /\ BUTTON_DEBOUNCE_DELAY = 250 /\ WDTO_15MS = 0.
Proof.
  split_ands; try reflexivity.
  - intros s Hs Hi. apply supervisor_grace_elapsed; assumption.
  - intros s. pose proof (perform_controlled_reset_fields s) as F.
    cbv zeta in F |- *. tauto.
  - intros irq n r. apply main_loop_spinning.
  - intros pind r r'. apply isr_waits_before_service.
  - intros n m Hq Hi Hs Hc. split.
    + intros Hn. destruct (idle_run fuel n m Hq) as (m' & R & _).
      { unfold quiet_bound.
        destruct (Z.eqb_spec (reset_scheduled (ctl m)) 0); [contradiction |].
        rewrite Hi. exact Hn. }
      exists m'. exact R.
    + intros Hn.
      set (g := Z.to_nat RESET_DELAY).
      assert (Hg : Z.of_nat g = RESET_DELAY) by reflexivity.
      destruct (grace_elapses fuel g m Hq Hi Hs Hc Hg) as (s & R & _ & _ & P).
      exists s. split; [| exact P].
      replace n with (g + (n - g))%nat by lia.
      rewrite main_loop_app, R. apply main_loop_spinning.
Qed.

Lemma controlled_reset_after_grace_witness :
  quiet just_scheduled /\
  reset_scheduled (ctl just_scheduled) <> 0 /\
  RESET_DELAY <= Z.of_nat (Z.to_nat 5000) /\
  exists s,
    main_loop no_irq 0 (Z.to_nat 5000) (Running just_scheduled) =
      Some (Spinning (perform_controlled_reset s)) /\
    read_gate_state s = read_gate_state (ctl just_scheduled).
Proof.
  assert (Hq : quiet just_scheduled).
  { unfold quiet. split_ands; try reflexivity; discriminate. }
  assert (Hs : reset_scheduled (ctl just_scheduled) <> 0) by discriminate.
  assert (Hn : RESET_DELAY <= Z.of_nat (Z.to_nat 5000)) by discriminate.
  split; [exact Hq |]. split; [exact Hs |]. split; [exact Hn |].
  destruct (controlled_reset_after_grace 0) as (_ & _ & _ & _ & Hrun & _).
  exact (proj2 (Hrun (Z.to_nat 5000) just_scheduled Hq eq_refl Hs eq_refl) Hn).
Defined.

(** The grace period evaluated: 4999 iterations after the scheduling the
    loop still runs; the 5000th leaves the marker programmed, the
    watchdog armed last, and the firmware spinning. *)
Example grace_period_evaluated :
  (match main_loop no_irq 0 (Z.to_nat 4999) (Running just_scheduled) with
   | Some (Running m) => Some (idle_timer_ms (ctl m), ms_counter m)
   | _ => None
   end = Some (4999, 999)) /\
  (match main_loop no_irq 0 (Z.to_nat 5000) (Running just_scheduled) with
   | Some (Spinning r) =>
       Some (eeprom r EEPROM_RESET_FLAG, firstn 2 (trace r))
   | _ => None
   end = Some (1, [EvWdtEnable WDTO_15MS; EvEepromWrite EEPROM_RESET_FLAG 1])).
Proof. split; vm_compute; reflexivity. Qed.

(** * Further properties *)

(** ** Register bits *)

Lemma bit_testbit (n k : Z) :
  0 <= n -> 0 <= k -> Z.testbit (bit n) k = (n =? k).
Proof.
  intros Hn Hk. unfold bit. rewrite Z.shiftl_mul_pow2 by exact Hn.
  rewrite Z.mul_1_l. apply Z.pow2_bits_eqb. exact Hn.
Qed.

Lemma u8_testbit_high (x k : Z) : 8 <= k -> Z.testbit (u8 x) k = false.
Proof.
  intros Hk. unfold u8. change 256 with (2 ^ 8).
  apply Z.mod_pow2_bits_high. lia.
Qed.

Lemma u8_andnot_idem (p m : Z) :
  u8 (Z.land (u8 (Z.land p (Z.lnot m))) (Z.lnot m)) =
  u8 (Z.land p (Z.lnot m)).
Proof.
  apply Z.bits_inj'. intros n Hn.
  destruct (Z.lt_ge_cases n 8) as [Hlt | Hge].
  - rewrite !andnot_testbit by lia.
    destruct (Z.testbit p n), (Z.testbit m n); reflexivity.
  - rewrite !u8_testbit_high by exact Hge. reflexivity.
Qed.

Lemma relay_mask_high (k : Z) : 4 <= k -> Z.testbit ALL_RELAYS k = false.
Proof.
  intros Hk. assert (H0 : 0 <= k) by lia.
  unfold ALL_RELAYS. rewrite !Z.lor_spec.
  rewrite !bit_testbit by first [exact H0 | vm_compute; congruence].
  unfold RELAY_K1, RELAY_K2, RELAY_K3, RELAY_K4, PB0, PB1, PB2, PB3.
  repeat match goal with
  | |- context [?a =? k] => destruct (Z.eqb_spec a k); [lia |]
  end.
  reflexivity.
Qed.

Lemma led_mask_other (k : Z) :
  0 <= k -> k <> LED_OPENING -> k <> LED_CLOSING ->
  Z.testbit (Z.lor (bit LED_OPENING) (bit LED_CLOSING)) k = false /\
  Z.testbit (bit LED_OPENING) k = false /\
  Z.testbit (bit LED_CLOSING) k = false.
Proof.
  intros Hk H1 H2. rewrite Z.lor_spec.
  rewrite !bit_testbit by first [exact Hk | vm_compute; congruence].
  destruct (Z.eqb_spec LED_OPENING k); [congruence |].
  destruct (Z.eqb_spec LED_CLOSING k); [congruence |].
  split_ands; reflexivity.
Qed.

(** X1: [stop_gate] is idempotent on the outputs and the flag, and it
    touches nothing but the four relay bits of PORTB, the two indicator
    bits of PORTD and [gate_moving]: the upper bits of PORTB, the other
    bits of PORTD (the pull-up of the button among them), every other
    register, the gate state, the store and the trace are left alone. *)
Theorem stop_gate_idempotent (s : Ctl) :
  (forall r, io (stop_gate (stop_gate s)) r = io (stop_gate s) r) /\
  gate_moving (stop_gate (stop_gate s)) = gate_moving (stop_gate s) /\
  relays_off (stop_gate s) /\ leds_off (stop_gate s) /\
  (forall k, 4 <= k < 8 ->
     Z.testbit (io (stop_gate s) PORTB) k = Z.testbit (io s PORTB) k) /\
  (forall k, 0 <= k < 8 -> k <> LED_OPENING -> k <> LED_CLOSING ->
     Z.testbit (io (stop_gate s) PORTD) k = Z.testbit (io s PORTD) k) /\
  (forall r, r <> PORTB -> r <> PORTD -> io (stop_gate s) r = io s r) /\
  gate_state (stop_gate s) = gate_state s /\
  button_pressed (stop_gate s) = button_pressed s /\
  idle_timer_ms (stop_gate s) = idle_timer_ms s /\
  reset_scheduled (stop_gate s) = reset_scheduled s /\
  eeprom (stop_gate s) = eeprom s /\
  trace (stop_gate s) = trace s.
Proof.
  destruct (stop_gate_off s) as (Hr & Hl & _).
  split_ands; try reflexivity; try assumption.
  - intros r. destruct r; try reflexivity.
    + rewrite (stop_gate_PORTB (stop_gate s)), stop_gate_PORTB.
      apply u8_andnot_idem.
    + rewrite (stop_gate_PORTD (stop_gate s)), stop_gate_PORTD.
      apply u8_andnot_idem.
  - intros k Hk. rewrite stop_gate_PORTB, andnot_testbit by lia.
    rewrite relay_mask_high by lia. apply andb_true_r.
  - intros k Hk H1 H2. rewrite stop_gate_PORTD, andnot_testbit by lia.
    destruct (led_mask_other k ltac:(lia) H1 H2) as (E & _).
    rewrite E. apply andb_true_r.
  - intros r H1 H2. destruct r; try reflexivity; congruence.
Qed.

Lemma indicate_opening_PORTD (s : Ctl) :
  io (indicate_opening s) PORTD =
    u8 (Z.land (u8 (Z.lor (io s PORTD) (bit LED_OPENING)))
               (Z.lnot (bit LED_CLOSING))).
Proof. reflexivity. Qed.

Lemma indicate_closing_PORTD (s : Ctl) :
  io (indicate_closing s) PORTD =
    u8 (Z.land (u8 (Z.lor (io s PORTD) (bit LED_CLOSING)))
               (Z.lnot (bit LED_OPENING))).
Proof. reflexivity. Qed.

Lemma indicate_stop_PORTD (s : Ctl) :
  io (indicate_stop s) PORTD =
    u8 (Z.land (io s PORTD)
               (Z.lnot (Z.lor (bit LED_OPENING) (bit LED_CLOSING)))).
Proof. reflexivity. Qed.

(** X2: the three indicator routines leave exactly one indicator lit
    (opening), exactly the other one (closing), or none (stop), whatever
    PORTD held; they change no other bit of PORTD and no other register. *)
Theorem indicators_exclusive (s : Ctl) :
  (Z.testbit (io (indicate_opening s) PORTD) LED_OPENING = true /\
   Z.testbit (io (indicate_opening s) PORTD) LED_CLOSING = false) /\
  (Z.testbit (io (indicate_closing s) PORTD) LED_CLOSING = true /\
   Z.testbit (io (indicate_closing s) PORTD) LED_OPENING = false) /\
  (Z.testbit (io (indicate_stop s) PORTD) LED_OPENING = false /\
   Z.testbit (io (indicate_stop s) PORTD) LED_CLOSING = false) /\
  (forall k, 0 <= k < 8 -> k <> LED_OPENING -> k <> LED_CLOSING ->
     Z.testbit (io (indicate_opening s) PORTD) k = Z.testbit (io s PORTD) k /\
     Z.testbit (io (indicate_closing s) PORTD) k = Z.testbit (io s PORTD) k /\
     Z.testbit (io (indicate_stop s) PORTD) k = Z.testbit (io s PORTD) k) /\
  (forall r, r <> PORTD ->
     io (indicate_opening s) r = io s r /\
     io (indicate_closing s) r = io s r /\
     io (indicate_stop s) r = io s r).
Proof.
  rewrite !indicate_opening_PORTD, !indicate_closing_PORTD,
    !indicate_stop_PORTD.
  split_ands.
  - rewrite andnot_testbit, or_testbit by bit_range.
    rewrite orb_true_r. reflexivity.
  - rewrite andnot_testbit by bit_range. apply andb_false_r.
  - rewrite andnot_testbit, or_testbit by bit_range.
    rewrite orb_true_r. reflexivity.
  - rewrite andnot_testbit by bit_range. apply andb_false_r.
  - rewrite andnot_testbit by bit_range. apply andb_false_r.
  - rewrite andnot_testbit by bit_range. apply andb_false_r.
  - intros k Hk H1 H2.
    destruct (led_mask_other k ltac:(lia) H1 H2) as (E & Eo & Ec).
    rewrite !andnot_testbit, !or_testbit by lia.
    rewrite E, Eo, Ec. rewrite !orb_false_r, !andb_true_r.
    split_ands; reflexivity.
  - intros r Hr. destruct r; try congruence; split_ands; reflexivity.
Qed.

(** ** Reset marker *)

(** X3: [check_reset_flag] is one-shot: it returns the marker as stored
    and leaves the marker cell 0, so that a second call returns 0 and
    changes nothing; it programs the cell only when the marker was set,
    and never touches the gate-state cell. *)
Theorem check_reset_flag_one_shot (s : Ctl) :
  fst (check_reset_flag s) = eeprom s EEPROM_RESET_FLAG /\
  eeprom (snd (check_reset_flag s)) EEPROM_RESET_FLAG = 0 /\
  check_reset_flag (snd (check_reset_flag s)) =
    (0, snd (check_reset_flag s)) /\
  eeprom (snd (check_reset_flag s)) EEPROM_ADDR = eeprom s EEPROM_ADDR /\
  (eeprom s EEPROM_RESET_FLAG = 0 -> snd (check_reset_flag s) = s) /\
  (eeprom s EEPROM_RESET_FLAG <> 0 ->
     trace (snd (check_reset_flag s)) =
       EvEepromWrite EEPROM_RESET_FLAG 0 :: trace s).
Proof.
  assert (Hc : check_reset_flag s =
                 (eeprom s EEPROM_RESET_FLAG,
                  if eeprom s EEPROM_RESET_FLAG =? 0 then s
                  else eeprom_write_byte EEPROM_RESET_FLAG 0 s)).
  { unfold check_reset_flag, eeprom_read_byte.
    destruct (eeprom s EEPROM_RESET_FLAG =? 0); reflexivity. }
  rewrite Hc. cbn [fst snd].
  destruct (Z.eqb_spec (eeprom s EEPROM_RESET_FLAG) 0) as [E | E].
  - split_ands; try reflexivity; try assumption.
    + rewrite Hc, E. reflexivity.
    + intros H. contradiction.
  - split_ands; try reflexivity.
    intros H. contradiction.
Qed.

Lemma check_reset_flag_one_shot_witness :
  let marked := startup (fun _ => 0) (fun a => if a =? 1 then 1 else 0) in
  eeprom marked EEPROM_RESET_FLAG <> 0 /\
  fst (check_reset_flag marked) = 1 /\
  fst (check_reset_flag (snd (check_reset_flag marked))) = 0 /\
  trace (snd (check_reset_flag marked)) =
    EvEepromWrite EEPROM_RESET_FLAG 0 :: trace marked.
Proof.
  intros marked.
  assert (H : eeprom marked EEPROM_RESET_FLAG <> 0) by discriminate.
  destruct (check_reset_flag_one_shot marked) as (H1 & _ & H3 & _ & _ & H6).
  split; [exact H |]. split; [exact H1 |].
  split; [rewrite H3; reflexivity | exact (H6 H)].
Defined.

(** ** Gate-state cell *)

(** X4: writing a resting state twice programs the cell at most once
    (the second call changes nothing), whereas every call with a
    transient code programs the cell again, because no read ever returns
    such a code; [write_gate_state] never touches the marker cell. *)
Theorem write_gate_state_repeat (g : Z) (s : Ctl) :
  (g <> GATE_CLOSING -> g <> GATE_OPENING ->
     write_gate_state g (write_gate_state g s) = write_gate_state g s) /\
  (g = GATE_CLOSING \/ g = GATE_OPENING ->
     trace (write_gate_state g (write_gate_state g s)) =
       EvEepromWrite EEPROM_ADDR g :: EvEepromWrite EEPROM_ADDR g :: trace s) /\
  eeprom (write_gate_state g s) EEPROM_RESET_FLAG =
    eeprom s EEPROM_RESET_FLAG.
Proof.
  split_ands.
  - intros H1 H2.
    assert (E : read_gate_state (write_gate_state g s) = g).
    { rewrite read_after_write_gate_state.
      destruct (Z.eqb_spec g GATE_CLOSING); [contradiction |].
      destruct (Z.eqb_spec g GATE_OPENING); [contradiction |].
      reflexivity. }
    unfold write_gate_state at 1. rewrite E, Z.eqb_refl. reflexivity.
  - intros Hg.
    assert (N : forall x, read_gate_state x <> g).
    { intros x. destruct (read_gate_state_not_transient x) as (N1 & N2).
      destruct Hg; congruence. }
    unfold write_gate_state.
    destruct (Z.eqb_spec (read_gate_state s) g) as [E | _];
      [exfalso; exact (N _ E) |].
    cbn [negb].
    destruct (Z.eqb_spec (read_gate_state (eeprom_write_byte EEPROM_ADDR g s)) g)
      as [E | _]; [exfalso; exact (N _ E) |].
    reflexivity.
  - unfold write_gate_state. case_if; reflexivity.
Qed.

Lemma write_gate_state_repeat_witness :
  write_gate_state GATE_OPEN (write_gate_state GATE_OPEN idle_closed) =
    write_gate_state GATE_OPEN idle_closed /\
  trace (write_gate_state GATE_OPENING
           (write_gate_state GATE_OPENING idle_closed)) =
    [EvEepromWrite EEPROM_ADDR GATE_OPENING;
     EvEepromWrite EEPROM_ADDR GATE_OPENING].
Proof.
  destruct (write_gate_state_repeat GATE_OPEN idle_closed) as (H1 & _).
  destruct (write_gate_state_repeat GATE_OPENING idle_closed) as (_ & H2 & _).
  split.
  - apply H1; discriminate.
  - apply H2. right. reflexivity.
Defined.

(** ** Boot *)

Lemma main_init_eq (s : Ctl) :
  main_init s =
    boot_post (fst (check_reset_flag (boot_pre s)))
              (snd (check_reset_flag (boot_pre s))).
Proof.
  unfold main_init, boot_post, boot_pre. cbv zeta.
  destruct (check_reset_flag _) as [flag c]. reflexivity.
Qed.

(** A mask test [v & (1 << f)] is the test of bit [f]. *)
Lemma land_bit_test (v f : Z) :
  0 <= f -> (Z.land v (bit f) =? 0) = negb (Z.testbit v f).
Proof.
  intros Hf.
  assert (E : Z.land v (bit f) = if Z.testbit v f then bit f else 0).
  { apply Z.bits_inj'. intros n Hn.
    rewrite Z.land_spec, bit_testbit by assumption.
    destruct (Z.eqb_spec f n) as [-> | Hne].
    - destruct (Z.testbit v n) eqn:Ev.
      + rewrite bit_testbit, Z.eqb_refl by assumption. reflexivity.
      + rewrite Z.bits_0. reflexivity.
    - rewrite andb_false_r. destruct (Z.testbit v f).
      + rewrite bit_testbit by assumption.
        destruct (Z.eqb_spec f n); [contradiction | reflexivity].
      + rewrite Z.bits_0. reflexivity. }
  rewrite E. destruct (Z.testbit v f); [| reflexivity].
  unfold bit. rewrite Z.shiftl_mul_pow2, Z.mul_1_l by exact Hf.
  pose proof (Z.pow_pos_nonneg 2 f ltac:(lia) Hf) as Hp.
  destruct (Z.eqb_spec (2 ^ f) 0); [lia | reflexivity].
Qed.

Lemma report_cause_eq (v f : Z) (m : string) (s : Ctl) :
  0 <= f ->
  report_cause v f m s =
    if Z.testbit v f then reg_andnot MCUCSR (bit f) (uart_tx_string_P m s)
    else s.
Proof.
  intros Hf. unfold report_cause. rewrite land_bit_test by exact Hf.
  rewrite negb_involutive. reflexivity.
Qed.

Lemma boot_pre_frame (s : Ctl) :
  eeprom (boot_pre s) = eeprom s /\
  gate_state (boot_pre s) = gate_state s /\
  button_pressed (boot_pre s) = button_pressed s /\
  gate_moving (boot_pre s) = gate_moving s /\
  idle_timer_ms (boot_pre s) = idle_timer_ms s /\
  reset_scheduled (boot_pre s) = reset_scheduled s /\
  io (boot_pre s) PORTB = io s PORTB.
Proof.
  unfold boot_pre. cbv zeta.
  rewrite !report_cause_eq by (vm_compute; congruence).
  repeat case_if; split_ands; reflexivity.
Qed.


Lemma check_reset_flag_eq (s : Ctl) :
  check_reset_flag s =
    (eeprom s EEPROM_RESET_FLAG,
     if eeprom s EEPROM_RESET_FLAG =? 0 then s
     else eeprom_write_byte EEPROM_RESET_FLAG 0 s).
Proof.
  unfold check_reset_flag, eeprom_read_byte.
  destruct (eeprom s EEPROM_RESET_FLAG =? 0); reflexivity.
Qed.

Lemma boot_pre_trace (s : Ctl) :
  trace (boot_pre s) =
    (if Z.testbit (io s MCUCSR) BORF
     then [EvUart (line "System experienced a brown-out reset")] else [])
    ++ (if Z.testbit (io s MCUCSR) EXTRF
        then [EvUart (line "System experienced an external reset")] else [])
    ++ (if Z.testbit (io s MCUCSR) PORF
        then [EvUart (line "System experienced a power-on reset")] else [])
    ++ (if Z.testbit (io s MCUCSR) WDRF
        then [EvUart (line "System restarted via watchdog reset")] else [])
    ++ [EvUart (line "Interrupts enabled"); EvSei;
        EvUart (line "I/O initialized"); EvUart (line "ATMega8535 booting")]
    ++ trace s.
Proof.
  unfold boot_pre. cbv zeta.
  repeat match goal with
  | |- context [report_cause ?v _ _ _] =>
      progress change v with (io s MCUCSR)
  end.
  rewrite !report_cause_eq by (vm_compute; congruence).
  destruct (Z.testbit (io s MCUCSR) WDRF), (Z.testbit (io s MCUCSR) PORF),
    (Z.testbit (io s MCUCSR) EXTRF), (Z.testbit (io s MCUCSR) BORF);
    reflexivity.
Qed.
Lemma report_cause_MCUCSR (v f : Z) (m : string) (s : Ctl) (k : Z) :
  0 <= f < 8 -> 0 <= k < 8 ->
  Z.testbit (io (report_cause v f m s) MCUCSR) k =
    if Z.testbit v f && (f =? k) then false
    else Z.testbit (io s MCUCSR) k.
Proof.
  intros Hf Hk. rewrite report_cause_eq by lia.
  destruct (Z.testbit v f); [| reflexivity].
  cbn [andb]. unfold reg_andnot, reg_write. fields. rewrite upd_same.
  rewrite andnot_testbit by exact Hk.
  rewrite bit_testbit by lia.
  destruct (f =? k); [apply andb_false_r | apply andb_true_r].
Qed.

Lemma boot_pre_MCUCSR (s : Ctl) :
  Z.testbit (io (boot_pre s) MCUCSR) WDRF = false /\
  Z.testbit (io (boot_pre s) MCUCSR) PORF = false /\
  Z.testbit (io (boot_pre s) MCUCSR) EXTRF = false /\
  Z.testbit (io (boot_pre s) MCUCSR) BORF = false.
Proof.
  unfold boot_pre. cbv zeta.
  repeat match goal with
  | |- context [report_cause ?v _ _ _] =>
      progress change v with (io s MCUCSR)
  end.
  rewrite !report_cause_MCUCSR by bit_range.
  change (io
            (uart_tx_string_P (line "Interrupts enabled")
               (init_interrupts
                  (uart_tx_string_P (line "I/O initialized")
                     (uart_tx_string_P (line "ATMega8535 booting")
                        (uart_init (init_io s))))))
            MCUCSR) with (io s MCUCSR).
  change (WDRF =? WDRF) with true. change (PORF =? PORF) with true.
  change (EXTRF =? EXTRF) with true. change (BORF =? BORF) with true.
  rewrite !andb_true_r.
  split_ands;
    repeat match goal with
    | |- context [Z.testbit (io s MCUCSR) ?f && (?a =? ?b)] =>
        let c := eval vm_compute in (a =? b) in
        change (a =? b) with c
    end;
    rewrite ?andb_false_r;
    destruct (Z.testbit (io s MCUCSR) WDRF), (Z.testbit (io s MCUCSR) PORF),
      (Z.testbit (io s MCUCSR) EXTRF), (Z.testbit (io s MCUCSR) BORF);
    reflexivity.
Qed.

Lemma trace_report_state (s : Ctl) :
  trace (report_state s) =
    (match state_message (gate_state s) with
     | Some m => [EvUart m]
     | None => []
     end) ++ trace s.
Proof.
  unfold report_state. destruct (state_message (gate_state s)); reflexivity.
Qed.

Lemma trace_eeprom_write_byte (a v : Z) (x : Ctl) :
  trace (eeprom_write_byte a v x) = EvEepromWrite a v :: trace x.
Proof. reflexivity. Qed.

Lemma read_gate_state_ext (a b : Ctl) :
  eeprom a EEPROM_ADDR = eeprom b EEPROM_ADDR ->
  read_gate_state a = read_gate_state b.
Proof.
  intros E. unfold read_gate_state, eeprom_read_byte. rewrite E.
  reflexivity.
Qed.

Lemma boot_post_gate_state (flag : Z) (c : Ctl) :
  gate_state (ctl (boot_post flag c)) = read_gate_state c.
Proof.
  unfold boot_post, init_watchdog. cbv zeta. cbn [ctl].
  rewrite gate_state_report_state.
  destruct (truthy flag); reflexivity.
Qed.

Lemma boot_post_trace (flag : Z) (c : Ctl) :
  trace (ctl (boot_post flag c)) =
    (match state_message (read_gate_state c) with
     | Some m => [EvUart m]
     | None => []
     end)
    ++ [EvUart (line "ATMega8535 ready");
        EvUart (line "Watchdog timer enabled.");
        EvWdtEnable WDT_TIMEOUT; EvWdr;
        EvUart (line "EEPROM read complete")]
    ++ (if truthy flag
        then [EvUart (line "System recovered from controlled reset")]
        else [])
    ++ trace c.
Proof.
  unfold boot_post, init_watchdog. cbv zeta. cbn [ctl].
  rewrite trace_report_state.
  destruct (truthy flag); reflexivity.
Qed.

(** The boot transcript: what [main] sends and does before its loop. *)
Lemma main_init_trace (s : Ctl) :
  trace (ctl (main_init s)) =
    boot_transcript (io s MCUCSR) (eeprom s EEPROM_RESET_FLAG)
                    (read_gate_state s)
    ++ trace s.
Proof.
  rewrite main_init_eq, check_reset_flag_eq. cbn [fst snd].
  destruct (boot_pre_frame s) as (He & _).
  rewrite He. rewrite boot_post_trace.
  assert (Hg : read_gate_state
                 (if eeprom s EEPROM_RESET_FLAG =? 0 then boot_pre s
                  else eeprom_write_byte EEPROM_RESET_FLAG 0 (boot_pre s)) =
               read_gate_state s).
  { apply read_gate_state_ext.
    destruct (eeprom s EEPROM_RESET_FLAG =? 0).
    - rewrite He. reflexivity.
    - unfold eeprom_write_byte. fields. rewrite He. reflexivity. }
  rewrite Hg. unfold boot_transcript, truthy.
  rewrite <- !app_assoc. f_equal. f_equal.
  destruct (eeprom s EEPROM_RESET_FLAG =? 0); cbn [negb].
  - rewrite boot_pre_trace. rewrite <- ?app_assoc. reflexivity.
  - rewrite trace_eeprom_write_byte.
    rewrite boot_pre_trace. rewrite <- ?app_assoc. reflexivity.
Qed.

Lemma said_app (m : string) (a b : list Event) :
  said m (a ++ b) = said m a || said m b.
Proof. apply existsb_app. Qed.

Lemma state_message_cases (g : Z) :
  state_message g = None \/
  state_message g = Some (line "State: Gate Closed") \/
  state_message g = Some (line "State: Gate Closing") \/
  state_message g = Some (line "State: Gate Opening") \/
  state_message g = Some (line "State: Gate Open").
Proof.
  unfold state_message.
  destruct (g =? GATE_CLOSED); [tauto |].
  destruct (g =? GATE_CLOSING); [tauto |].
  destruct (g =? GATE_OPENING); [tauto |].
  destruct (g =? GATE_OPEN); tauto.
Qed.

Lemma said_boot_transcript (v flag g : Z) :
  said (line "System restarted via watchdog reset")
       (boot_transcript v flag g) = Z.testbit v WDRF /\
  said (line "System experienced a power-on reset")
       (boot_transcript v flag g) = Z.testbit v PORF /\
  said (line "System experienced an external reset")
       (boot_transcript v flag g) = Z.testbit v EXTRF /\
  said (line "System experienced a brown-out reset")
       (boot_transcript v flag g) = Z.testbit v BORF /\
  said (line "System recovered from controlled reset")
       (boot_transcript v flag g) = negb (flag =? 0).
Proof.
  unfold boot_transcript.
  generalize (Z.testbit v WDRF) (Z.testbit v PORF) (Z.testbit v EXTRF)
    (Z.testbit v BORF) (flag =? 0).
  intros b1 b2 b3 b4 b5.
  destruct (state_message_cases g) as [E | [E | [E | [E | E]]]];
    rewrite E; destruct b1, b2, b3, b4, b5;
    split_ands; vm_compute; reflexivity.
Qed.

Lemma boot_post_frame (flag : Z) (c : Ctl) :
  io (ctl (boot_post flag c)) = io c /\
  eeprom (ctl (boot_post flag c)) = eeprom c /\
  gate_moving (ctl (boot_post flag c)) = gate_moving c /\
  button_pressed (ctl (boot_post flag c)) = button_pressed c /\
  idle_timer_ms (ctl (boot_post flag c)) = idle_timer_ms c /\
  reset_scheduled (ctl (boot_post flag c)) = reset_scheduled c /\
  ms_counter (boot_post flag c) = 0.
Proof.
  unfold boot_post, init_watchdog. cbv zeta. cbn [ctl ms_counter].
  rewrite io_report_state, eeprom_report_state, gate_moving_report_state,
    button_pressed_report_state, idle_timer_ms_report_state,
    reset_scheduled_report_state.
  destruct (truthy flag); split_ands; reflexivity.
Qed.

Lemma check_reset_flag_frame (c : Ctl) :
  io (snd (check_reset_flag c)) = io c /\
  gate_moving (snd (check_reset_flag c)) = gate_moving c /\
  button_pressed (snd (check_reset_flag c)) = button_pressed c /\
  idle_timer_ms (snd (check_reset_flag c)) = idle_timer_ms c /\
  reset_scheduled (snd (check_reset_flag c)) = reset_scheduled c /\
  eeprom (snd (check_reset_flag c)) EEPROM_ADDR = eeprom c EEPROM_ADDR /\
  eeprom (snd (check_reset_flag c)) EEPROM_RESET_FLAG = 0.
Proof.
  rewrite check_reset_flag_eq. cbn [snd].
  destruct (Z.eqb_spec (eeprom c EEPROM_RESET_FLAG) 0) as [E | E];
    split_ands; solve [reflexivity | exact E].
Qed.

Lemma main_init_io (s : Ctl) : io (ctl (main_init s)) = io (boot_pre s).
Proof.
  rewrite main_init_eq.
  rewrite (proj1 (boot_post_frame _ _)).
  apply check_reset_flag_frame.
Qed.

Lemma main_init_eeprom (s : Ctl) :
  eeprom (ctl (main_init s)) EEPROM_ADDR = eeprom s EEPROM_ADDR /\
  eeprom (ctl (main_init s)) EEPROM_RESET_FLAG = 0.
Proof.
  rewrite main_init_eq.
  destruct (boot_post_frame (fst (check_reset_flag (boot_pre s)))
              (snd (check_reset_flag (boot_pre s)))) as (_ & He & _).
  rewrite He.
  destruct (check_reset_flag_frame (boot_pre s)) as (_ & _ & _ & _ & _ & Ea & Ef).
  destruct (boot_pre_frame s) as (Hp & _).
  rewrite Ea, Ef, Hp. split; reflexivity.
Qed.

Lemma main_init_flags (s : Ctl) :
  gate_moving (ctl (main_init s)) = gate_moving s /\
  button_pressed (ctl (main_init s)) = button_pressed s /\
  idle_timer_ms (ctl (main_init s)) = idle_timer_ms s /\
  reset_scheduled (ctl (main_init s)) = reset_scheduled s /\
  ms_counter (main_init s) = 0.
Proof.
  rewrite main_init_eq.
  destruct (boot_post_frame (fst (check_reset_flag (boot_pre s)))
              (snd (check_reset_flag (boot_pre s))))
    as (_ & _ & Pm & Pb & Pi & Ps & Pc).
  destruct (check_reset_flag_frame (boot_pre s))
    as (_ & Cm & Cb & Ci & Cs & _).
  destruct (boot_pre_frame s) as (_ & _ & Hb & Hm & Hi & Hs & _).
  rewrite Pm, Pb, Pi, Ps, Pc, Cm, Cb, Ci, Cs, Hb, Hm, Hi, Hs.
  split_ands; reflexivity.
Qed.

(** X5: a boot reports each reset cause exactly when its flag is
    latched in MCUCSR, and a recovery from a controlled reset exactly
    when the marker cell is not 0; afterwards the four cause flags and
    the marker are clear.  None of this reaches the gate state, which is
    what [read_gate_state] makes of the store. *)
Theorem boot_reports_causes (regs : Reg -> Z) (ee : Z -> Z) :
  let booted := ctl (main_init (startup regs ee)) in
  (said (line "System restarted via watchdog reset") (trace booted) =
     Z.testbit (regs MCUCSR) WDRF /\
   said (line "System experienced a power-on reset") (trace booted) =
     Z.testbit (regs MCUCSR) PORF /\
   said (line "System experienced an external reset") (trace booted) =
     Z.testbit (regs MCUCSR) EXTRF /\
   said (line "System experienced a brown-out reset") (trace booted) =
     Z.testbit (regs MCUCSR) BORF /\
   said (line "System recovered from controlled reset") (trace booted) =
     negb (ee EEPROM_RESET_FLAG =? 0)) /\
  (Z.testbit (io booted MCUCSR) WDRF = false /\
   Z.testbit (io booted MCUCSR) PORF = false /\
   Z.testbit (io booted MCUCSR) EXTRF = false /\
   Z.testbit (io booted MCUCSR) BORF = false) /\
  eeprom booted EEPROM_RESET_FLAG = 0 /\
  gate_state booted = read_gate_state (startup regs ee).
Proof.
  intros booted. subst booted. split_ands.
  1-5: rewrite main_init_trace; cbn [trace startup];
       rewrite app_nil_r; apply said_boot_transcript.
  1-4: rewrite main_init_io; apply boot_pre_MCUCSR.
  - apply main_init_eeprom.
  - apply main_init_gate_state.
Qed.

Lemma reboot_fields (regs : Reg -> Z) (x : Ctl) :
  trace (reboot regs x) = [] /\
  eeprom (reboot regs x) = eeprom x /\
  read_gate_state (reboot regs x) = read_gate_state x.
Proof. split_ands; reflexivity. Qed.

Lemma said_recovery (x : Ctl) :
  trace x = [] ->
  said (line "System recovered from controlled reset")
       (trace (ctl (main_init x))) =
    negb (eeprom x EEPROM_RESET_FLAG =? 0).
Proof.
  intros Hx. rewrite main_init_trace, Hx, app_nil_r.
  apply said_boot_transcript.
Qed.

(** X6: the marker makes one round trip through a controlled reset: the
    boot that follows [perform_controlled_reset] reports the recovery and
    clears the marker, the boot after that reports none; both come up in
    the gate state the store held when the reset was performed. *)
Theorem controlled_reset_reported_once (s : Ctl) (regs regs' : Reg -> Z) :
  let first := ctl (main_init (reboot regs (perform_controlled_reset s))) in
  let second := ctl (main_init (reboot regs' first)) in
  said (line "System recovered from controlled reset") (trace first) = true /\
  eeprom first EEPROM_RESET_FLAG = 0 /\
  said (line "System recovered from controlled reset") (trace second) = false /\
  gate_state first = read_gate_state s /\
  gate_state second = read_gate_state s.
Proof.
  cbv zeta.
  pose proof (perform_controlled_reset_fields s) as F. cbv zeta in F.
  destruct F as (Fm & _ & _ & _ & _ & Fr).
  generalize dependent (perform_controlled_reset s). intros r Fm Fr.
  destruct (reboot_fields regs r) as (Rt & Re & Rr).
  destruct (main_init_eeprom (reboot regs r)) as (Ea & Ef).
  pose proof (main_init_gate_state (reboot regs r)) as Hg1.
  pose proof (said_recovery (reboot regs r) Rt) as S1.
  rewrite Re, Fm in S1. rewrite Rr, Fr in Hg1. rewrite Re in Ea.
  generalize dependent (ctl (main_init (reboot regs r))).
  intros first Ea Ef Hg1 S1.
  destruct (reboot_fields regs' first) as (Rt' & Re' & Rr').
  pose proof (main_init_gate_state (reboot regs' first)) as Hg2.
  pose proof (said_recovery (reboot regs' first) Rt') as S2.
  rewrite Re', Ef in S2. rewrite Rr' in Hg2.
  rewrite (read_gate_state_ext first r Ea), Fr in Hg2.
  split_ands; assumption.
Qed.

Lemma boot_pre_io_other (s : Ctl) (r : Reg) :
  r <> MCUCSR ->
  io (boot_pre s) r = io (init_interrupts (uart_init (init_io s))) r.
Proof.
  intros Hr. unfold boot_pre. cbv zeta.
  rewrite !report_cause_eq by (vm_compute; congruence).
  repeat case_if; destruct r; try congruence; reflexivity.
Qed.

Lemma boot_at_rest (s : Ctl) :
  relays_off s -> leds_off s -> gate_moving s = 0 ->
  at_rest (ctl (main_init s)).
Proof.
  intros Hr Hl Hm. unfold at_rest, relays_off, leds_off in *.
  destruct (main_init_flags s) as (Fm & _).
  destruct (main_init_eeprom s) as (Ea & _).
  destruct (read_gate_state_not_transient s) as (N1 & N2).
  rewrite main_init_io, main_init_gate_state.
  rewrite !boot_pre_io_other by discriminate.
  change (io (init_interrupts (uart_init (init_io s))) PORTB)
    with (io s PORTB).
  change (io (init_interrupts (uart_init (init_io s))) PORTD)
    with (u8 (Z.lor (io s PORTD) (bit BUTTON_PIN))).
  rewrite !or_testbit by bit_range.
  change (Z.testbit (bit BUTTON_PIN) LED_OPENING) with false.
  change (Z.testbit (bit BUTTON_PIN) LED_CLOSING) with false.
  rewrite !orb_false_r.
  split_ands; try tauto.
  - congruence.
  - apply read_gate_state_ext. exact Ea.
Qed.

(** X7: boot configures the pins and nothing else on the ports: the
    relay and indicator pins become outputs, the button pin an input with
    its pull-up, INT0 is enabled on the falling edge; PORTB and the other
    bits of PORTD keep the level they had, the gate-state cell is left as
    found (a transient code included), and the gate state loaded is never
    transient.  From outputs that are off the gate is at rest when the
    main loop starts. *)
Theorem boot_configures_pins (s : Ctl) :
  let b := ctl (main_init s) in
  (io b PORTB = io s PORTB /\
   (forall k, 0 <= k < 8 -> k <> BUTTON_PIN ->
      Z.testbit (io b PORTD) k = Z.testbit (io s PORTD) k) /\
   Z.testbit (io b PORTD) BUTTON_PIN = true) /\
  (Z.testbit (io b DDRB) RELAY_K1 = true /\
   Z.testbit (io b DDRB) RELAY_K2 = true /\
   Z.testbit (io b DDRB) RELAY_K3 = true /\
   Z.testbit (io b DDRB) RELAY_K4 = true /\
   Z.testbit (io b DDRD) LED_OPENING = true /\
   Z.testbit (io b DDRD) LED_CLOSING = true /\
   Z.testbit (io b DDRD) BUTTON_PIN = false) /\
  (Z.testbit (io b GICR) INT0 = true /\
   Z.testbit (io b MCUCR) ISC01 = true /\
   Z.testbit (io b MCUCR) ISC00 = false) /\
  (eeprom b EEPROM_ADDR = eeprom s EEPROM_ADDR /\
   gate_state b <> GATE_CLOSING /\ gate_state b <> GATE_OPENING) /\
  (relays_off s -> leds_off s -> gate_moving s = 0 -> at_rest b).
Proof.
  intros b. subst b.
  rewrite !main_init_io, main_init_gate_state.
  rewrite !boot_pre_io_other by discriminate.
  change (io (init_interrupts (uart_init (init_io s))) PORTB)
    with (io s PORTB).
  change (io (init_interrupts (uart_init (init_io s))) PORTD)
    with (u8 (Z.lor (io s PORTD) (bit BUTTON_PIN))).
  change (io (init_interrupts (uart_init (init_io s))) DDRB)
    with (u8 (Z.lor (io s DDRB) ALL_RELAYS)).
  change (io (init_interrupts (uart_init (init_io s))) DDRD)
    with (u8 (Z.land
                (u8 (Z.lor (io s DDRD)
                       (Z.lor (bit LED_OPENING) (bit LED_CLOSING))))
                (Z.lnot (bit BUTTON_PIN)))).
  change (io (init_interrupts (uart_init (init_io s))) GICR)
    with (u8 (Z.lor (io s GICR) (bit INT0))).
  change (io (init_interrupts (uart_init (init_io s))) MCUCR)
    with (u8 (Z.land (u8 (Z.lor (io s MCUCR) (bit ISC01)))
                     (Z.lnot (bit ISC00)))).
  destruct (read_gate_state_not_transient s) as (N1 & N2).
  split_ands; try assumption; try reflexivity.
  - intros k Hk Hb. rewrite or_testbit by exact Hk.
    rewrite bit_testbit by (first [lia | vm_compute; congruence]).
    destruct (Z.eqb_spec BUTTON_PIN k); [congruence | apply orb_false_r].
  - rewrite or_testbit by bit_range. apply orb_true_r.
  - rewrite or_testbit by bit_range. apply orb_true_r.
  - rewrite or_testbit by bit_range. apply orb_true_r.
  - rewrite or_testbit by bit_range. apply orb_true_r.
  - rewrite or_testbit by bit_range. apply orb_true_r.
  - rewrite andnot_testbit, or_testbit by bit_range.
    rewrite orb_true_r. reflexivity.
  - rewrite andnot_testbit, or_testbit by bit_range.
    rewrite orb_true_r. reflexivity.
  - rewrite andnot_testbit by bit_range. apply andb_false_r.
  - rewrite or_testbit by bit_range. apply orb_true_r.
  - rewrite andnot_testbit, or_testbit by bit_range.
    rewrite orb_true_r. reflexivity.
  - rewrite andnot_testbit by bit_range. apply andb_false_r.
  - apply main_init_eeprom.
  - apply boot_at_rest.
Qed.

Lemma boot_configures_pins_witness :
  at_rest (ctl (main_init (startup (fun _ => 0) (fun _ => 255)))) /\
  gate_state (ctl (main_init (startup (fun _ => 0) (fun _ => 255)))) = 255.
Proof.
  split.
  - apply (boot_configures_pins (startup (fun _ => 0) (fun _ => 255)));
      repeat split.
  - reflexivity.
Defined.

(** ** Power loss *)

(** X8: the motion routines keep the transient state in RAM only.  At
    whatever turn of a window the power is lost, as long as no emergency
    stop has written the store, the next boot comes up in the state the
    store read before the motion began: the state the gate left, not the
    one it was heading for. *)
Theorem power_loss_restores_previous_state
    (irq : Ctl -> Ctl) (s : Ctl) (k : nat) (regs : Reg -> Z) :
  (forall x, eeprom (irq x) = eeprom x) ->
  gate_state
    (ctl (main_init (reboot regs (polls irq k (open_gate_begin irq s))))) =
    read_gate_state s /\
  gate_state
    (ctl (main_init (reboot regs (polls irq k (close_gate_begin irq s))))) =
    read_gate_state s.
Proof.
  intros He. rewrite !main_init_gate_state. split.
  - apply read_gate_state_ext.
    change (eeprom (reboot regs (polls irq k (open_gate_begin irq s))))
      with (eeprom (polls irq k (open_gate_begin irq s))).
    rewrite polls_eeprom, open_gate_begin_eeprom by exact He. reflexivity.
  - apply read_gate_state_ext.
    change (eeprom (reboot regs (polls irq k (close_gate_begin irq s))))
      with (eeprom (polls irq k (close_gate_begin irq s))).
    rewrite polls_eeprom, close_gate_begin_eeprom by exact He. reflexivity.
Qed.

Lemma power_loss_restores_previous_state_witness :
  gate_state (polls no_irq 1500 (open_gate_begin no_irq idle_closed)) =
    GATE_OPENING /\
  gate_state
    (ctl (main_init
            (reboot (fun _ => 0)
               (polls no_irq 1500 (open_gate_begin no_irq idle_closed))))) =
    GATE_CLOSED.
Proof.
  split.
  - rewrite polls_gate_state by reflexivity. reflexivity.
  - exact (proj1 (power_loss_restores_previous_state no_irq idle_closed 1500
                    (fun _ => 0) (fun x => eq_refl))).
Defined.

Ltac upd_simpl :=
  repeat first [rewrite upd_same | rewrite upd_other by discriminate].

(** ** The handler, whatever the line does *)

Lemma isr_hold_shape (l : list Z) :
  forall s h,
    isr_hold l s = Some h ->
    exists n,
      h = set_trace (cycles [EvWdr; EvDelay SHORT_DELAY] n ++ trace s) s.
Proof.
  induction l as [| p l IH]; intros s h H; simpl in H.
  - discriminate.
  - destruct (button_low p).
    + destruct (IH _ _ H) as (n & Hn). exists (S n). rewrite Hn.
      change (trace (reset_watchdog (delay_masked SHORT_DELAY s)))
        with ([EvWdr; EvDelay SHORT_DELAY] ++ trace s).
      rewrite app_assoc, cycles_snoc. destruct s; reflexivity.
    + injection H as <-. exists 0%nat. destruct s; reflexivity.
Qed.

(** A qualifying press: the press is left pending on a gate at rest, a
    moving gate is stopped. *)
Lemma isr_qualified_shape (p : Z) (rest : list Z) (s s' : Ctl) :
  ISR_INT0 (p :: rest) s = Some s' -> button_low p = true ->
  exists n,
    let h := set_trace
               (cycles [EvWdr; EvDelay SHORT_DELAY] n
                  ++ EvWdr :: EvDelay BUTTON_DEBOUNCE_DELAY :: trace s) s in
    let armed := set_reset_scheduled 0 (set_idle_timer_ms 0 h) in
    (gate_moving s = 0 /\ s' = set_button_pressed 1 armed) \/
    (gate_moving s <> 0 /\ s' = emergency_stop armed).
Proof.
  unfold ISR_INT0. intros H Hp. rewrite Hp in H.
  destruct (isr_hold rest _) as [h |] eqn:Eh; [| discriminate].
  destruct (isr_hold_shape _ _ _ Eh) as (n & Hn).
  exists n. cbv zeta.
  assert (Hh : h = set_trace
                     (cycles [EvWdr; EvDelay SHORT_DELAY] n
                        ++ EvWdr :: EvDelay BUTTON_DEBOUNCE_DELAY :: trace s)
                     s)
    by (rewrite Hn; destruct s; reflexivity).
  rewrite <- Hh. cbv zeta in H.
  change (gate_moving (set_reset_scheduled 0 (set_idle_timer_ms 0 h)))
    with (gate_moving h) in H.
  assert (Hm : gate_moving h = gate_moving s) by (rewrite Hh; reflexivity).
  rewrite Hm in H.
  destruct (truthy (gate_moving s)) eqn:Ht; injection H as <-.
  - right. split; [apply truthy_true; exact Ht | reflexivity].
  - left. split; [apply truthy_false; exact Ht | reflexivity].
Qed.

(** Every run of the handler that returns is one of three: a bounce
    (nothing but the trace changes), a press on a gate at rest (the press
    is left pending), a press on a moving gate (emergency stop). *)
Lemma isr_shape (pind : list Z) (s s' : Ctl) :
  ISR_INT0 pind s = Some s' ->
  exists n,
    let h := set_trace
               (cycles [EvWdr; EvDelay SHORT_DELAY] n
                  ++ EvWdr :: EvDelay BUTTON_DEBOUNCE_DELAY :: trace s) s in
    let armed := set_reset_scheduled 0 (set_idle_timer_ms 0 h) in
    s' = h \/
    (gate_moving s = 0 /\ s' = set_button_pressed 1 armed) \/
    (gate_moving s <> 0 /\ s' = emergency_stop armed).
Proof.
  intros H. destruct pind as [| p rest]; [discriminate |].
  destruct (button_low p) eqn:Hp.
  - destruct (isr_qualified_shape p rest s s' H Hp) as (n & Hn).
    exists n. right. exact Hn.
  - unfold ISR_INT0 in H. rewrite Hp in H. injection H as <-.
    exists 0%nat. left. destruct s; reflexivity.
Qed.

Lemma isr_hold_returns (l : list Z) :
  forall s, isr_hold l s <> None <-> Exists (fun x => button_low x = false) l.
Proof.
  induction l as [| p l IH]; intros s; simpl.
  - split; [congruence | intros H; inversion H].
  - destruct (button_low p) eqn:Hp.
    + rewrite IH. split.
      * intros H. apply Exists_cons_tl. exact H.
      * intros H. inversion H as [? ? Hx | ? ? Hx]; subst;
          [congruence | exact Hx].
    + split; [| congruence].
      intros _. apply Exists_cons_hd. exact Hp.
Qed.

(** X9: the handler has no time-out of its own.  After a reading that
    is still low past the debounce delay it returns if and only if some
    later reading is high; a bounce, high at the first reading, always
    returns; with no reading left it is still waiting. *)
Theorem handler_returns_on_release (p : Z) (rest : list Z) (s : Ctl) :
  (button_low p = false -> ISR_INT0 (p :: rest) s <> None) /\
  (button_low p = true ->
     (ISR_INT0 (p :: rest) s <> None <->
      Exists (fun x => button_low x = false) rest)) /\
  ISR_INT0 [] s = None.
Proof.
  unfold ISR_INT0. split_ands.
  - intros Hp. rewrite Hp. congruence.
  - intros Hp. rewrite Hp.
    rewrite <- (isr_hold_returns rest
                  (reset_watchdog (delay_masked BUTTON_DEBOUNCE_DELAY s))).
    destruct (isr_hold rest _) as [h |].
    + cbv zeta. destruct (truthy _); split; congruence.
    + split; congruence.
  - reflexivity.
Qed.

Lemma handler_returns_on_release_witness :
  ISR_INT0 [0; 0; 0; 0] mid_opening = None /\
  ISR_INT0 [0; 0; 0; 4] mid_opening <> None.
Proof.
  destruct (handler_returns_on_release 0 [0; 0; 4] mid_opening)
    as (_ & H & _).
  split; [reflexivity |].
  apply (H eq_refl).
  apply Exists_cons_tl, Exists_cons_tl, Exists_cons_hd. reflexivity.
Defined.

(** ** Dead time *)

(** X10: a qualifying press taken during the relay dead time of a motion
    routine does not stop that motion: the moving flag is still clear
    when the handler tests it, so the press is left pending while the
    routine goes on to energise its direction (and only its direction)
    and enter the window. *)
Theorem dead_time_press_is_queued
    (irq : Ctl -> Ctl) (s : Ctl) (p : Z) (rest : list Z) (y' : Ctl) :
  let d := emit (EvDelay RELAY_SWITCHING_DELAY)
             (reset_watchdog (stop_gate s)) in
  ISR_INT0 (p :: rest) d = Some y' -> button_low p = true ->
  irq d = y' ->
  (button_pressed (open_gate_begin irq s) = 1 /\
   gate_moving (open_gate_begin irq s) = 1 /\
   gate_state (open_gate_begin irq s) = GATE_OPENING /\
   Z.testbit (io (open_gate_begin irq s) PORTB) RELAY_K1 = true /\
   Z.testbit (io (open_gate_begin irq s) PORTB) RELAY_K4 = true /\
   opposing_off GATE_OPENING (open_gate_begin irq s)) /\
  (button_pressed (close_gate_begin irq s) = 1 /\
   gate_moving (close_gate_begin irq s) = 1 /\
   gate_state (close_gate_begin irq s) = GATE_CLOSING /\
   Z.testbit (io (close_gate_begin irq s) PORTB) RELAY_K2 = true /\
   Z.testbit (io (close_gate_begin irq s) PORTB) RELAY_K3 = true /\
   opposing_off GATE_CLOSING (close_gate_begin irq s)).
Proof.
  intros d Hisr Hp Hirq.
  destruct (isr_qualified_shape _ _ _ _ Hisr Hp) as (n & [(_ & Hs) | (Hm & _)]);
    [| exfalso; apply Hm; reflexivity].
  assert (Hd : forall x, delay_ms irq RELAY_SWITCHING_DELAY
                           (reset_watchdog (stop_gate x)) =
                         irq (emit (EvDelay RELAY_SWITCHING_DELAY)
                                (reset_watchdog (stop_gate x))))
    by reflexivity.
  assert (Hy : button_pressed y' = 1 /\ io y' = io (stop_gate s))
    by (rewrite Hs; split; reflexivity).
  destruct Hy as (Hb & Hio).
  destruct (stop_gate_off s) as ((R1 & R2 & R3 & R4) & _ & _).
  pose proof (open_gate_begin_fields irq s) as Bo.
  pose proof (close_gate_begin_fields irq s) as Bc.
  cbv zeta in Bo, Bc.
  destruct Bo as (Bo1 & Bo4 & _ & _ & Bog & Bom & _).
  destruct Bc as (Bc2 & Bc3 & _ & _ & Bcg & Bcm & _).
  assert (Eo : button_pressed (open_gate_begin irq s) = 1 /\
               io (open_gate_begin irq s) PORTB =
                 u8 (Z.lor (io (stop_gate s) PORTB)
                       (Z.lor (bit RELAY_K1) (bit RELAY_K4)))).
  { unfold open_gate_begin. cbv zeta. rewrite Hd. fold d. rewrite Hirq.
    generalize dependent y'. intros y' _ _ _ Hb Hio.
    frame. upd_simpl. rewrite Hb, Hio. split; reflexivity. }
  assert (Ec : button_pressed (close_gate_begin irq s) = 1 /\
               io (close_gate_begin irq s) PORTB =
                 u8 (Z.lor (io (stop_gate s) PORTB)
                       (Z.lor (bit RELAY_K2) (bit RELAY_K3)))).
  { unfold close_gate_begin. cbv zeta. rewrite Hd. fold d. rewrite Hirq.
    generalize dependent y'. intros y' _ _ _ Hb Hio.
    frame. upd_simpl. rewrite Hb, Hio. split; reflexivity. }
  destruct Eo as (Eob & Eoio). destruct Ec as (Ecb & Ecio).
  unfold opposing_off.
  change (GATE_OPENING =? GATE_OPENING) with true.
  change (GATE_CLOSING =? GATE_OPENING) with false. cbv iota.
  split; split_ands; try assumption.
  - rewrite Eoio, or_testbit by bit_range. rewrite R2. reflexivity.
  - rewrite Eoio, or_testbit by bit_range. rewrite R3. reflexivity.
  - rewrite Ecio, or_testbit by bit_range. rewrite R1. reflexivity.
  - rewrite Ecio, or_testbit by bit_range. rewrite R4. reflexivity.
Qed.

Lemma dead_time_press_is_queued_witness :
  let irq := fun x : Ctl =>
               if truthy (gate_moving x) then x
               else match ISR_INT0 [0; 4] x with Some y => y | None => x end in
  button_pressed (open_gate_begin irq idle_closed) = 1 /\
  gate_moving (open_gate_begin irq idle_closed) = 1 /\
  gate_state (open_gate_begin irq idle_closed) = GATE_OPENING.
Proof.
  intros irq.
  destruct (dead_time_press_is_queued irq idle_closed 0 [4]
              (irq (emit (EvDelay RELAY_SWITCHING_DELAY)
                      (reset_watchdog (stop_gate idle_closed))))
              eq_refl eq_refl eq_refl) as ((H1 & H2 & H3 & _) & _).
  split_ands; assumption.
Defined.

(** ** Scheduling *)

(** X11: [schedule_reset] acts only on a gate at rest with no reset
    scheduled; otherwise, and in particular when called again, it changes
    nothing, so the grace period is never restarted.  It touches only
    the flag, the idle timer and the trace. *)
Theorem schedule_reset_once (s : Ctl) :
  (gate_moving s = 0 -> reset_scheduled s = 0 ->
     reset_scheduled (schedule_reset s) = 1 /\
     idle_timer_ms (schedule_reset s) = 0) /\
  (gate_moving s <> 0 \/ reset_scheduled s <> 0 -> schedule_reset s = s) /\
  schedule_reset (schedule_reset s) = schedule_reset s /\
  (io (schedule_reset s) = io s /\
   gate_state (schedule_reset s) = gate_state s /\
   gate_moving (schedule_reset s) = gate_moving s /\
   button_pressed (schedule_reset s) = button_pressed s /\
   eeprom (schedule_reset s) = eeprom s).
Proof.
  split_ands.
  - intros Hm Hs. unfold schedule_reset. rewrite Hm, Hs.
    split; reflexivity.
  - intros H. unfold schedule_reset.
    destruct H as [H | H]; apply truthy_true in H; rewrite H;
      cbn [negb andb]; rewrite ?andb_false_r; reflexivity.
  - destruct (negb (truthy (gate_moving s))
              && negb (truthy (reset_scheduled s))) eqn:C.
    + assert (E : schedule_reset s =
                    set_idle_timer_ms 0
                      (set_reset_scheduled 1
                         (uart_tx_string_P
                            (line "Scheduled reset after 6 hours of inactivity")
                            s)))
        by (unfold schedule_reset; rewrite C; reflexivity).
      rewrite E. unfold schedule_reset. fields.
      change (truthy 1) with true. cbn [negb].
      rewrite andb_false_r. reflexivity.
    + assert (E : schedule_reset s = s)
        by (unfold schedule_reset; rewrite C; reflexivity).
      rewrite !E. reflexivity.
  - unfold schedule_reset.
    destruct (negb (truthy (gate_moving s))
              && negb (truthy (reset_scheduled s))); reflexivity.
  - unfold schedule_reset.
    destruct (negb (truthy (gate_moving s))
              && negb (truthy (reset_scheduled s))); reflexivity.
  - unfold schedule_reset.
    destruct (negb (truthy (gate_moving s))
              && negb (truthy (reset_scheduled s))); reflexivity.
  - unfold schedule_reset.
    destruct (negb (truthy (gate_moving s))
              && negb (truthy (reset_scheduled s))); reflexivity.
  - unfold schedule_reset.
    destruct (negb (truthy (gate_moving s))
              && negb (truthy (reset_scheduled s))); reflexivity.
Qed.

Lemma schedule_reset_once_witness :
  reset_scheduled (schedule_reset idle_closed) = 1 /\
  schedule_reset mid_opening = mid_opening.
Proof.
  destruct (schedule_reset_once idle_closed) as (H1 & _).
  destruct (schedule_reset_once mid_opening) as (_ & H2 & _).
  split.
  - apply H1; reflexivity.
  - apply H2. left. discriminate.
Defined.

(** ** Traces *)

Lemma serviced_weaken (a a' : Z) (t : list Event) :
  serviced a t -> a <= a' -> serviced a' t.
Proof. unfold serviced. intros (G & L) H. split; [exact G | lia]. Qed.

Lemma serviced_wdr (a : Z) (t : list Event) :
  serviced a t -> serviced 0 (EvWdr :: t).
Proof.
  unfold serviced. intros (G & L). cbn [gaps_leb since_wdr].
  rewrite G. split; [reflexivity | lia].
Qed.

Lemma serviced_delay (a d : Z) (t : list Event) :
  serviced a t -> 0 <= d -> a + d <= MAX_SERVICE_GAP ->
  serviced (a + d) (EvDelay d :: t).
Proof.
  unfold serviced. intros (G & L) Hd Hb. cbn [gaps_leb since_wdr].
  rewrite G, andb_true_r. split; [apply Z.leb_le; lia | lia].
Qed.

Lemma serviced_untimed (a : Z) (e : Event) (t : list Event) :
  untimed e -> serviced a t -> a <= MAX_SERVICE_GAP -> serviced a (e :: t).
Proof.
  unfold serviced. intros He (G & L) Hb.
  assert (E : since_wdr (e :: t) = since_wdr t)
    by (destruct e; try contradiction; reflexivity).
  cbn [gaps_leb]. rewrite E, G, andb_true_r.
  split; [apply Z.leb_le; lia | lia].
Qed.

Lemma serviced_cycles (n : nat) (t : list Event) :
  serviced 0 t ->
  serviced 0 (cycles [EvWdr; EvDelay SHORT_DELAY] n ++ t).
Proof.
  intros H. induction n as [| n IH]; [exact H |].
  cbn [cycles app]. apply (serviced_wdr SHORT_DELAY).
  change SHORT_DELAY with (0 + SHORT_DELAY) at 1.
  apply serviced_delay; [exact IH | discriminate | discriminate].
Qed.

Lemma quiet_ext_refl (t : list Event) : quiet_ext t t.
Proof. exists []. split_ands; [reflexivity | constructor | constructor]. Qed.

Lemma quiet_ext_trans (t1 t2 t3 : list Event) :
  quiet_ext t1 t2 -> quiet_ext t2 t3 -> quiet_ext t1 t3.
Proof.
  intros (e1 & -> & U1 & W1) (e2 & -> & U2 & W2).
  exists (e2 ++ e1). rewrite app_assoc.
  split_ands; [reflexivity | |]; apply Forall_app; split; assumption.
Qed.

Lemma quiet_ext_cons (e : Event) (t : list Event) :
  untimed e -> write_ok e -> quiet_ext t (e :: t).
Proof.
  intros U W. exists [e].
  split_ands; [reflexivity | |]; constructor; solve [assumption | constructor].
Qed.

Lemma quiet_ext_serviced (a : Z) (t t' : list Event) :
  quiet_ext t t' -> serviced a t -> a <= MAX_SERVICE_GAP -> serviced a t'.
Proof.
  intros (ext & -> & U & _) H Hb.
  induction U as [| e ext He U IH]; [exact H |].
  cbn [app]. apply serviced_untimed; assumption.
Qed.

Lemma quiet_ext_writes (t t' : list Event) :
  quiet_ext t t' -> resting_writes t -> resting_writes t'.
Proof.
  intros (ext & -> & _ & W) H. apply Forall_app. split; assumption.
Qed.

Lemma resting_writes_cycles (n : nat) (d : Z) :
  resting_writes (cycles [EvWdr; EvDelay d] n).
Proof.
  induction n as [| n IH]; [constructor |].
  cbn [cycles app]. repeat constructor. exact IH.
Qed.

Lemma quiet_report_state (s : Ctl) :
  quiet_ext (trace s) (trace (report_state s)).
Proof.
  unfold report_state. destruct (state_message (gate_state s)).
  - apply quiet_ext_cons; exact I.
  - apply quiet_ext_refl.
Qed.

Lemma quiet_write_gate_state (g : Z) (s : Ctl) :
  g = GATE_CLOSED \/ g = GATE_OPEN ->
  quiet_ext (trace s) (trace (write_gate_state g s)).
Proof.
  intros Hg. unfold write_gate_state.
  destruct (negb (read_gate_state s =? g)).
  - apply quiet_ext_cons; [exact I | intros _; exact Hg].
  - apply quiet_ext_refl.
Qed.

Lemma quiet_uart (m : string) (s : Ctl) :
  quiet_ext (trace s) (trace (uart_tx_string_P m s)).
Proof. apply quiet_ext_cons; exact I. Qed.

(** ** The handler on a gate at rest and on a moving gate *)

Lemma handler_trace_ok (a : Z) (n : nat) (t : list Event) :
  serviced a t -> a + BUTTON_DEBOUNCE_DELAY <= MAX_SERVICE_GAP ->
  serviced 0
    (cycles [EvWdr; EvDelay SHORT_DELAY] n
       ++ EvWdr :: EvDelay BUTTON_DEBOUNCE_DELAY :: t) /\
  (resting_writes t ->
   resting_writes
     (cycles [EvWdr; EvDelay SHORT_DELAY] n
        ++ EvWdr :: EvDelay BUTTON_DEBOUNCE_DELAY :: t)).
Proof.
  intros H Hb. split.
  - apply serviced_cycles.
    apply (serviced_wdr (a + BUTTON_DEBOUNCE_DELAY)).
    apply serviced_delay; [exact H | discriminate | exact Hb].
  - intros W. apply Forall_app. split; [apply resting_writes_cycles |].
    repeat constructor. exact W.
Qed.

(** On a gate at rest the handler can only leave a press pending. *)
Lemma handler_idle (pind : list Z) (s s' : Ctl) :
  ISR_INT0 pind s = Some s' -> gate_moving s = 0 ->
  io s' = io s /\ gate_state s' = gate_state s /\ eeprom s' = eeprom s /\
  gate_moving s' = 0 /\
  (idle_timer_ms s' = idle_timer_ms s \/ idle_timer_ms s' = 0) /\
  exists n,
    trace s' =
      cycles [EvWdr; EvDelay SHORT_DELAY] n
        ++ EvWdr :: EvDelay BUTTON_DEBOUNCE_DELAY :: trace s.
Proof.
  intros H Hm. destruct (isr_shape _ _ _ H) as (n & Hs). cbv zeta in Hs.
  destruct Hs as [-> | [(_ & ->) | (Hn & _)]]; [| | contradiction].
  - split_ands; try reflexivity; try assumption.
    + left. reflexivity.
    + exists n. reflexivity.
  - split_ands; try reflexivity; try assumption.
    + right. reflexivity.
    + exists n. reflexivity.
Qed.

Lemma destination_cases (tr : Z) :
  tr = GATE_OPENING \/ tr = GATE_CLOSING ->
  (destination tr = GATE_CLOSED \/ destination tr = GATE_OPEN) /\
  destination tr <> GATE_CLOSING /\ destination tr <> GATE_OPENING.
Proof. intros [-> | ->]; split_ands; (tauto || discriminate). Qed.

(** The emergency stop of a gate in a transient state. *)
Lemma emergency_stop_arrives (tr : Z) (x : Ctl) :
  tr = GATE_OPENING \/ tr = GATE_CLOSING ->
  gate_state x = tr ->
  at_rest (emergency_stop x) /\
  gate_state (emergency_stop x) = destination tr /\
  idle_timer_ms (emergency_stop x) = 0 /\
  exists m,
    quiet_ext (EvWdr :: EvUart m :: trace x) (trace (emergency_stop x)).
Proof.
  intros Htr Hg.
  destruct (stop_gate_off x) as (Hr & Hl & _).
  destruct (emergency_stop_flags x) as (Fm & Fi & _).
  destruct (emergency_stop_gate_state x) as (Gg & Gp).
  assert (Ed : gate_state (emergency_stop x) = destination tr).
  { rewrite Gg, Hg. destruct Htr as [-> | ->]; reflexivity. }
  destruct (destination_cases tr Htr) as (Hd & N1 & N2).
  split_ands.
  - unfold at_rest, relays_off, leds_off in *. rewrite emergency_stop_io.
    rewrite Gp, Ed. split_ands; try tauto.
  - exact Ed.
  - exact Fi.
  - exists (line "Emergency stop: gate halted immediately").
    unfold emergency_stop. cbv zeta.
    eapply quiet_ext_trans; [| apply quiet_report_state].
    match goal with
    | |- quiet_ext _ (trace (write_gate_state (gate_state ?y) ?y)) =>
        assert (Ey : gate_state y = destination tr /\
                     quiet_ext
                       (EvWdr
                        :: EvUart (line "Emergency stop: gate halted immediately")
                        :: trace x) (trace y))
    end.
    { change (gate_state
                (set_reset_scheduled 0
                   (set_idle_timer_ms 0
                      (reset_watchdog
                         (stop_gate
                            (uart_tx_string_P
                               (line "Emergency stop: gate halted immediately")
                               x))))))
        with (gate_state x).
      rewrite Hg. destruct Htr as [-> | ->].
      - change (GATE_OPENING =? GATE_OPENING) with true. cbv iota.
        split; [reflexivity |]. apply quiet_ext_cons; exact I.
      - change (GATE_CLOSING =? GATE_OPENING) with false.
        change (GATE_CLOSING =? GATE_CLOSING) with true. cbv iota.
        split; [reflexivity |]. apply quiet_ext_cons; exact I. }
    destruct Ey as (Ey & Eq).
    eapply quiet_ext_trans; [exact Eq |].
    rewrite Ey. apply quiet_write_gate_state. exact Hd.
Qed.

Lemma opposing_off_io (tr : Z) (a b : Ctl) :
  io a = io b -> opposing_off tr a -> opposing_off tr b.
Proof. unfold opposing_off. intros E. rewrite E. tauto. Qed.

Lemma relays_off_opposing (tr : Z) (s : Ctl) :
  relays_off s -> opposing_off tr s.
Proof.
  unfold relays_off, opposing_off. intros (R1 & R2 & R3 & R4).
  destruct (tr =? GATE_OPENING); split; assumption.
Qed.

Section HandlerEnv.

Variable irq : Ctl -> Ctl.
Hypothesis handlers : handler_env irq.

(** A delay on a gate at rest, whatever the button does. *)
Lemma delay_at_rest (a d : Z) (s : Ctl) :
  gate_moving s = 0 -> serviced a (trace s) ->
  0 <= d -> a + d + BUTTON_DEBOUNCE_DELAY <= MAX_SERVICE_GAP ->
  let s' := delay_ms irq d s in
  io s' = io s /\ gate_state s' = gate_state s /\ eeprom s' = eeprom s /\
  gate_moving s' = 0 /\
  (idle_timer_ms s' = idle_timer_ms s \/ idle_timer_ms s' = 0) /\
  serviced (a + d) (trace s') /\
  (resting_writes (trace s) -> resting_writes (trace s')).
Proof.
  intros Hm Hs Hd Hb s'. subst s'. unfold delay_ms.
  assert (Hs1 : serviced (a + d) (trace (emit (EvDelay d) s))).
  { apply serviced_delay; [exact Hs | exact Hd |].
    unfold BUTTON_DEBOUNCE_DELAY in Hb. lia. }
  assert (Hw1 : resting_writes (trace s) ->
                resting_writes (trace (emit (EvDelay d) s)))
    by (intros W; constructor; [exact I | exact W]).
  destruct (handlers (emit (EvDelay d) s)) as [E | (pind & E)].
  - rewrite E. split_ands; try reflexivity; try assumption. left. reflexivity.
  - destruct (handler_idle _ _ _ E Hm) as (Hio & Hg & He & Hm' & Hi & n & Ht).
    destruct (handler_trace_ok (a + d) n _ Hs1 Hb) as (T1 & T2).
    rewrite Ht. split_ands; try assumption.
    + apply (serviced_weaken 0); [exact T1 |].
      destruct Hs as (_ & L). lia.
    + intros W. apply T2, Hw1, W.
Qed.

(** One turn of a window, whatever the button does: the motion goes on,
    or the emergency stop has brought the gate to its destination. *)
Lemma poll_in_window (tr : Z) (s : Ctl) :
  tr = GATE_OPENING \/ tr = GATE_CLOSING ->
  in_window tr s ->
  (gate_moving (poll irq s) <> 0 /\ in_window tr (poll irq s)) \/
  (gate_moving (poll irq s) = 0 /\ arrived tr (poll irq s)).
Proof.
  intros Htr (Hm & Hg & Hi & Ho & Hw & Hs).
  unfold poll, delay_ms.
  set (s1 := emit (EvDelay SHORT_DELAY) s).
  assert (Hs1 : serviced (RELAY_SWITCHING_DELAY + SHORT_DELAY) (trace s1))
    by (apply serviced_delay; [exact Hs | discriminate | discriminate]).
  assert (Hw1 : resting_writes (trace s1))
    by (constructor; [exact I | exact Hw]).
  assert (Stay : forall y,
            gate_moving y = gate_moving s -> gate_state y = gate_state s ->
            idle_timer_ms y = 0 -> io y = io s ->
            resting_writes (trace y) -> serviced (RELAY_SWITCHING_DELAY + SHORT_DELAY) (trace y) ->
            gate_moving (reset_watchdog y) <> 0 /\
            in_window tr (reset_watchdog y)).
  { intros y Ym Yg Yi Yo Yw Ys.
    assert (Hm' : gate_moving (reset_watchdog y) <> 0)
      by (change (gate_moving y <> 0); rewrite Ym; exact Hm).
    split; [exact Hm' |].
    unfold in_window. split; [exact Hm' |].
    split; [change (gate_state y = tr); congruence |].
    split; [exact Yi |].
    split.
    { apply (opposing_off_io tr s); [| exact Ho].
      change (io s = io y). symmetry. exact Yo. }
    split.
    - constructor; [exact I | exact Yw].
    - apply (serviced_weaken 0); [| discriminate].
      apply (serviced_wdr _ _ Ys). }
  destruct (handlers s1) as [E | (pind & E)].
  - left. rewrite E. apply Stay; try reflexivity; assumption.
  - destruct (isr_shape _ _ _ E) as (n & Hsh). cbv zeta in Hsh.
    destruct (handler_trace_ok _ n _ Hs1 ltac:(discriminate)) as (T1 & T2).
    destruct Hsh as [Hh | [(H0 & _) | (_ & He)]].
    + left. rewrite Hh. apply Stay; try reflexivity; try assumption.
      * apply T2. exact Hw1.
      * apply (serviced_weaken 0); [exact T1 | discriminate].
    + exfalso. apply Hm. exact H0.
    + right. rewrite He.
      match goal with
      | |- context [emergency_stop ?x] =>
          destruct (emergency_stop_arrives tr x Htr Hg)
            as (Ar & Ag & Ai & m & Aq);
          destruct (emergency_stop_flags x) as (Fm & _);
          cbn [trace set_reset_scheduled set_idle_timer_ms set_trace] in Aq;
          generalize dependent (emergency_stop x)
      end.
      intros e _ Ar Ag Ai Aq Fm.
      split; [exact Fm |].
      unfold arrived. fields.
      split_ands; try assumption.
      * constructor; [exact I |].
        apply (quiet_ext_writes _ _ Aq).
        constructor; [exact I |]. constructor; [exact I |].
        apply T2. exact Hw1.
      * apply (serviced_weaken 0); [| discriminate].
        apply (serviced_wdr 0).
        apply (quiet_ext_serviced _ _ _ Aq); [| discriminate].
        apply (serviced_wdr 0).
        apply serviced_untimed; [exact I | exact T1 | discriminate].
Qed.

End HandlerEnv.

(** ** Motions under the handler *)

Section Motions.

Variable irq : Ctl -> Ctl.
Hypothesis handlers : handler_env irq.

(** The window from any counter value: it ends, by [return] with the
    gate at its destination or by the loop condition with the motion
    still under way. *)
Lemma motion_window_arrives (tr : Z) :
  tr = GATE_OPENING \/ tr = GATE_CLOSING ->
  forall (fuel : nat) (i : Z) (s : Ctl),
    in_window tr s -> 0 <= i ->
    GATE_OPERATION_TIME <= i + SHORT_DELAY * Z.of_nat fuel ->
    exists (b : bool) (s' : Ctl),
      motion_window irq fuel i s = Some (b, s') /\
      if b then arrived tr s' else in_window tr s'.
Proof.
  intros Htr fuel. induction fuel as [| fuel IH]; intros i s Hw Hi Hf;
    rewrite motion_window_eq; destruct (i <? GATE_OPERATION_TIME) eqn:Hlt;
    try (exists false, s; split; [reflexivity | exact Hw]).
  - apply Z.ltb_lt in Hlt. cbn in Hf. lia.
  - apply Z.ltb_lt in Hlt.
    destruct (poll_in_window irq handlers tr s Htr Hw) as [(Hm & Hw') | (Hm & Ha)].
    + apply truthy_true in Hm. rewrite Hm. cbn [negb].
      assert (Hu : u16 (i + SHORT_DELAY) = i + SHORT_DELAY).
      { unfold u16. apply Z.mod_small.
        unfold GATE_OPERATION_TIME in Hlt. unfold SHORT_DELAY. lia. }
      rewrite Hu. apply IH; [exact Hw' | unfold SHORT_DELAY; lia |].
      unfold SHORT_DELAY in *. lia.
    + apply truthy_false in Hm. rewrite Hm. cbn [negb].
      exists true, (poll irq s). split; [reflexivity | exact Ha].
Qed.

(** The routines up to their loops: whatever state they start from, the
    motion begins with the other pair of relays off. *)
Lemma open_gate_begin_in_window (a : Z) (s : Ctl) :
  resting_writes (trace s) -> serviced a (trace s) ->
  in_window GATE_OPENING (open_gate_begin irq s).
Proof.
  intros Hw Hs. unfold open_gate_begin. cbv zeta.
  destruct (stop_gate_off s) as (Hr & _ & Hm).
  assert (Ht : trace (stop_gate s) = trace s) by reflexivity.
  generalize dependent (stop_gate s). intros t Hr Hm Ht.
  destruct (delay_at_rest irq handlers 0 RELAY_SWITCHING_DELAY
              (reset_watchdog t)) as (Hio & _ & _ & _ & _ & Hs' & Hw');
    [exact Hm | | discriminate | discriminate |].
  { apply (serviced_wdr a). fields. rewrite Ht. exact Hs. }
  assert (Hw1 : resting_writes
                  (trace (delay_ms irq RELAY_SWITCHING_DELAY
                            (reset_watchdog t)))).
  { apply Hw'. fields. constructor; [exact I |]. rewrite Ht. exact Hw. }
  clear Hw'.
  change (io (reset_watchdog t)) with (io t) in Hio.
  generalize dependent (delay_ms irq RELAY_SWITCHING_DELAY (reset_watchdog t)).
  intros d Hio Hs' Hw1.
  unfold in_window. frame. split_ands.
  - discriminate.
  - reflexivity.
  - reflexivity.
  - unfold opposing_off, relays_off in *.
    change (GATE_OPENING =? GATE_OPENING) with true. cbv iota. frame.
    rewrite upd_other by discriminate. rewrite upd_other by discriminate.
    rewrite upd_same. rewrite !or_testbit by bit_range.
    rewrite Hio. destruct Hr as (_ & R2 & R3 & _). rewrite R2, R3.
    split; reflexivity.
  - eapply quiet_ext_writes; [apply quiet_report_state |]. fields. exact Hw1.
  - eapply quiet_ext_serviced; [apply quiet_report_state | | discriminate].
    fields. exact Hs'.
Qed.

Lemma close_gate_begin_in_window (a : Z) (s : Ctl) :
  resting_writes (trace s) -> serviced a (trace s) ->
  in_window GATE_CLOSING (close_gate_begin irq s).
Proof.
  intros Hw Hs. unfold close_gate_begin. cbv zeta.
  destruct (stop_gate_off s) as (Hr & _ & Hm).
  assert (Ht : trace (stop_gate s) = trace s) by reflexivity.
  generalize dependent (stop_gate s). intros t Hr Hm Ht.
  destruct (delay_at_rest irq handlers 0 RELAY_SWITCHING_DELAY
              (reset_watchdog t)) as (Hio & _ & _ & _ & _ & Hs' & Hw');
    [exact Hm | | discriminate | discriminate |].
  { apply (serviced_wdr a). fields. rewrite Ht. exact Hs. }
  assert (Hw1 : resting_writes
                  (trace (delay_ms irq RELAY_SWITCHING_DELAY
                            (reset_watchdog t)))).
  { apply Hw'. fields. constructor; [exact I |]. rewrite Ht. exact Hw. }
  clear Hw'.
  change (io (reset_watchdog t)) with (io t) in Hio.
  generalize dependent (delay_ms irq RELAY_SWITCHING_DELAY (reset_watchdog t)).
  intros d Hio Hs' Hw1.
  unfold in_window. frame. split_ands.
  - discriminate.
  - reflexivity.
  - reflexivity.
  - unfold opposing_off, relays_off in *.
    change (GATE_CLOSING =? GATE_OPENING) with false. cbv iota. frame.
    rewrite upd_other by discriminate. rewrite upd_other by discriminate.
    rewrite upd_same. rewrite !or_testbit by bit_range.
    rewrite Hio. destruct Hr as (R1 & _ & _ & R4). rewrite R1, R4.
    split; reflexivity.
  - eapply quiet_ext_writes; [apply quiet_report_state |]. fields. exact Hw1.
  - eapply quiet_ext_serviced; [apply quiet_report_state | | discriminate].
    fields. exact Hs'.
Qed.

End Motions.

(** The routines after a full window. *)
Lemma open_gate_finish_arrived (s : Ctl) :
  in_window GATE_OPENING s -> arrived GATE_OPENING (open_gate_finish s).
Proof.
  intros (_ & _ & Hi & _ & Hw & Hs).
  destruct (open_gate_finish_fields s) as (Fr & Fl & Fm & Fg & Fe & _).
  assert (Q : quiet_ext (trace s) (trace (open_gate_finish s))).
  { unfold open_gate_finish. cbv zeta.
    eapply quiet_ext_trans; [| apply quiet_uart].
    eapply quiet_ext_trans; [| apply quiet_report_state].
    exact (quiet_write_gate_state GATE_OPEN
             (set_gate_state GATE_OPEN (stop_gate s))
             (or_intror eq_refl)). }
  assert (Fi : idle_timer_ms (open_gate_finish s) = idle_timer_ms s)
    by (unfold open_gate_finish; cbv zeta; frame; reflexivity).
  generalize dependent (open_gate_finish s). intros f Fr Fl Fm Fg Fe Q Fi.
  unfold arrived, at_rest. rewrite Fg, Fe, Fi.
  split_ands; try assumption; try discriminate; try reflexivity.
  - exact (quiet_ext_writes _ _ Q Hw).
  - apply (quiet_ext_serviced _ _ _ Q Hs). discriminate.
Qed.

Lemma close_gate_finish_arrived (s : Ctl) :
  in_window GATE_CLOSING s -> arrived GATE_CLOSING (close_gate_finish s).
Proof.
  intros (_ & _ & Hi & _ & Hw & Hs).
  destruct (close_gate_finish_fields s) as (Fr & Fl & Fm & Fg & Fe & _).
  assert (Q : quiet_ext (trace s) (trace (close_gate_finish s))).
  { unfold close_gate_finish. cbv zeta.
    eapply quiet_ext_trans; [| apply quiet_uart].
    eapply quiet_ext_trans; [| apply quiet_report_state].
    exact (quiet_write_gate_state GATE_CLOSED
             (set_gate_state GATE_CLOSED (stop_gate s))
             (or_introl eq_refl)). }
  assert (Fi : idle_timer_ms (close_gate_finish s) = idle_timer_ms s)
    by (unfold close_gate_finish; cbv zeta; frame; reflexivity).
  generalize dependent (close_gate_finish s). intros f Fr Fl Fm Fg Fe Q Fi.
  unfold arrived, at_rest. rewrite Fg, Fe, Fi.
  split_ands; try assumption; try discriminate; try reflexivity.
  - exact (quiet_ext_writes _ _ Q Hw).
  - apply (quiet_ext_serviced _ _ _ Q Hs). discriminate.
Qed.

Lemma window_polls_fuel (fuel : nat) :
  (WINDOW_POLLS <= fuel)%nat ->
  GATE_OPERATION_TIME <= 0 + SHORT_DELAY * Z.of_nat fuel.
Proof.
  intros H. assert (E : WINDOW_POLLS = 3000%nat) by reflexivity.
  unfold GATE_OPERATION_TIME, SHORT_DELAY. lia.
Qed.

Section Arrivals.

Variable irq : Ctl -> Ctl.
Hypothesis handlers : handler_env irq.
Variable fuel : nat.
Hypothesis enough : (WINDOW_POLLS <= fuel)%nat.

Lemma open_gate_arrives (a : Z) (s : Ctl) :
  resting_writes (trace s) -> serviced a (trace s) ->
  exists s', open_gate irq fuel s = Some s' /\ arrived GATE_OPENING s'.
Proof.
  intros Hw Hs. unfold open_gate.
  destruct (motion_window_arrives irq handlers GATE_OPENING
              (or_introl eq_refl) fuel 0 (open_gate_begin irq s))
    as (b & s' & E & P).
  - exact (open_gate_begin_in_window irq handlers a s Hw Hs).
  - lia.
  - exact (window_polls_fuel fuel enough).
  - rewrite E. destruct b.
    + exists s'. split; [reflexivity | exact P].
    + exists (open_gate_finish s'). split; [reflexivity |].
      apply open_gate_finish_arrived. exact P.
Qed.

Lemma close_gate_arrives (a : Z) (s : Ctl) :
  resting_writes (trace s) -> serviced a (trace s) ->
  exists s', close_gate irq fuel s = Some s' /\ arrived GATE_CLOSING s'.
Proof.
  intros Hw Hs. unfold close_gate.
  destruct (motion_window_arrives irq handlers GATE_CLOSING
              (or_intror eq_refl) fuel 0 (close_gate_begin irq s))
    as (b & s' & E & P).
  - exact (close_gate_begin_in_window irq handlers a s Hw Hs).
  - lia.
  - exact (window_polls_fuel fuel enough).
  - rewrite E. destruct b.
    + exists s'. split; [reflexivity | exact P].
    + exists (close_gate_finish s'). split; [reflexivity |].
      apply close_gate_finish_arrived. exact P.
Qed.

(** The direction [toggle_gate] takes from a gate state. *)
Lemma toggle_gate_arrives (a : Z) (s : Ctl) :
  resting_writes (trace s) -> serviced a (trace s) ->
  exists s',
    toggle_gate irq fuel s = Some s' /\
    arrived (if (gate_state s =? GATE_CLOSED) || (gate_state s =? GATE_CLOSING)
             then GATE_OPENING else GATE_CLOSING) s'.
Proof.
  intros Hw Hs. unfold toggle_gate, toggle_prologue. cbv zeta. fields.
  assert (Hw0 : resting_writes (EvWdr :: trace s))
    by (constructor; [exact I | exact Hw]).
  assert (Hs0 : serviced 0 (EvWdr :: trace s))
    by exact (serviced_wdr a _ Hs).
  destruct ((gate_state s =? GATE_CLOSED) || (gate_state s =? GATE_CLOSING)).
  - destruct (gate_state s =? GATE_CLOSING);
      apply (open_gate_arrives 0); fields;
      solve [ constructor; [exact I | exact Hw0]
            | apply serviced_untimed; [exact I | exact Hs0 | discriminate] ].
  - destruct (gate_state s =? GATE_OPENING);
      apply (close_gate_arrives 0); fields;
      solve [ constructor; [exact I | exact Hw0]
            | apply serviced_untimed; [exact I | exact Hs0 | discriminate] ].
Qed.

End Arrivals.

(** ** The main loop under the handler *)

Lemma at_rest_ext (a b : Ctl) :
  io b = io a -> gate_state b = gate_state a -> gate_moving b = gate_moving a ->
  eeprom b EEPROM_ADDR = eeprom a EEPROM_ADDR ->
  at_rest a -> at_rest b.
Proof.
  unfold at_rest, relays_off, leds_off.
  intros Hio Hg Hm He. rewrite Hio, Hg, Hm.
  rewrite (read_gate_state_ext b a He). tauto.
Qed.

Lemma perform_controlled_reset_at_rest (s : Ctl) :
  at_rest s -> resting_writes (trace s) ->
  serviced MAX_SERVICE_GAP (trace s) ->
  steady_outcome (Spinning (perform_controlled_reset s)).
Proof.
  intros Hr Hw Hs.
  destruct (perform_controlled_reset_fields s)
    as (Ef & Em & _ & Eio & Et & Er).
  assert (Hm : gate_moving s = 0) by (destruct Hr as (H & _); exact H).
  specialize (Eio Hm).
  assert (Eg : gate_state (perform_controlled_reset s) = gate_state s).
  { unfold perform_controlled_reset. cbv zeta.
    destruct (truthy _); reflexivity. }
  generalize dependent (perform_controlled_reset s).
  intros r Ef Em Eio Et Er Eg.
  cbn [steady_outcome]. split_ands.
  - destruct Hr as (_ & R1 & R2 & R3 & R4 & R5).
    unfold at_rest, relays_off, leds_off in *.
    rewrite Eio, Eg, Er. tauto.
  - rewrite Et. repeat (constructor; [solve [exact I | discriminate] |]).
    exact Hw.
  - rewrite Et. repeat (apply serviced_untimed; [exact I | | lia]).
    exact Hs.
  - exact Ef.
Qed.

Lemma supervisor_steady (s : Ctl) :
  at_rest s -> resting_writes (trace s) ->
  serviced MAX_SERVICE_GAP (trace s) -> 0 <= idle_timer_ms s ->
  steady_outcome (supervisor s).
Proof.
  intros Hr Hw Hs Hi. unfold supervisor. cbv zeta.
  assert (Hm : gate_moving s = 0) by (destruct Hr as (H & _); exact H).
  assert (Tm : truthy (gate_moving s) = false) by (apply truthy_false; exact Hm).
  rewrite Tm. cbn [negb]. rewrite andb_true_r.
  destruct (REGULAR_RESET_HOURS * MS_PER_HOUR <=? idle_timer_ms s) eqn:C1;
    cbn [andb].
  - destruct (truthy (reset_scheduled s)) eqn:C2; cbn [negb].
    + rewrite C2. cbn [andb].
      destruct (RESET_DELAY <=? idle_timer_ms s) eqn:C3.
      * apply perform_controlled_reset_at_rest; assumption.
      * apply Z.leb_le in C1. apply Z.leb_gt in C3.
        unfold REGULAR_RESET_HOURS, MS_PER_HOUR, RESET_DELAY in *. lia.
    + unfold schedule_reset. rewrite Tm, C2. cbn [negb andb]. fields.
      change (truthy 1 && (RESET_DELAY <=? 0)) with false. cbv iota.
      cbn [steady_outcome]. unfold steady. cbn [ctl ms_counter]. fields. split_ands.
      * revert Hr. apply at_rest_ext; reflexivity.
      * constructor; [exact I | exact Hw].
      * apply serviced_untimed; [exact I | exact Hs | lia].
      * lia.
      * lia.
      * lia.
      * unfold REGULAR_RESET_HOURS, MS_PER_HOUR. lia.
  - destruct (truthy (reset_scheduled s) && (RESET_DELAY <=? idle_timer_ms s)).
    + apply perform_controlled_reset_at_rest; assumption.
    + apply Z.leb_gt in C1.
      cbn [steady_outcome]. unfold steady. cbn [ctl ms_counter]. fields.
      split_ands; try assumption; lia.
Qed.

Section Steady.

Variable irq : Ctl -> Ctl.
Hypothesis handlers : handler_env irq.
Variable fuel : nat.
Hypothesis enough : (WINDOW_POLLS <= fuel)%nat.

(** The end of an iteration, from [_delay_ms(1)] on. *)
Lemma main_tick_steady (ms : Z) (s : Ctl) :
  at_rest s -> resting_writes (trace s) ->
  serviced RELAY_SWITCHING_DELAY (trace s) ->
  0 <= ms < 1000 ->
  0 <= idle_timer_ms s < REGULAR_RESET_HOURS * MS_PER_HOUR + ms ->
  steady_outcome (main_tick irq ms s).
Proof.
  intros Hr Hw Hs Hms Hi. unfold main_tick. cbv zeta.
  assert (Hm : gate_moving s = 0) by (destruct Hr as (H & _); exact H).
  destruct (delay_at_rest irq handlers RELAY_SWITCHING_DELAY 1 s Hm Hs)
    as (Dio & Dg & De & Dm & Di & Ds & Dw); [lia | discriminate |].
  specialize (Dw Hw).
  assert (Dr : at_rest (delay_ms irq 1 s)).
  { revert Hr. apply at_rest_ext; try assumption; [congruence |].
    rewrite De. reflexivity. }
  assert (Di' : 0 <= idle_timer_ms (delay_ms irq 1 s)
                < REGULAR_RESET_HOURS * MS_PER_HOUR + ms)
    by (destruct Di as [-> | ->]; unfold REGULAR_RESET_HOURS, MS_PER_HOUR in *; lia).
  clear Dio Dg De Di.
  generalize dependent (delay_ms irq 1 s). intros d Dm Ds Dw Dr Di.
  assert (Tm : truthy (gate_moving d) = false) by (apply truthy_false; exact Dm).
  rewrite Tm. cbn [negb].
  assert (Hu : u16 (ms + 1) = ms + 1)
    by (unfold u16; apply Z.mod_small; lia).
  assert (Hv : u32 (idle_timer_ms d + 1) = idle_timer_ms d + 1).
  { unfold u32. apply Z.mod_small.
    unfold REGULAR_RESET_HOURS, MS_PER_HOUR in *. lia. }
  rewrite Hu, Hv.
  assert (Ds' : serviced MAX_SERVICE_GAP (trace d))
    by (apply (serviced_weaken _ _ _ Ds); discriminate).
  assert (Dr' : at_rest (set_idle_timer_ms (idle_timer_ms d + 1) d))
    by (revert Dr; apply at_rest_ext; reflexivity).
  destruct (1000 <=? ms + 1) eqn:C.
  - apply supervisor_steady; fields; try assumption. lia.
  - apply Z.leb_gt in C. cbn [steady_outcome]. unfold steady. cbn [ctl ms_counter]. fields.
    split_ands; try assumption; lia.
Qed.

(** One iteration: it completes, and leaves the loop as it found it. *)
Lemma main_iter_steady (m : Main) :
  steady m ->
  exists o, main_iter irq fuel m = Some o /\ steady_outcome o.
Proof.
  intros (Hr & Hw & Hs & Hms & Hi). unfold main_iter. cbv zeta.
  assert (Hw0 : resting_writes (trace (reset_watchdog (ctl m))))
    by (constructor; [exact I | exact Hw]).
  assert (Hs0 : serviced 0 (trace (reset_watchdog (ctl m))))
    by exact (serviced_wdr _ _ Hs).
  destruct (truthy (button_pressed (reset_watchdog (ctl m)))).
  - destruct (toggle_gate_arrives irq handlers fuel enough 0
                (set_button_pressed 0 (reset_watchdog (ctl m))) Hw0 Hs0)
      as (s' & E & (Ar & _ & Ai & Aw & As)).
    rewrite E. eexists. split; [reflexivity |].
    apply main_tick_steady; try assumption.
    rewrite Ai. unfold REGULAR_RESET_HOURS, MS_PER_HOUR. lia.
  - eexists. split; [reflexivity |].
    apply main_tick_steady; [| exact Hw0 | | exact Hms | exact Hi].
    + revert Hr. apply at_rest_ext; reflexivity.
    + apply (serviced_weaken 0); [exact Hs0 | discriminate].
Qed.

Lemma main_loop_steady (n : nat) :
  forall o, steady_outcome o ->
  exists o', main_loop irq fuel n o = Some o' /\ steady_outcome o'.
Proof.
  induction n as [| n IH]; intros o Ho.
  - exists o. split; [reflexivity | exact Ho].
  - destruct o as [m | r].
    + destruct (main_iter_steady m Ho) as (o1 & E & H1).
      destruct (IH o1 H1) as (o' & E' & H').
      exists o'. split; [| exact H']. cbn [main_loop]. rewrite E. exact E'.
    + exists (Spinning r). split; [reflexivity | exact Ho].
Qed.

End Steady.

(** The boot leaves the loop a gate at rest. *)
Lemma boot_steady (regs : Reg -> Z) (ee : Z -> Z) :
  relays_off (startup regs ee) -> leds_off (startup regs ee) ->
  steady (main_init (startup regs ee)).
Proof.
  intros Hr Hl.
  pose proof (boot_at_rest (startup regs ee) Hr Hl eq_refl) as Br.
  destruct (main_init_flags (startup regs ee)) as (_ & _ & Bi & _ & Bc).
  pose proof (main_init_trace (startup regs ee)) as Bt.
  cbn [startup trace io eeprom idle_timer_ms] in Bt, Bi.
  rewrite app_nil_r in Bt.
  generalize dependent (main_init (startup regs ee)). intros m Br Bi Bc Bt.
  unfold steady. rewrite Bt, Bi, Bc.
  split_ands; try assumption; try lia; try reflexivity.
  - unfold boot_transcript.
    destruct (state_message _), (_ =? 0), (Z.testbit _ BORF),
      (Z.testbit _ EXTRF), (Z.testbit _ PORF), (Z.testbit _ WDRF);
      cbn [app]; repeat (constructor; [solve [exact I | discriminate] |]);
      constructor.
  - unfold boot_transcript, serviced.
    destruct (state_message _), (_ =? 0), (Z.testbit _ BORF),
      (Z.testbit _ EXTRF), (Z.testbit _ PORF), (Z.testbit _ WDRF);
      vm_compute; repeat split; discriminate.
Qed.

(** ** What the firmware keeps, whatever the button does *)

Lemma press_when_moving_handler : handler_env press_when_moving.
Proof.
  intros s. unfold press_when_moving.
  destruct (truthy (gate_moving s)); [| left; reflexivity].
  destruct (ISR_INT0 [0; 0; 4] s) as [s' |] eqn:E; [| left; reflexivity].
  right. exists [0; 0; 4]. exact E.
Qed.

Lemma startup_outputs_off (ee : Z -> Z) :
  relays_off (startup (fun _ => 0) ee) /\ leds_off (startup (fun _ => 0) ee).
Proof. unfold relays_off, leds_off. cbn. repeat split. Qed.

Section Guarantees.

Variable irq : Ctl -> Ctl.
Hypothesis handlers : handler_env irq.

Lemma delay_idle_io (d : Z) (s : Ctl) :
  gate_moving s = 0 -> io (delay_ms irq d s) = io s.
Proof.
  intros Hm. unfold delay_ms.
  destruct (handlers (emit (EvDelay d) s)) as [E | (pind & E)].
  - rewrite E. reflexivity.
  - destruct (handler_idle _ _ _ E Hm) as (Hio & _). exact Hio.
Qed.

Lemma poll_opposing_off (tr : Z) (s : Ctl) :
  opposing_off tr s -> opposing_off tr (poll irq s).
Proof.
  intros Ho. unfold poll, delay_ms.
  set (s1 := emit (EvDelay SHORT_DELAY) s).
  destruct (handlers s1) as [E | (pind & E)].
  - rewrite E. exact Ho.
  - destruct (isr_shape _ _ _ E) as (n & Hsh). cbv zeta in Hsh.
    destruct Hsh as [-> | [(_ & ->) | (_ & ->)]]; try exact Ho.
    apply relays_off_opposing.
    match goal with
    | |- relays_off (reset_watchdog (emergency_stop ?x)) =>
        destruct (stop_gate_off x) as (Hr & _);
        pose proof (emergency_stop_io x) as Hio;
        generalize dependent (emergency_stop x);
        generalize dependent (stop_gate x)
    end.
    intros t Hr e Hio. unfold relays_off in *. fields. rewrite Hio. exact Hr.
Qed.

Lemma polls_opposing_off (tr : Z) (k : nat) :
  forall s, opposing_off tr s -> opposing_off tr (polls irq k s).
Proof.
  induction k as [| k IH]; intros s Ho; [exact Ho |].
  cbn [polls]. apply IH, poll_opposing_off, Ho.
Qed.

Lemma begin_opposing_off (s : Ctl) :
  opposing_off GATE_OPENING (open_gate_begin irq s) /\
  opposing_off GATE_CLOSING (close_gate_begin irq s).
Proof.
  unfold open_gate_begin, close_gate_begin. cbv zeta.
  destruct (stop_gate_off s) as (Hr & _ & Hm).
  generalize dependent (stop_gate s). intros t Hr Hm.
  pose proof (delay_idle_io RELAY_SWITCHING_DELAY (reset_watchdog t) Hm) as Hio.
  change (io (reset_watchdog t)) with (io t) in Hio.
  generalize dependent (delay_ms irq RELAY_SWITCHING_DELAY (reset_watchdog t)).
  intros d Hio. unfold opposing_off, relays_off in *.
  change (GATE_OPENING =? GATE_OPENING) with true.
  change (GATE_CLOSING =? GATE_OPENING) with false. cbv iota. frame.
  destruct Hr as (R1 & R2 & R3 & R4).
  split;
    (rewrite upd_other by discriminate; rewrite upd_other by discriminate;
     rewrite upd_same; rewrite !or_testbit by bit_range; rewrite Hio).
  - rewrite R2, R3. split; reflexivity.
  - rewrite R1, R4. split; reflexivity.
Qed.

End Guarantees.

(** ** Motions, without their history *)

Lemma press_each_delay_handler : handler_env press_each_delay.
Proof.
  intros s. unfold press_each_delay.
  destruct (ISR_INT0 [0; 4] s) as [s' |] eqn:E; [| left; reflexivity].
  right. exists [0; 4]. exact E.
Qed.

Section Landing.

Variable irq : Ctl -> Ctl.
Hypothesis handlers : handler_env irq.

(** One turn of a window: the motion goes on as it was, or the emergency
    stop has brought the gate to its destination. *)
Lemma poll_under_way (tr : Z) (s : Ctl) :
  tr = GATE_OPENING \/ tr = GATE_CLOSING ->
  under_way tr s ->
  (gate_moving (poll irq s) <> 0 /\ under_way tr (poll irq s)) \/
  (gate_moving (poll irq s) = 0 /\ landed tr (poll irq s)).
Proof.
  intros Htr (Hm & Hg & Hi & Hr & Ho).
  unfold poll, delay_ms.
  set (s1 := emit (EvDelay SHORT_DELAY) s).
  assert (Stay : forall y,
            gate_moving y = gate_moving s -> gate_state y = gate_state s ->
            idle_timer_ms y = 0 -> reset_scheduled y = 0 -> io y = io s ->
            gate_moving (reset_watchdog y) <> 0 /\
            under_way tr (reset_watchdog y)).
  { intros y Ym Yg Yi Yr Yo.
    assert (Hm' : gate_moving (reset_watchdog y) <> 0)
      by (change (gate_moving y <> 0); rewrite Ym; exact Hm).
    split; [exact Hm' |].
    unfold under_way. split; [exact Hm' |].
    split; [change (gate_state y = tr); congruence |].
    split; [exact Yi |]. split; [exact Yr |].
    apply (opposing_off_io tr s); [| exact Ho].
    change (io s = io y). symmetry. exact Yo. }
  destruct (handlers s1) as [E | (pind & E)].
  - left. rewrite E. apply Stay; [reflexivity | reflexivity | exact Hi
                                  | exact Hr | reflexivity].
  - destruct (isr_shape _ _ _ E) as (n & Hsh). cbv zeta in Hsh.
    destruct Hsh as [Hh | [(H0 & _) | (_ & He)]].
    + left. rewrite Hh. apply Stay; [reflexivity | reflexivity | exact Hi
                                     | exact Hr | reflexivity].
    + exfalso. apply Hm. exact H0.
    + right. rewrite He.
      match goal with
      | |- context [emergency_stop ?x] =>
          destruct (emergency_stop_arrives tr x Htr Hg) as (Ar & Ag & Ai & _);
          destruct (emergency_stop_flags x) as (Fm & _ & Fr & _);
          generalize dependent (emergency_stop x)
      end.
      intros e _ Ar Ag Ai Fm Fr.
      split; [exact Fm |].
      unfold landed. split_ands; [exact Ar | exact Ag | exact Ai | exact Fr].
Qed.

Lemma motion_window_lands (tr : Z) :
  tr = GATE_OPENING \/ tr = GATE_CLOSING ->
  forall (fuel : nat) (i : Z) (s : Ctl),
    under_way tr s -> 0 <= i ->
    GATE_OPERATION_TIME <= i + SHORT_DELAY * Z.of_nat fuel ->
    exists (b : bool) (s' : Ctl),
      motion_window irq fuel i s = Some (b, s') /\
      if b then landed tr s' else under_way tr s'.
Proof.
  intros Htr fuel. induction fuel as [| fuel IH]; intros i s Hw Hi Hf;
    rewrite motion_window_eq; destruct (i <? GATE_OPERATION_TIME) eqn:Hlt;
    try (exists false, s; split; [reflexivity | exact Hw]).
  - apply Z.ltb_lt in Hlt. cbn in Hf. lia.
  - apply Z.ltb_lt in Hlt.
    destruct (poll_under_way tr s Htr Hw) as [(Hm & Hw') | (Hm & Ha)].
    + apply truthy_true in Hm. rewrite Hm. cbn [negb].
      assert (Hu : u16 (i + SHORT_DELAY) = i + SHORT_DELAY).
      { unfold u16. apply Z.mod_small.
        unfold GATE_OPERATION_TIME in Hlt. unfold SHORT_DELAY. lia. }
      rewrite Hu. apply IH; [exact Hw' | unfold SHORT_DELAY; lia |].
      unfold SHORT_DELAY in *. lia.
    + apply truthy_false in Hm. rewrite Hm. cbn [negb].
      exists true, (poll irq s). split; [reflexivity | exact Ha].
Qed.

Lemma open_gate_begin_under_way (s : Ctl) :
  under_way GATE_OPENING (open_gate_begin irq s).
Proof.
  pose proof (open_gate_begin_fields irq s) as B. cbv zeta in B.
  destruct B as (_ & _ & _ & _ & Hg & Hm & Hi & Hr).
  destruct (begin_opposing_off irq handlers s) as (Ho & _).
  unfold under_way. rewrite Hm.
  split_ands; try assumption. discriminate.
Qed.

Lemma close_gate_begin_under_way (s : Ctl) :
  under_way GATE_CLOSING (close_gate_begin irq s).
Proof.
  pose proof (close_gate_begin_fields irq s) as B. cbv zeta in B.
  destruct B as (_ & _ & _ & _ & Hg & Hm & Hi & Hr).
  destruct (begin_opposing_off irq handlers s) as (_ & Ho).
  unfold under_way. rewrite Hm.
  split_ands; try assumption. discriminate.
Qed.

End Landing.

Lemma open_gate_finish_landed (s : Ctl) :
  under_way GATE_OPENING s -> landed GATE_OPENING (open_gate_finish s).
Proof.
  intros (_ & _ & Hi & Hr & _).
  destruct (open_gate_finish_fields s) as (Fr & Fl & Fm & Fg & Fe & _).
  assert (Fi : idle_timer_ms (open_gate_finish s) = idle_timer_ms s)
    by (unfold open_gate_finish; cbv zeta; frame; reflexivity).
  assert (Fs : reset_scheduled (open_gate_finish s) = reset_scheduled s)
    by (unfold open_gate_finish; cbv zeta; frame; reflexivity).
  generalize dependent (open_gate_finish s). intros f Fr Fl Fm Fg Fe Fi Fs.
  unfold landed, at_rest. rewrite Fg, Fe, Fi, Fs.
  split_ands; try assumption; try discriminate; reflexivity.
Qed.

Lemma close_gate_finish_landed (s : Ctl) :
  under_way GATE_CLOSING s -> landed GATE_CLOSING (close_gate_finish s).
Proof.
  intros (_ & _ & Hi & Hr & _).
  destruct (close_gate_finish_fields s) as (Fr & Fl & Fm & Fg & Fe & _).
  assert (Fi : idle_timer_ms (close_gate_finish s) = idle_timer_ms s)
    by (unfold close_gate_finish; cbv zeta; frame; reflexivity).
  assert (Fs : reset_scheduled (close_gate_finish s) = reset_scheduled s)
    by (unfold close_gate_finish; cbv zeta; frame; reflexivity).
  generalize dependent (close_gate_finish s). intros f Fr Fl Fm Fg Fe Fi Fs.
  unfold landed, at_rest. rewrite Fg, Fe, Fi, Fs.
  split_ands; try assumption; try discriminate; reflexivity.
Qed.

Section Landings.

Variable irq : Ctl -> Ctl.
Hypothesis handlers : handler_env irq.
Variable fuel : nat.
Hypothesis enough : (WINDOW_POLLS <= fuel)%nat.

(** The window entered in [w] by the opening routine, run to its end. *)
Lemma open_window_lands (w : Ctl) :
  under_way GATE_OPENING w ->
  exists s',
    match motion_window irq fuel 0 w with
    | None => None
    | Some (true, x) => Some x
    | Some (false, x) => Some (open_gate_finish x)
    end = Some s' /\ landed GATE_OPENING s'.
Proof.
  intros Hw.
  destruct (motion_window_lands irq handlers GATE_OPENING
              (or_introl eq_refl) fuel 0 w Hw)
    as (b & s' & E & P); [lia | exact (window_polls_fuel fuel enough) |].
  rewrite E. destruct b.
  - exists s'. split; [reflexivity | exact P].
  - exists (open_gate_finish s'). split; [reflexivity |].
    apply open_gate_finish_landed. exact P.
Qed.

Lemma close_window_lands (w : Ctl) :
  under_way GATE_CLOSING w ->
  exists s',
    match motion_window irq fuel 0 w with
    | None => None
    | Some (true, x) => Some x
    | Some (false, x) => Some (close_gate_finish x)
    end = Some s' /\ landed GATE_CLOSING s'.
Proof.
  intros Hw.
  destruct (motion_window_lands irq handlers GATE_CLOSING
              (or_intror eq_refl) fuel 0 w Hw)
    as (b & s' & E & P); [lia | exact (window_polls_fuel fuel enough) |].
  rewrite E. destruct b.
  - exists s'. split; [reflexivity | exact P].
  - exists (close_gate_finish s'). split; [reflexivity |].
    apply close_gate_finish_landed. exact P.
Qed.

Lemma open_gate_lands (s : Ctl) :
  exists s', open_gate irq fuel s = Some s' /\ landed GATE_OPENING s'.
Proof.
  unfold open_gate. apply open_window_lands.
  apply open_gate_begin_under_way. exact handlers.
Qed.

Lemma close_gate_lands (s : Ctl) :
  exists s', close_gate irq fuel s = Some s' /\ landed GATE_CLOSING s'.
Proof.
  unfold close_gate. apply close_window_lands.
  apply close_gate_begin_under_way. exact handlers.
Qed.

Lemma toggle_gate_lands (s : Ctl) :
  exists s',
    toggle_gate irq fuel s = Some s' /\
    landed (if (gate_state s =? GATE_CLOSED) || (gate_state s =? GATE_CLOSING)
            then GATE_OPENING else GATE_CLOSING) s'.
Proof.
  unfold toggle_gate, toggle_prologue. cbv zeta. fields.
  destruct ((gate_state s =? GATE_CLOSED) || (gate_state s =? GATE_CLOSING)).
  - destruct (gate_state s =? GATE_CLOSING); apply open_gate_lands.
  - destruct (gate_state s =? GATE_OPENING); apply close_gate_lands.
Qed.

End Landings.

(** [toggle_gate] written out through the routine it calls. *)
Lemma toggle_gate_opens (irq : Ctl -> Ctl) (fuel : nat) (s : Ctl) :
  gate_state s = GATE_CLOSED \/ gate_state s = GATE_CLOSING ->
  toggle_gate irq fuel s =
    match
      motion_window irq fuel 0
        (open_gate_begin irq
           (uart_tx_string_P
              (if gate_state s =? GATE_CLOSING
               then line "Gate currently closing, changing direction to opening"
               else line "Gate currently closed, opening")
              (toggle_prologue s)))
    with
    | None => None
    | Some (true, x) => Some x
    | Some (false, x) => Some (open_gate_finish x)
    end.
Proof.
  intros E. unfold toggle_gate, open_gate. cbv zeta.
  change (gate_state (toggle_prologue s)) with (gate_state s).
  destruct E as [E | E]; rewrite E; reflexivity.
Qed.

Lemma toggle_gate_closes (irq : Ctl -> Ctl) (fuel : nat) (s : Ctl) :
  gate_state s <> GATE_CLOSED -> gate_state s <> GATE_CLOSING ->
  toggle_gate irq fuel s =
    match
      motion_window irq fuel 0
        (close_gate_begin irq
           (uart_tx_string_P
              (if gate_state s =? GATE_OPENING
               then line "Gate currently opening, changing direction to closing"
               else line "Gate currently open, closing")
              (toggle_prologue s)))
    with
    | None => None
    | Some (true, x) => Some x
    | Some (false, x) => Some (close_gate_finish x)
    end.
Proof.
  intros H0 H1. unfold toggle_gate, close_gate. cbv zeta.
  change (gate_state (toggle_prologue s)) with (gate_state s).
  destruct (Z.eqb_spec (gate_state s) GATE_CLOSED); [contradiction |].
  destruct (Z.eqb_spec (gate_state s) GATE_CLOSING); [contradiction |].
  cbn [orb]. destruct (gate_state s =? GATE_OPENING); reflexivity.
Qed.

Lemma window_polls_enough : (WINDOW_POLLS <= 3000)%nat.
Proof. vm_compute. apply Nat.leb_le. reflexivity. Qed.

Lemma steady_outcome_facts (o : Outcome) :
  steady_outcome o ->
  at_rest (outcome_ctl o) /\ resting_writes (trace (outcome_ctl o)) /\
  serviced MAX_SERVICE_GAP (trace (outcome_ctl o)).
Proof.
  destruct o as [m | r]; cbn [steady_outcome outcome_ctl].
  - intros (H1 & H2 & H3 & _). split_ands; assumption.
  - intros (H1 & H2 & H3 & _). split_ands; assumption.
Qed.

(** From power-up through any number of iterations of the main loop. *)
Lemma run_steady (irq : Ctl -> Ctl) (fuel : nat) (regs : Reg -> Z)
    (ee : Z -> Z) (n : nat) :
  handler_env irq -> (WINDOW_POLLS <= fuel)%nat ->
  relays_off (startup regs ee) -> leds_off (startup regs ee) ->
  exists o,
    main_loop irq fuel n (Running (main_init (startup regs ee))) = Some o /\
    steady_outcome o.
Proof.
  intros Hh Hf Hr Hl.
  apply (main_loop_steady irq Hh fuel Hf n).
  exact (boot_steady regs ee Hr Hl).
Qed.

(** X12: the two relay pairs of the bridge are never energised together.
    From the state in which a routine enters its window, at every turn
    of the loop and whatever the button handler has done in the delays
    (nothing, a bounce, a queued press, an emergency stop), the relays
    of the other direction are off: K2 and K3 while opening, K1 and K4
    while closing. *)
Theorem opposing_relays_stay_off (irq : Ctl -> Ctl) (s : Ctl) (k : nat) :
  handler_env irq ->
  opposing_off GATE_OPENING (polls irq k (open_gate_begin irq s)) /\
  opposing_off GATE_CLOSING (polls irq k (close_gate_begin irq s)).
Proof.
  intros Hh. destruct (begin_opposing_off irq Hh s) as (Ho & Hc).
  split; apply polls_opposing_off; assumption.
Qed.

Lemma opposing_relays_stay_off_witness :
  handler_env press_when_moving /\
  opposing_off GATE_OPENING
    (polls press_when_moving 7 (open_gate_begin press_when_moving stale_closing)) /\
  opposing_off GATE_CLOSING
    (polls press_when_moving 7 (close_gate_begin press_when_moving stale_closing)).
Proof.
  split; [exact press_when_moving_handler |].
  exact (opposing_relays_stay_off press_when_moving stale_closing 7
           press_when_moving_handler).
Defined.

(** X13: where every run of the button handler returns, [toggle_gate]
    comes back, and with the gate where it was sent.  In an interrupt
    context in which each delay sees either no edge or one run of the
    handler that has returned (the handler itself waits for the release
    of the button without time-out), and whatever such runs do (nothing,
    a queued press, an emergency stop), the call returns within the
    turns of one window; the gate is then at rest (flag clear, relays
    and indicators off), its state is Open when it was Closed or Closing
    and Closed otherwise, the store reads that state back, and the idle
    timer and the scheduled-reset flag are zero.  If moreover the
    history before the call wrote no transient code to the gate-state
    cell and kept the watchdog serviced, so does the history after it:
    no transient code written, never more than 360 ms of delay between
    two services. *)
Theorem toggle_gate_reaches_destination (irq : Ctl -> Ctl) (fuel : nat)
    (s : Ctl) :
  handler_env irq -> (WINDOW_POLLS <= fuel)%nat ->
  exists s',
    toggle_gate irq fuel s = Some s' /\
    gate_state s' =
      (if (gate_state s =? GATE_CLOSED) || (gate_state s =? GATE_CLOSING)
       then GATE_OPEN else GATE_CLOSED) /\
    read_gate_state s' = gate_state s' /\
    gate_moving s' = 0 /\ relays_off s' /\ leds_off s' /\
    idle_timer_ms s' = 0 /\ reset_scheduled s' = 0 /\
    (forall a,
       resting_writes (trace s) -> serviced a (trace s) ->
       resting_writes (trace s') /\
       gaps_leb MAX_SERVICE_GAP (trace s') = true).
Proof.
  intros Hh Hf.
  destruct (toggle_gate_lands irq Hh fuel Hf s)
    as (s' & E & (Am & Ar & Al & _ & _ & Ae) & Ag & Ai & As).
  exists s'. split_ands; try assumption.
  - rewrite Ag.
    destruct ((gate_state s =? GATE_CLOSED) || (gate_state s =? GATE_CLOSING));
      reflexivity.
  - intros a Hw Hs.
    destruct (toggle_gate_arrives irq Hh fuel Hf a s Hw Hs)
      as (s2 & E2 & _ & _ & _ & Aw & (Ag2 & _)).
    rewrite E in E2. injection E2 as <-. split; assumption.
Qed.

Lemma toggle_gate_reaches_destination_witness :
  handler_env press_each_delay /\
  exists s',
    toggle_gate press_each_delay 3000 mid_opening = Some s' /\
    gate_state s' = GATE_CLOSED /\ relays_off s'.
Proof.
  split; [exact press_each_delay_handler |].
  destruct (toggle_gate_reaches_destination press_each_delay 3000
              mid_opening press_each_delay_handler window_polls_enough)
    as (s' & E & Hg & _ & _ & Hr & _).
  exists s'. split_ands; assumption.
Defined.

(** X14: where every run of the button handler returns, the gate is at
    rest between two iterations of the main loop.  From power-up with
    the outputs low, in an interrupt context in which each delay sees
    either no edge or one run of the handler that has returned, after
    any number of iterations no routine is left hanging, the moving flag
    is clear, all relays and both indicators are off, the gate state is
    not transient and it is the state the store reads back; the same
    holds where the firmware has stopped for its controlled reset.  (A
    button held low keeps the handler waiting for the release, and with
    it the iteration.) *)
Theorem main_loop_gate_at_rest (irq : Ctl -> Ctl) (fuel : nat)
    (regs : Reg -> Z) (ee : Z -> Z) (n : nat) :
  handler_env irq -> (WINDOW_POLLS <= fuel)%nat ->
  relays_off (startup regs ee) -> leds_off (startup regs ee) ->
  exists o,
    main_loop irq fuel n (Running (main_init (startup regs ee))) = Some o /\
    at_rest (outcome_ctl o).
Proof.
  intros Hh Hf Hr Hl.
  destruct (run_steady irq fuel regs ee n Hh Hf Hr Hl) as (o & E & Ho).
  exists o. split; [exact E |].
  exact (proj1 (steady_outcome_facts o Ho)).
Qed.

(** The button pressed in every delay: the first iteration leaves a
    press pending, the second opens the gate and is stopped at the first
    turn of its window. *)
Lemma main_loop_gate_at_rest_witness :
  handler_env press_each_delay /\
  relays_off (startup (fun _ => 0) (fun _ => 0)) /\
  leds_off (startup (fun _ => 0) (fun _ => 0)) /\
  exists o,
    main_loop press_each_delay 3000 2
      (Running (main_init (startup (fun _ => 0) (fun _ => 0)))) = Some o /\
    at_rest (outcome_ctl o) /\
    gate_state (outcome_ctl o) = GATE_OPEN /\
    eeprom (outcome_ctl o) EEPROM_ADDR = GATE_OPEN.
Proof.
  destruct (startup_outputs_off (fun _ => 0)) as (Hr & Hl).
  split; [exact press_each_delay_handler |].
  split; [exact Hr |]. split; [exact Hl |].
  destruct (main_loop_gate_at_rest press_each_delay 3000 (fun _ => 0)
              (fun _ => 0) 2 press_each_delay_handler window_polls_enough
              Hr Hl) as (o & E & Ha).
  exists o. split; [exact E |]. split; [exact Ha |].
  assert (S : match
                main_loop press_each_delay 3000 2
                  (Running (main_init (startup (fun _ => 0) (fun _ => 0))))
              with
              | Some o' =>
                  (gate_state (outcome_ctl o') =? GATE_OPEN)
                  && (eeprom (outcome_ctl o') EEPROM_ADDR =? GATE_OPEN)
              | None => false
              end = true) by (vm_compute; reflexivity).
  rewrite E in S. apply andb_true_iff in S. destruct S as (S1 & S2).
  split; apply Z.eqb_eq; assumption.
Defined.

(** X15: the firmware never stores a transient gate state.  From
    power-up with the outputs low, through any number of iterations of
    the main loop and whatever the button does, every write to the
    gate-state cell of the EEPROM carries the code of Closed or of
    Open. *)
Theorem store_written_with_resting_states (irq : Ctl -> Ctl) (fuel : nat)
    (regs : Reg -> Z) (ee : Z -> Z) (n : nat) :
  handler_env irq -> (WINDOW_POLLS <= fuel)%nat ->
  relays_off (startup regs ee) -> leds_off (startup regs ee) ->
  exists o,
    main_loop irq fuel n (Running (main_init (startup regs ee))) = Some o /\
    forall v,
      In (EvEepromWrite EEPROM_ADDR v) (trace (outcome_ctl o)) ->
      v = GATE_CLOSED \/ v = GATE_OPEN.
Proof.
  intros Hh Hf Hr Hl.
  destruct (run_steady irq fuel regs ee n Hh Hf Hr Hl) as (o & E & Ho).
  exists o. split; [exact E |].
  destruct (steady_outcome_facts o Ho) as (_ & Hw & _).
  intros v Hin. unfold resting_writes in Hw.
  rewrite Forall_forall in Hw. exact (Hw _ Hin eq_refl).
Qed.

Lemma store_written_with_resting_states_witness :
  handler_env press_when_moving /\
  relays_off (startup (fun _ => 0) (fun _ => GATE_OPENING)) /\
  leds_off (startup (fun _ => 0) (fun _ => GATE_OPENING)) /\
  exists o,
    main_loop press_when_moving 3000 10
      (Running (main_init (startup (fun _ => 0) (fun _ => GATE_OPENING))))
      = Some o /\
    forall v,
      In (EvEepromWrite EEPROM_ADDR v) (trace (outcome_ctl o)) ->
      v = GATE_CLOSED \/ v = GATE_OPEN.
Proof.
  destruct (startup_outputs_off (fun _ => GATE_OPENING)) as (Hr & Hl).
  split; [exact press_when_moving_handler |].
  split; [exact Hr |]. split; [exact Hl |].
  exact (store_written_with_resting_states press_when_moving 3000
           (fun _ => 0) (fun _ => GATE_OPENING) 10
           press_when_moving_handler window_polls_enough Hr Hl).
Defined.

(** X16: the watchdog is serviced in time.  From power-up with the
    outputs low, through any number of iterations of the main loop and
    whatever the button does, the delays executed between two
    consecutive watchdog services never add up to more than 360 ms: the
    dead time, one quantum of the window and the debounce delay in a
    row. *)
Theorem watchdog_serviced_within_gap (irq : Ctl -> Ctl) (fuel : nat)
    (regs : Reg -> Z) (ee : Z -> Z) (n : nat) :
  handler_env irq -> (WINDOW_POLLS <= fuel)%nat ->
  relays_off (startup regs ee) -> leds_off (startup regs ee) ->
  exists o,
    main_loop irq fuel n (Running (main_init (startup regs ee))) = Some o /\
    gaps_leb MAX_SERVICE_GAP (trace (outcome_ctl o)) = true.
Proof.
  intros Hh Hf Hr Hl.
  destruct (run_steady irq fuel regs ee n Hh Hf Hr Hl) as (o & E & Ho).
  exists o. split; [exact E |].
  destruct (steady_outcome_facts o Ho) as (_ & _ & (Hg & _)). exact Hg.
Qed.

Lemma watchdog_serviced_within_gap_witness :
  handler_env press_when_moving /\
  relays_off (startup (fun _ => 0) (fun _ => 0)) /\
  leds_off (startup (fun _ => 0) (fun _ => 0)) /\
  exists o,
    main_loop press_when_moving 3000 4000
      (Running (main_init (startup (fun _ => 0) (fun _ => 0)))) = Some o /\
    gaps_leb MAX_SERVICE_GAP (trace (outcome_ctl o)) = true.
Proof.
  destruct (startup_outputs_off (fun _ => 0)) as (Hr & Hl).
  split; [exact press_when_moving_handler |].
  split; [exact Hr |]. split; [exact Hl |].
  exact (watchdog_serviced_within_gap press_when_moving 3000 (fun _ => 0)
           (fun _ => 0) 4000 press_when_moving_handler window_polls_enough
           Hr Hl).
Defined.

(** X17: the counters of the main loop stay in range.  While the loop
    runs, the millisecond counter is below 1000 and the idle timer is
    below six hours and one second, so neither the 16-bit counter nor
    the 32-bit timer ever wraps; where the firmware has stopped for its
    controlled reset, the reset marker is in the store. *)
Theorem main_loop_counters_in_range (irq : Ctl -> Ctl) (fuel : nat)
    (regs : Reg -> Z) (ee : Z -> Z) (n : nat) :
  handler_env irq -> (WINDOW_POLLS <= fuel)%nat ->
  relays_off (startup regs ee) -> leds_off (startup regs ee) ->
  exists o,
    main_loop irq fuel n (Running (main_init (startup regs ee))) = Some o /\
    match o with
    | Running m =>
        0 <= ms_counter m < 1000 /\
        0 <= idle_timer_ms (ctl m) < REGULAR_RESET_HOURS * MS_PER_HOUR + 1000
    | Spinning r => eeprom r EEPROM_RESET_FLAG = 1
    end.
Proof.
  intros Hh Hf Hr Hl.
  destruct (run_steady irq fuel regs ee n Hh Hf Hr Hl) as (o & E & Ho).
  exists o. split; [exact E |].
  destruct o as [m | r]; cbn [steady_outcome] in Ho.
  - destruct Ho as (_ & _ & _ & Hms & Hi). split; [exact Hms | lia].
  - destruct Ho as (_ & _ & _ & Hf'). exact Hf'.
Qed.

Lemma main_loop_counters_in_range_witness :
  handler_env no_irq /\
  relays_off (startup (fun _ => 0) (fun _ => GATE_OPEN)) /\
  leds_off (startup (fun _ => 0) (fun _ => GATE_OPEN)) /\
  exists o,
    main_loop no_irq 3000 1000
      (Running (main_init (startup (fun _ => 0) (fun _ => GATE_OPEN))))
      = Some o /\
    match o with
    | Running m =>
        0 <= ms_counter m < 1000 /\
        0 <= idle_timer_ms (ctl m) < REGULAR_RESET_HOURS * MS_PER_HOUR + 1000
    | Spinning r => eeprom r EEPROM_RESET_FLAG = 1
    end.
Proof.
  assert (Hh : handler_env no_irq) by (intros s; left; reflexivity).
  destruct (startup_outputs_off (fun _ => GATE_OPEN)) as (Hr & Hl).
  split; [exact Hh |].
  split; [exact Hr |]. split; [exact Hl |].
  exact (main_loop_counters_in_range no_irq 3000 (fun _ => 0)
           (fun _ => GATE_OPEN) 1000 Hh window_polls_enough Hr Hl).
Defined.

(** ** Toggle *)

(** C1: a toggle resets the idle timer and the scheduled-reset flag and
    then, by the gate state alone, flips the intent.  From Closed or
    Closing it is the open motion: the gate enters the window in state
    Opening, relays K1 and K4 energised, the moving flag set, timer and
    flag still reset, and the toggle is that window run to its end; from
    Open or Opening it is the close motion, entered in state Closing
    with K2 and K3 energised.  Where every run of the button handler
    during the delays returns, the toggle returns with the gate Open,
    respectively Closed, the flag clear and timer and scheduled-reset
    flag still reset. *)
Theorem toggle_gate_flips_intent (irq : Ctl -> Ctl) (fuel : nat) (s : Ctl) :
  let p := toggle_prologue s in
  (idle_timer_ms p = 0 /\ reset_scheduled p = 0 /\
   gate_state p = gate_state s) /\
  (gate_state s = GATE_CLOSED \/ gate_state s = GATE_CLOSING ->
     let w :=
       open_gate_begin irq
         (uart_tx_string_P
            (if gate_state s =? GATE_CLOSING
             then line "Gate currently closing, changing direction to opening"
             else line "Gate currently closed, opening") p) in
     (gate_state w = GATE_OPENING /\ gate_moving w = 1 /\
      Z.testbit (io w PORTB) RELAY_K1 = true /\
      Z.testbit (io w PORTB) RELAY_K4 = true /\
      idle_timer_ms w = 0 /\ reset_scheduled w = 0) /\
     toggle_gate irq fuel s =
       match motion_window irq fuel 0 w with
       | None => None
       | Some (true, x) => Some x
       | Some (false, x) => Some (open_gate_finish x)
       end /\
     (handler_env irq -> (WINDOW_POLLS <= fuel)%nat ->
      exists s',
        toggle_gate irq fuel s = Some s' /\
        gate_state s' = GATE_OPEN /\ gate_moving s' = 0 /\
        idle_timer_ms s' = 0 /\ reset_scheduled s' = 0)) /\
  (gate_state s = GATE_OPEN \/ gate_state s = GATE_OPENING ->
     let w :=
       close_gate_begin irq
         (uart_tx_string_P
            (if gate_state s =? GATE_OPENING
             then line "Gate currently opening, changing direction to closing"
             else line "Gate currently open, closing") p) in
     (gate_state w = GATE_CLOSING /\ gate_moving w = 1 /\
      Z.testbit (io w PORTB) RELAY_K2 = true /\
      Z.testbit (io w PORTB) RELAY_K3 = true /\
      idle_timer_ms w = 0 /\ reset_scheduled w = 0) /\
     toggle_gate irq fuel s =
       match motion_window irq fuel 0 w with
       | None => None
       | Some (true, x) => Some x
       | Some (false, x) => Some (close_gate_finish x)
       end /\
     (handler_env irq -> (WINDOW_POLLS <= fuel)%nat ->
      exists s',
        toggle_gate irq fuel s = Some s' /\
        gate_state s' = GATE_CLOSED /\ gate_moving s' = 0 /\
        idle_timer_ms s' = 0 /\ reset_scheduled s' = 0)).
Proof.
  intros p. subst p. split; [split_ands; reflexivity |]. split.
  - intros E w.
    pose proof (open_gate_begin_fields irq
                  (uart_tx_string_P
                     (if gate_state s =? GATE_CLOSING
                      then line "Gate currently closing, changing direction to opening"
                      else line "Gate currently closed, opening")
                     (toggle_prologue s))) as B.
    cbv zeta in B. fold w in B.
    destruct B as (B1 & B4 & _ & _ & Bg & Bm & Bi & Br).
    split; [split_ands; assumption |].
    split; [exact (toggle_gate_opens irq fuel s E) |].
    intros Hh Hf.
    destruct (toggle_gate_lands irq Hh fuel Hf s)
      as (s' & Es & (Am & _) & Ag & Ai & Ar).
    exists s'. split_ands; try assumption.
    rewrite Ag. destruct E as [E | E]; rewrite E; reflexivity.
  - intros E w.
    pose proof (close_gate_begin_fields irq
                  (uart_tx_string_P
                     (if gate_state s =? GATE_OPENING
                      then line "Gate currently opening, changing direction to closing"
                      else line "Gate currently open, closing")
                     (toggle_prologue s))) as B.
    cbv zeta in B. fold w in B.
    destruct B as (B2 & B3 & _ & _ & Bg & Bm & Bi & Br).
    split; [split_ands; assumption |].
    split.
    { apply toggle_gate_closes; destruct E as [E | E]; rewrite E; discriminate. }
    intros Hh Hf.
    destruct (toggle_gate_lands irq Hh fuel Hf s)
      as (s' & Es & (Am & _) & Ag & Ai & Ar).
    exists s'. split_ands; try assumption.
    rewrite Ag. destruct E as [E | E]; rewrite E; reflexivity.
Qed.

Lemma toggle_gate_flips_intent_witness :
  handler_env press_when_moving /\
  gate_state idle_closed = GATE_CLOSED /\
  (exists s',
     toggle_gate press_when_moving 3000 idle_closed = Some s' /\
     gate_state s' = GATE_OPEN) /\
  gate_state mid_opening = GATE_OPENING /\
  (exists s',
     toggle_gate press_when_moving 3000 mid_opening = Some s' /\
     gate_state s' = GATE_CLOSED).
Proof.
  split; [exact press_when_moving_handler |].
  split; [reflexivity |]. split.
  - destruct (toggle_gate_flips_intent press_when_moving 3000 idle_closed)
      as (_ & H & _).
    destruct (H (or_introl eq_refl)) as (_ & _ & R).
    destruct (R press_when_moving_handler window_polls_enough)
      as (s' & E & G & _).
    exists s'. split; assumption.
  - split; [reflexivity |].
    destruct (toggle_gate_flips_intent press_when_moving 3000 mid_opening)
      as (_ & _ & H).
    destruct (H (or_intror eq_refl)) as (_ & _ & R).
    destruct (R press_when_moving_handler window_polls_enough)
      as (s' & E & G & _).
    exists s'. split; assumption.
Defined.

(** C10: a stored byte other than the codes of Closing and Opening is
    returned by [read_gate_state] as it is, whether or not it is the code
    of a gate state; it becomes the gate state at boot; and [toggle_gate]
    takes every such value other than Closed, out-of-range ones
    included, as the Open side: the toggle is the window of the close
    motion, entered in state Closing with relays K2 and K3 energised and
    the moving flag set, and where every run of the button handler
    during the delays returns it ends with the gate Closed and the store
    reading Closed. *)
Theorem unnormalised_byte_reaches_toggle (b : Z) (s : Ctl) :
  eeprom s EEPROM_ADDR = b ->
  b <> GATE_CLOSING -> b <> GATE_OPENING ->
  read_gate_state s = b /\
  gate_state (ctl (main_init s)) = b /\
  (forall irq fuel t,
     gate_state t = b -> b <> GATE_CLOSED ->
     let w :=
       close_gate_begin irq
         (uart_tx_string_P (line "Gate currently open, closing")
            (toggle_prologue t)) in
     (gate_state w = GATE_CLOSING /\ gate_moving w = 1 /\
      Z.testbit (io w PORTB) RELAY_K2 = true /\
      Z.testbit (io w PORTB) RELAY_K3 = true) /\
     toggle_gate irq fuel t =
       match motion_window irq fuel 0 w with
       | None => None
       | Some (true, x) => Some x
       | Some (false, x) => Some (close_gate_finish x)
       end /\
     (handler_env irq -> (WINDOW_POLLS <= fuel)%nat ->
      exists t',
        toggle_gate irq fuel t = Some t' /\
        gate_state t' = GATE_CLOSED /\ read_gate_state t' = GATE_CLOSED /\
        gate_moving t' = 0 /\ relays_off t')).
Proof.
  intros Hb H1 H2.
  assert (Hr : read_gate_state s = b).
  { rewrite read_gate_state_cases. cbv zeta. rewrite Hb.
    destruct (Z.eqb_spec b GATE_CLOSING); [contradiction |].
    destruct (Z.eqb_spec b GATE_OPENING); [contradiction |]. reflexivity. }
  split; [exact Hr |]. split; [rewrite main_init_gate_state; exact Hr |].
  intros irq fuel t Ht H0 w.
  pose proof (close_gate_begin_fields irq
                (uart_tx_string_P (line "Gate currently open, closing")
                   (toggle_prologue t))) as B.
  cbv zeta in B. fold w in B.
  destruct B as (B2 & B3 & _ & _ & Bg & Bm & _).
  split; [split_ands; assumption |].
  assert (N0 : (b =? GATE_CLOSED) = false) by (apply Z.eqb_neq; exact H0).
  assert (N1 : (b =? GATE_CLOSING) = false) by (apply Z.eqb_neq; exact H1).
  assert (N2 : (b =? GATE_OPENING) = false) by (apply Z.eqb_neq; exact H2).
  split.
  - rewrite toggle_gate_closes by (rewrite Ht; assumption).
    rewrite Ht, N2. reflexivity.
  - intros Hh Hf.
    destruct (toggle_gate_lands irq Hh fuel Hf t)
      as (t' & Es & (Am & Ar & _ & _ & _ & Ae) & Ag & _).
    rewrite Ht, N0, N1 in Ag. cbn [orb] in Ag.
    exists t'. split_ands; try assumption.
    rewrite Ae. exact Ag.
Qed.

(** A chip whose EEPROM was never programmed: every cell reads 0xFF. *)
Lemma unnormalised_byte_reaches_toggle_witness :
  let erased := startup (fun _ => 0) (fun _ => 255) in
  let booted := ctl (main_init erased) in
  gate_state booted = 255 /\
  exists t',
    toggle_gate press_each_delay 3000 booted = Some t' /\
    gate_state t' = GATE_CLOSED.
Proof.
  intros erased booted.
  destruct (unnormalised_byte_reaches_toggle 255 erased eq_refl
              ltac:(discriminate) ltac:(discriminate)) as (_ & Hg & Ht).
  split; [exact Hg |].
  destruct (Ht press_each_delay 3000%nat booted Hg ltac:(discriminate))
    as (_ & _ & R).
  destruct (R press_each_delay_handler window_polls_enough)
    as (t' & E & G & _).
  exists t'. split; assumption.
Defined.

